(** * CalorieFlow: the domain core of [App.tsx], embedded and verified

    The embedding comes first, module by module:
    - [Num]          JavaScript numbers (IEEE-754 binary64) and [Math.round];
    - [JS]           the values [JSON.parse] hands to the import code and the
                     conversions ([Number(v)], [String(v)], [parseInt],
                     truthiness, object spread) the code applies to them;
    - [Types]        [types.ts];
    - [App]          [INITIAL_USER] and [calculateTDEE] ([Legacy] holds the
                     earlier copy of the function);
    - [LogMutator]   [handleAddFood] and [handleDeleteFood];
    - [ImportExport] [handleExportData], [handleFileChange] and the modal;
    - [Handlers]     [handleUpdateProfile], the controls of the settings
                     tab and [handleWeightUpdate];
    - [Dashboard]    the progress the dashboard computes;
    - [Calendar]     [renderCalendar] and the test of [renderHistory];
    - [CustomModal]  the buttons of [CustomModal.tsx];
    - [Progress]     the rings of [CircularProgress.tsx];
    - [LiquidEffect] [hexToRgb] of [LiquidEffect.tsx];
    - [Spec]         the metrics engine in the specification's words.
    Then the predicates the statements use, evaluations of the model on
    concrete inputs, and the proofs.

    JavaScript's [number] is the kernel's primitive [float]: every
    arithmetic operation below is the binary64 operation an engine runs,
    and equality of two numbers is identity of the two doubles (all [NaN]s
    being one); [x === y] is [PrimFloat.eqb x y]. *)

From Stdlib Require Import ZArith Lia Bool List Ascii String.
From Stdlib Require Import Floats Uint63.
From stdpp Require Import gmap strings list fin_maps pretty.

Set Warnings "-inexact-float,-register-all".

Open Scope Z_scope.

(* ===================================================================== *)
(** ** JavaScript numbers *)
(* ===================================================================== *)
Module Num.

(** [isNaN(n)] on a value that is already a number. *)
Definition isNaN (n : float) : bool := PrimFloat.is_nan n.

(** [Number.isFinite(n)]. *)
Definition isFinite (n : float) : bool := PrimFloat.is_finite n.

(** [Number.isInteger(n)]: finite, and no fractional bit in [m * 2^e]. *)
Definition isInteger (n : float) : bool :=
  match Prim2SF n with
  | S754_zero _ => true
  | S754_finite _ m e => (0 <=? e) || (Z.pos m mod 2 ^ (- e) =? 0)
  | S754_infinity _ | S754_nan => false
  end.

(** Truthiness of a number: every number but [0], [-0] and [NaN]. *)
Definition truthy (n : float) : bool :=
  negb (PrimFloat.eqb n 0 || isNaN n).

(** The exact float of a non-negative integer below [2^63]. *)
Definition ofZ (n : Z) : float := PrimFloat.of_uint63 (Uint63.of_Z n).

(** [Math.round(x)]: the integer nearest to [x], a tie going towards
    +Infinity; [NaN], the infinities, the zeros and integral values are
    returned as they are, and a result of zero keeps the sign of [x]. *)
Definition Math_round (x : float) : float :=
  match Prim2SF x with
  | S754_finite s m e =>
      if 0 <=? e then x
      else
        let k := - e in
        let q := Z.pos m / 2 ^ k in
        let r := Z.pos m mod 2 ^ k in
        let half := 2 ^ (k - 1) in
        let n := if s then (if half <? r then q + 1 else q)
                 else (if half <=? r then q + 1 else q) in
        if n =? 0 then (if s then PrimFloat.neg_zero else PrimFloat.zero)
        else if s then (- ofZ n)%float else ofZ n
  | _ => x
  end.

(** [Math.min(a, b)]: [NaN] when either argument is; otherwise the
    running minimum starts at [a], becomes [b] when [b] is [-0] and it is
    [+0], and becomes [b] when [b < a]. *)
Definition Math_min (a b : float) : float :=
  if isNaN a || isNaN b then nan
  else
    match Prim2SF b, Prim2SF a with
    | S754_zero true, S754_zero false => b
    | _, _ => if PrimFloat.ltb b a then b else a
    end.

(** [Math.max(a, b)], the mirror image. *)
Definition Math_max (a b : float) : float :=
  if isNaN a || isNaN b then nan
  else
    match Prim2SF b, Prim2SF a with
    | S754_zero false, S754_zero true => b
    | _, _ => if PrimFloat.ltb a b then b else a
    end.

End Num.

Import Num.

(* ===================================================================== *)
(** ** JavaScript values and conversions *)
(* ===================================================================== *)
Module JS.

(** What [JSON.parse] can return, plus [undefined] (a missing property, or
    an optional field left unset). Strings hold the UTF-8 bytes of the
    text; an object lists its own properties in order, each key once. *)
Inductive JSValue : Type :=
| JUndefined
| JNull
| JBool (b : bool)
| JNum (n : float)
| JStr (s : string)
| JArr (items : list JSValue)
| JObj (props : list (string * JSValue)).

(** Exceptions the import path can meet. *)
Inductive Exn : Type :=
| SyntaxError (message : string)
| TypeError (message : string).

Definition exnMessage (e : Exn) : string :=
  match e with SyntaxError m | TypeError m => m end.

(** A computation that returns or throws. *)
Inductive result (A : Type) : Type :=
| Ok (a : A)
| Throw (e : Exn).
Arguments Ok {A} a.
Arguments Throw {A} e.

#[export] Instance result_ret : MRet result := fun A a => Ok a.
#[export] Instance result_bind : MBind result := fun A B k r =>
  match r with Ok a => k a | Throw e => Throw e end.

(** ToBoolean. *)
Definition truthy (v : JSValue) : bool :=
  match v with
  | JUndefined | JNull => false
  | JBool b => b
  | JNum n => Num.truthy n
  | JStr s => negb (String.eqb s EmptyString)
  | JArr _ | JObj _ => true
  end.

(** [a || b] on values. *)
Definition or_else (a b : JSValue) : JSValue := if truthy a then a else b.

Fixpoint assoc (k : string) (props : list (string * JSValue)) : option JSValue :=
  match props with
  | [] => None
  | (k', v) :: rest => if String.eqb k k' then Some v else assoc k rest
  end.

(** [v.k] for a [v] that is neither [null] nor [undefined], and a key [k]
    that is not an index, [length] or a name on a built-in prototype (the
    keys the program reads: [user], [logs], [name], [gender], ...): the own
    property of an object, [undefined] otherwise. *)
Definition getProp (v : JSValue) (k : string) : JSValue :=
  match v with
  | JObj props => default JUndefined (assoc k props)
  | _ => JUndefined
  end.

(** [v.k] in general: reading a property of [null] or [undefined] throws. *)
Definition getV (v : JSValue) (k : string) : result JSValue :=
  match v with
  | JUndefined | JNull =>
      Throw (TypeError ("Cannot read properties of null or undefined (reading '" ++ k ++ "')"))
  | _ => Ok (getProp v k)
  end.

(** *** Strings as byte codes *)

Definition codes (s : string) : list Z :=
  map (fun c => Z.of_N (N_of_ascii c)) (list_ascii_of_string s).

Definition ofCodes (l : list Z) : string :=
  string_of_list_ascii (map (fun c => ascii_of_N (Z.to_N c)) l).

Definition codes_eqb (a b : list Z) : bool := bool_decide (a = b).

(** [s.toLowerCase()] on the ASCII letters; the program only compares the
    result with ['female'], which no other letter can lower-case into. *)
Definition toLowerCase (s : string) : string :=
  ofCodes (map (fun c => if (65 <=? c) && (c <=? 90) then c + 32 else c) (codes s)).

(** StrWhiteSpaceChar: TAB, LF, VT, FF, CR and SP in one byte... *)
Definition ws1 (c : Z) : bool :=
  ((9 <=? c) && (c <=? 13)) || (c =? 32).
(** ... NBSP in two ... *)
Definition ws2 (a b : Z) : bool := (a =? 194) && (b =? 160).
(** ... and U+1680, U+2000-200A, U+2028, U+2029, U+202F, U+205F, U+3000 and
    U+FEFF in three. *)
Definition ws3 (a b c : Z) : bool :=
  ((a =? 225) && (b =? 154) && (c =? 128))
  || ((a =? 226) && (b =? 128)
      && (((128 <=? c) && (c <=? 138)) || (c =? 168) || (c =? 169) || (c =? 175)))
  || ((a =? 226) && (b =? 129) && (c =? 159))
  || ((a =? 227) && (b =? 128) && (c =? 128))
  || ((a =? 239) && (b =? 187) && (c =? 191)).

Fixpoint trimStart (l : list Z) : list Z :=
  match l with
  | a :: t1 =>
      if ws1 a then trimStart t1
      else match t1 with
           | b :: t2 =>
               if ws2 a b then trimStart t2
               else match t2 with
                    | c :: t3 => if ws3 a b c then trimStart t3 else l
                    | [] => l
                    end
           | [] => l
           end
  | [] => []
  end.

(** The same on the reversed text, for the trailing white space. *)
Fixpoint trimStartRev (l : list Z) : list Z :=
  match l with
  | c :: t1 =>
      if ws1 c then trimStartRev t1
      else match t1 with
           | b :: t2 =>
               if ws2 b c then trimStartRev t2
               else match t2 with
                    | a :: t3 => if ws3 a b c then trimStartRev t3 else l
                    | [] => l
                    end
           | [] => l
           end
  | [] => []
  end.

Definition trim (l : list Z) : list Z := rev (trimStartRev (rev (trimStart l))).

(** *** Decimal text to binary64 and back *)

(** The binary64 nearest to [n / d] (ties to even). *)
Definition roundQ (n d : positive) : float :=
  SF2Prim (SFdiv prec emax (S754_finite false n 0) (S754_finite false d 0)).

(** The binary64 nearest to [m * 10^e], for [0 <= m]. *)
Definition roundDecimal (m e : Z) : float :=
  match m with
  | Z.pos p =>
      if 0 <=? e then roundQ (p * Z.to_pos (10 ^ e)) 1
      else roundQ p (Z.to_pos (10 ^ (- e)))
  | _ => 0%float
  end.

Definition digitVal (base c : Z) : option Z :=
  let v := if (48 <=? c) && (c <=? 57) then c - 48
           else if (97 <=? c) && (c <=? 102) then c - 87
           else if (65 <=? c) && (c <=? 70) then c - 55
           else base in
  if v <? base then Some v else None.

(** The longest prefix of digits, as values, and what follows it. *)
Fixpoint takeDigits (base : Z) (l : list Z) : list Z * list Z :=
  match l with
  | c :: t =>
      match digitVal base c with
      | Some v => let '(ds, r) := takeDigits base t in (v :: ds, r)
      | None => ([], l)
      end
  | [] => ([], [])
  end.

Definition fromDigits (base : Z) (ds : list Z) : Z :=
  fold_left (fun acc d => acc * base + d) ds 0.

(** [0x..], [0o..], [0b..]: digits of the base to the end, at least one. *)
Definition parseRadix (base : Z) (l : list Z) : float :=
  match takeDigits base l with
  | ((_ :: _) as ds, []) => roundDecimal (fromDigits base ds) 0
  | _ => nan
  end.

Definition takeSign (l : list Z) : bool * list Z :=
  match l with
  | 43 :: t => (false, t)
  | 45 :: t => (true, t)
  | _ => (false, l)
  end.

(** ExponentPart, or nothing, up to the end of the text. *)
Definition parseExponent (l : list Z) : option Z :=
  match l with
  | [] => Some 0
  | c :: t =>
      if (c =? 101) || (c =? 69) then
        let '(neg, t') := takeSign t in
        match takeDigits 10 t' with
        | ((_ :: _) as ds, []) => Some (if neg then - fromDigits 10 ds else fromDigits 10 ds)
        | _ => None
        end
      else None
  end.

(** StrUnsignedDecimalLiteral but [Infinity]: mantissa and power of ten. *)
Definition parseDecimal (l : list Z) : option (Z * Z) :=
  let '(ip, r1) := takeDigits 10 l in
  let '(fp, r2) := match r1 with
                   | 46 :: r => takeDigits 10 r
                   | _ => ([], r1)
                   end in
  match ip ++ fp with
  | [] => None
  | ds => e ← parseExponent r2; Some (fromDigits 10 ds, e - Z.of_nat (length fp))
  end.

(** StringToNumber: [Number(s)] for a string [s]. *)
Definition StringToNumber (s : string) : float :=
  match trim (codes s) with
  | [] => 0%float
  | 48 :: 120 :: t | 48 :: 88 :: t => parseRadix 16 t
  | 48 :: 111 :: t | 48 :: 79 :: t => parseRadix 8 t
  | 48 :: 98 :: t | 48 :: 66 :: t => parseRadix 2 t
  | l =>
      let '(neg, r) := takeSign l in
      let mag := if codes_eqb r (codes "Infinity") then Some infinity
                 else '(m, e) ← parseDecimal r; Some (roundDecimal m e) in
      match mag with
      | Some f => if neg then (- f)%float else f
      | None => nan
      end
  end.

(** Number::toString, radix 10: the fewest digits [s] (there are [k] of
    them) and the exponent [n] with [s * 10^(n-k)] rounding to [x], the [s]
    nearest to [x] when several do. [x = m * 2^e] is positive and finite. *)
Section Shortest.
Variables (x : float) (m : positive) (e : Z).

(** [x] as the fraction [vN / vD]. *)
Definition vN : Z := Z.pos m * 2 ^ Z.max e 0.
Definition vD : Z := 2 ^ Z.max (- e) 0.

(** [10^n <= x]. *)
Definition ge_pow10 (n : Z) : bool :=
  vD * 10 ^ Z.max n 0 <=? vN * 10 ^ Z.max (- n) 0.

(** The [n] with [10^(n-1) <= x < 10^n], searched from an estimate. *)
Fixpoint magnitude (fuel : nat) (n : Z) : Z :=
  match fuel with
  | O => n
  | S fuel' =>
      if ge_pow10 n then magnitude fuel' (n + 1)
      else if ge_pow10 (n - 1) then n
      else magnitude fuel' (n - 1)
  end.

Definition n0 : Z :=
  magnitude 8 ((Z.pos (digits2_pos m) + e - 1) * 1233 / 4096 + 1).

(** The [k]-digit candidates around [x / 10^(n0-k)], and the one kept. *)
Definition candidate (k : Z) : option Z :=
  let t := n0 - k in
  let num := vN * 10 ^ Z.max (- t) 0 in
  let den := vD * 10 ^ Z.max t 0 in
  let lo := num / den in
  let hi := lo + 1 in
  let ok s := PrimFloat.eqb (roundDecimal s t) x in
  match ok lo, ok hi with
  | true, true =>
      match 2 * (num mod den) ?= den with
      | Lt => Some lo
      | Gt => Some hi
      | Eq => Some (if Z.even lo then lo else hi)
      end
  | true, false => Some lo
  | false, true => Some hi
  | false, false => None
  end.

Fixpoint shortest (fuel : nat) (k : Z) : Z * Z * Z :=
  match fuel with
  | O => (Z.pos m, k, n0)
  | S fuel' =>
      match candidate k with
      | Some s => if s =? 10 ^ k then (10 ^ (k - 1), k, n0 + 1) else (s, k, n0)
      | None => shortest fuel' (k + 1)
      end
  end.

End Shortest.

Definition zeros (n : Z) : string := ofCodes (repeat 48 (Z.to_nat n)).

(** The digits laid out as a decimal or in exponent notation. *)
Definition layout (s k n : Z) : string :=
  let ds := codes (pretty s) in
  if (k <=? n) && (n <=? 21) then ofCodes ds +:+ zeros (n - k)
  else if (0 <? n) && (n <=? 21) then
    ofCodes (take (Z.to_nat n) ds) +:+ "." +:+ ofCodes (drop (Z.to_nat n) ds)
  else if (-6 <? n) && (n <=? 0) then "0." +:+ zeros (- n) +:+ ofCodes ds
  else
    let ex := (if n - 1 <? 0 then "-" else "+") +:+ pretty (Z.abs (n - 1)) in
    if k =? 1 then ofCodes ds +:+ "e" +:+ ex
    else ofCodes (take 1 ds) +:+ "." +:+ ofCodes (drop 1 ds) +:+ "e" +:+ ex.

Definition NumberToString (x : float) : string :=
  match Prim2SF x with
  | S754_nan => "NaN"
  | S754_zero _ => "0"
  | S754_infinity s => if s then "-Infinity" else "Infinity"
  | S754_finite s m e =>
      let '(d, k, n) := shortest (PrimFloat.abs x) m e 17 1 in
      (if s then "-" else EmptyString) +:+ layout d k n
  end.

(** *** Conversions of values *)

Definition hasOwn (k : string) (props : list (string * JSValue)) : bool :=
  bool_decide (is_Some (assoc k props)).

(** ToString: [String(v)] and a template literal's [${v}]. An array joins
    its elements with commas ([null] and [undefined] give nothing); a plain
    object is "[object Object]" through [Object.prototype.toString] unless an
    own property named [toString] shadows it: a parsed value is never
    callable, and the conversion throws. *)
Fixpoint ToString (v : JSValue) : result string :=
  match v with
  | JUndefined => Ok "undefined"
  | JNull => Ok "null"
  | JBool b => Ok (if b then "true" else "false")
  | JNum n => Ok (NumberToString n)
  | JStr s => Ok s
  | JArr items =>
      (fix join (l : list JSValue) : result string :=
         match l with
         | [] => Ok EmptyString
         | x :: rest =>
             s ← match x with JUndefined | JNull => Ok EmptyString | _ => ToString x end;
             match rest with
             | [] => Ok s
             | _ => r ← join rest; Ok (s +:+ "," +:+ r)
             end
         end) items
  | JObj props =>
      if hasOwn "toString" props
      then Throw (TypeError "Cannot convert object to primitive value")
      else Ok "[object Object]"
  end.

(** ToNumber: [Number(v)]. *)
Definition ToNumber (v : JSValue) : result float :=
  match v with
  | JUndefined => Ok nan
  | JNull => Ok 0%float
  | JBool b => Ok (if b then 1%float else 0%float)
  | JNum n => Ok n
  | JStr s => Ok (StringToNumber s)
  | JArr _ | JObj _ => s ← ToString v; Ok (StringToNumber s)
  end.

(** [parseInt(s)]: after leading white space and a sign, the longest run of
    digits (hexadecimal after [0x]); [NaN] when there is none. *)
Definition parseInt (s : string) : float :=
  let '(neg, r) := takeSign (trimStart (codes s)) in
  let '(base, r') := match r with
                     | 48 :: 120 :: t | 48 :: 88 :: t => (16, t)
                     | _ => (10, r)
                     end in
  match takeDigits base r' with
  | ([], _) => nan
  | (ds, _) =>
      let f := roundDecimal (fromDigits base ds) 0 in
      if neg then (- f)%float else f
  end.

(** [parseInt(s, 16)]: the same with the radix given; [0x] may still
    lead the digits. *)
Definition parseInt16 (s : string) : float :=
  let '(neg, r) := takeSign (trimStart (codes s)) in
  let r' := match r with
            | 48 :: 120 :: t | 48 :: 88 :: t => t
            | _ => r
            end in
  match takeDigits 16 r' with
  | ([], _) => nan
  | (ds, _) =>
      let f := roundDecimal (fromDigits 16 ds) 0 in
      if neg then (- f)%float else f
  end.

(** [l] begins with [p]. *)
Fixpoint startsWith (p l : list Z) : bool :=
  match p, l with
  | [], _ => true
  | a :: p', b :: l' => (a =? b) && startsWith p' l'
  | _ :: _, [] => false
  end.

(** The value of the ExponentPart at the head of [l] when a whole one is
    there ([e], a sign or none, digits); 0 when it is not. *)
Definition prefixExponent (l : list Z) : Z :=
  match l with
  | c :: t =>
      if (c =? 101) || (c =? 69) then
        let '(neg, t') := takeSign t in
        match takeDigits 10 t' with
        | ([], _) => 0
        | (ds, _) => if neg then - fromDigits 10 ds else fromDigits 10 ds
        end
      else 0
  | [] => 0
  end.

(** [parseFloat(s)]: after leading white space, the longest prefix that is
    a StrDecimalLiteral (a sign, then [Infinity] or digits with at most one
    point and an exponent); [NaN] when there is none. What follows the
    prefix is ignored. *)
Definition parseFloat (s : string) : float :=
  let '(neg, r) := takeSign (trimStart (codes s)) in
  let mag :=
    if startsWith (codes "Infinity") r then Some infinity
    else
      let '(ip, r1) := takeDigits 10 r in
      let '(fp, r2) := match r1 with
                       | 46 :: r' => takeDigits 10 r'
                       | _ => ([], r1)
                       end in
      match ip ++ fp with
      | [] => None
      | ds => Some (roundDecimal (fromDigits 10 ds) (prefixExponent r2 - Z.of_nat (length fp)))
      end in
  match mag with
  | Some f => if neg then (- f)%float else f
  | None => nan
  end.

(** The own enumerable properties an object spread [{...v}] copies. A
    string spreads its characters and an array its elements under their
    indices; other primitives spread nothing. *)
Definition indexed (vs : list JSValue) : list (string * JSValue) :=
  imap (fun i v => (pretty i, v)) vs.

Definition ownProps (v : JSValue) : list (string * JSValue) :=
  match v with
  | JObj props => props
  | JArr items => indexed items
  | JStr s => indexed (map (fun c => JStr (String c EmptyString)) (list_ascii_of_string s))
  | _ => []
  end.

(** [JSON.parse(JSON.stringify(v))] for a [v] other than [undefined]:
    a number that is not finite is written [null], [-0] is written [0], an
    [undefined] array element is written [null], and a property whose value
    is [undefined] is left out. *)
Fixpoint jsonRoundTrip (v : JSValue) : JSValue :=
  match v with
  | JNum n => if Num.isFinite n then JNum (if PrimFloat.eqb n 0 then 0%float else n) else JNull
  | JArr items =>
      JArr (map (fun x => match x with JUndefined => JNull | _ => jsonRoundTrip x end) items)
  | JObj props =>
      JObj (omap (fun '(k, x) => match x with
                                 | JUndefined => None
                                 | _ => Some (k, jsonRoundTrip x)
                                 end) props)
  | _ => v
  end.

(** One property through the round trip. *)
Definition roundTripProp (kv : string * JSValue) : option (string * JSValue) :=
  match kv.2 with
  | JUndefined => None
  | x => Some (kv.1, jsonRoundTrip x)
  end.

End JS.

Import JS.

(* ===================================================================== *)
(** ** [types.ts] *)
(* ===================================================================== *)
Module Types.

Inductive Gender : Type := MALE | FEMALE.

Definition Gender_value (g : Gender) : string :=
  match g with MALE => "male" | FEMALE => "female" end.

Module ActivityLevel.
Definition SEDENTARY : float := 1.2.
Definition LIGHTLY_ACTIVE : float := 1.375.
Definition MODERATELY_ACTIVE : float := 1.55.
Definition VERY_ACTIVE : float := 1.725.
Definition EXTRA_ACTIVE : float := 1.9.
End ActivityLevel.

Inductive GoalType : Type := LOSE_WEIGHT | MAINTAIN | GAIN_WEIGHT.

Definition GoalType_value (g : GoalType) : string :=
  match g with LOSE_WEIGHT => "lose" | MAINTAIN => "maintain" | GAIN_WEIGHT => "gain" end.

(** [Object.values(GoalType)]. *)
Definition GoalType_values : list GoalType := [LOSE_WEIGHT; MAINTAIN; GAIN_WEIGHT].

(** [UserProfile]. [name] is declared a string, but the import keeps any
    truthy value it finds, so the field holds a value; [activityLevel] is a
    number for the same reason. [rest] holds every other own property of
    the object ([streak], [lastLogTimestamp], [waterGoal], or whatever an
    imported document carried). *)
Record UserProfile : Type := {
  name : JSValue;
  gender : Gender;
  age : float;
  height : float;
  currentWeight : float;
  targetWeight : float;
  activityLevel : float;
  goalType : GoalType;
  manualTDEE : option float;
  updatedAt : string;
  rest : list (string * JSValue)
}.

(** [FoodItem]; [food_name] is its [name]. *)
Record FoodItem : Type := {
  id : string;
  food_name : string;
  calories : float;
  timestamp : string
}.

(** [DailyLog]; the logs the handlers create carry no [waterIntake]. *)
Record DailyLog : Type := {
  date : string;
  foods : list FoodItem;
  totalCalories : float;
  weightRecorded : option float;
  waterIntake : option float
}.

End Types.

Import Types.

(* ===================================================================== *)
(** ** [App.tsx]: constants and the metrics engine *)
(* ===================================================================== *)
Module App.

(** [INITIAL_USER]; [loadedAt] is the clock when the module was loaded. *)
Definition INITIAL_USER (loadedAt : string) : UserProfile := {|
  name := JStr "Guest";
  gender := MALE;
  age := 25;
  height := 170;
  currentWeight := 70;
  targetWeight := 65;
  activityLevel := ActivityLevel.SEDENTARY;
  goalType := LOSE_WEIGHT;
  manualTDEE := None;
  updatedAt := loadedAt;
  rest := []
|}.

(** The early return: [user.manualTDEE] when
    [user.manualTDEE && user.manualTDEE > 0]. *)
Definition manualOverride (user : UserProfile) : option float :=
  match manualTDEE user with
  | Some m => if Num.truthy m && PrimFloat.ltb 0 m then Some m else None
  | None => None
  end.

Definition calculateTDEE (user : UserProfile) : float :=
  match manualOverride user with
  | Some m => m
  | None =>
      let bmr :=
        match gender user with
        | MALE => (10 * currentWeight user + 6.25 * height user - 5 * age user + 5)%float
        | FEMALE => (10 * currentWeight user + 6.25 * height user - 5 * age user - 161)%float
        end in
      let tdee := (bmr * activityLevel user)%float in
      match goalType user with
      | LOSE_WEIGHT => Math_round (tdee - 1000)
      | GAIN_WEIGHT => Math_round (tdee + 1000)
      | MAINTAIN => Math_round tdee
      end
  end.

End App.

(** The earlier [App.tsx] kept beside [types.ts]: the same function with
    an offset of 500. *)
Module Legacy.

Definition calculateTDEE (user : UserProfile) : float :=
  match App.manualOverride user with
  | Some m => m
  | None =>
      let bmr :=
        match gender user with
        | MALE => (10 * currentWeight user + 6.25 * height user - 5 * age user + 5)%float
        | FEMALE => (10 * currentWeight user + 6.25 * height user - 5 * age user - 161)%float
        end in
      let tdee := (bmr * activityLevel user)%float in
      match goalType user with
      | LOSE_WEIGHT => Math_round (tdee - 500)
      | GAIN_WEIGHT => Math_round (tdee + 500)
      | MAINTAIN => Math_round tdee
      end
  end.

End Legacy.

(* ===================================================================== *)
(** ** [App.tsx]: the food-log handlers *)
(* ===================================================================== *)
(** The [logs] state is typed [Record<string, DailyLog>]; the handlers are
    the updater functions passed to [setLogs], over a [gmap] from date to
    log. [today] is [getTodayDateString()] at the render that made the
    handler. *)
Module LogMutator.

(** [{ date: today, foods: [], totalCalories: 0 }]. *)
Definition emptyLog (today : string) : DailyLog := {|
  date := today;
  foods := [];
  totalCalories := 0;
  weightRecorded := None;
  waterIntake := None
|}.

(** [foods.reduce((sum, f) => sum + f.calories, 0)]. *)
Definition sumCalories (fs : list FoodItem) : float :=
  fold_left (fun sum f => (sum + calories f)%float) fs 0%float.

(** [handleAddFood]; [idNow] is [Date.now().toString()] and [isoNow] is
    [new Date().toISOString()]. With an empty [foodInput] the handler
    returns before [setLogs]. *)
Definition handleAddFood (today foodInput calInput idNow isoNow : string)
    (prev : gmap string DailyLog) : gmap string DailyLog :=
  if negb (JS.truthy (JStr foodInput)) then prev
  else
    let calories := parseInt calInput in
    let newFood := {| id := idNow; food_name := foodInput;
                      calories := calories; timestamp := isoNow |} in
    let todayLog := default (emptyLog today) (prev !! today) in
    <[today := {| date := date todayLog;
                  foods := foods todayLog ++ [newFood];
                  totalCalories := (totalCalories todayLog + calories)%float;
                  weightRecorded := weightRecorded todayLog;
                  waterIntake := waterIntake todayLog |}]> prev.

(** [handleDeleteFood]: the updater returns [prev] itself when the day has
    no log. *)
Definition handleDeleteFood (today foodId : string)
    (prev : gmap string DailyLog) : gmap string DailyLog :=
  match prev !! today with
  | None => prev
  | Some todayLog =>
      let updatedFoods := List.filter (fun f => negb (String.eqb (id f) foodId)) (foods todayLog) in
      let newTotal := sumCalories updatedFoods in
      <[today := {| date := date todayLog;
                    foods := updatedFoods;
                    totalCalories := newTotal;
                    weightRecorded := weightRecorded todayLog;
                    waterIntake := waterIntake todayLog |}]> prev
  end.

(** A user action on the log, and a session of them. *)
Inductive Action : Type :=
| AddFood (today foodInput calInput idNow isoNow : string)
| DeleteFood (today foodId : string).

(** The handler an action calls. *)
Definition step (logs : gmap string DailyLog) (a : Action) : gmap string DailyLog :=
  match a with
  | AddFood today foodInput calInput idNow isoNow =>
      handleAddFood today foodInput calInput idNow isoNow logs
  | DeleteFood today foodId => handleDeleteFood today foodId logs
  end.

(** The logs after the actions, in order. *)
Definition run (acts : list Action) (logs : gmap string DailyLog) : gmap string DailyLog :=
  fold_left step acts logs.

(** The aggregate invariant of one log: the stored total is the very
    number the left-to-right sum of the entries gives. *)
Definition consistent (l : DailyLog) : Prop :=
  totalCalories l = sumCalories (foods l).

(** [logs[today] || { date: today, foods: [], totalCalories: 0 }]. *)
Definition currentLog (today : string) (logs : gmap string DailyLog) : DailyLog :=
  default (emptyLog today) (logs !! today).

End LogMutator.

Import LogMutator.

(* ===================================================================== *)
(** ** [App.tsx]: export and import *)
(* ===================================================================== *)
Module ImportExport.

(** The modal's [type]. *)
Inductive ModalType : Type := info | success | error | confirm.

(** [modalConfig]. The only [onConfirm] closure the program installs is the
    import's, which captures the parsed document. *)
Record ModalConfig : Type := {
  isOpen : bool;
  title : string;
  message : string;
  type : ModalType;
  onConfirm : option JSValue
}.

(** The state the import and export handlers read and write. [logs] is the
    object held in React state: the import installs whatever the document
    carries, unchecked. *)
Record AppState : Type := {
  user : UserProfile;
  logs : JSValue;
  modalConfig : ModalConfig
}.

(** [showModal]: [setModalConfig({ isOpen: true, title, message, type,
    onConfirm })]. *)
Definition showModal (title message : string) (type : ModalType)
    (onConfirm : option JSValue) (st : AppState) : AppState :=
  {| user := user st; logs := logs st;
     modalConfig := {| isOpen := true; title := title; message := message;
                       type := type; onConfirm := onConfirm |} |}.

(** [closeModal]: [setModalConfig(prev => ({ ...prev, isOpen: false }))]. *)
Definition closeModal (st : AppState) : AppState :=
  let prev := modalConfig st in
  {| user := user st; logs := logs st;
     modalConfig := {| isOpen := false; title := title prev; message := message prev;
                       type := type prev; onConfirm := onConfirm prev |} |}.

(** *** Objects *)

(** [CreateDataProperty]: a key already there keeps its place. *)
Fixpoint setProp (k : string) (v : JSValue) (props : list (string * JSValue))
    : list (string * JSValue) :=
  match props with
  | [] => [(k, v)]
  | (k', v') :: tl => if String.eqb k k' then (k, v) :: tl else (k', v') :: setProp k v tl
  end.

(** [{...base, ...over}]. *)
Definition objSpread (base over : list (string * JSValue)) : list (string * JSValue) :=
  fold_left (fun acc kv => setProp kv.1 kv.2 acc) over base.

(** The properties of a profile object that the record names. *)
Definition coreKeys : list string :=
  ["name"; "gender"; "age"; "height"; "currentWeight"; "targetWeight";
   "activityLevel"; "goalType"; "manualTDEE"; "updatedAt"].

(** The key is one of them. *)
Definition isCoreKey (k : string) : bool := bool_decide (k ∈ coreKeys).

(** The profile as the object it is at run time. *)
Definition userProps (u : UserProfile) : list (string * JSValue) :=
  [("name", name u); ("gender", JStr (Gender_value (gender u)));
   ("age", JNum (age u)); ("height", JNum (height u));
   ("currentWeight", JNum (currentWeight u)); ("targetWeight", JNum (targetWeight u));
   ("activityLevel", JNum (activityLevel u)); ("goalType", JStr (GoalType_value (goalType u)))]
  ++ match manualTDEE u with Some m => [("manualTDEE", JNum m)] | None => [] end
  ++ [("updatedAt", JStr (updatedAt u))]
  ++ rest u.

(** The typed logs as the object they are at run time. *)
Definition FoodItem_toJS (f : FoodItem) : JSValue :=
  JObj [("id", JStr (id f)); ("name", JStr (food_name f));
        ("calories", JNum (calories f)); ("timestamp", JStr (timestamp f))].

(** An optional numeric property: absent when unset. *)
Definition optionalNumber (k : string) (o : option float) : list (string * JSValue) :=
  match o with Some n => [(k, JNum n)] | None => [] end.

(** One day's log as an object. *)
Definition DailyLog_toJS (l : DailyLog) : JSValue :=
  JObj ([("date", JStr (date l)); ("foods", JArr (map FoodItem_toJS (foods l)));
         ("totalCalories", JNum (totalCalories l))]
        ++ optionalNumber "weightRecorded" (weightRecorded l)
        ++ optionalNumber "waterIntake" (waterIntake l)).

(** The mapping as an object keyed by date. *)
Definition Logs_toJS (m : gmap string DailyLog) : JSValue :=
  JObj (map (fun dl => (dl.1, DailyLog_toJS dl.2)) (map_to_list m)).

(** *** Export *)

(** The [data] object [handleExportData] hands to [JSON.stringify]. *)
Definition handleExportData (isoNow : string) (st : AppState) : JSValue :=
  JObj [("user", JObj (userProps (user st))); ("logs", logs st);
        ("version", JStr "1.0"); ("exportedAt", JStr isoNow)].

(** *** Import *)

(** [safeNum], the helper of the import (the same in both copies of
    [App.tsx]). *)
Definition safeNum (val : JSValue) (fallback : float) : result float :=
  n ← ToNumber val;
  Ok (if PrimFloat.eqb n 0 || negb (Num.isNaN n) then n else fallback).

(** The [newUserState] the confirmed import builds from [data.user]. *)
Definition newUserState (loadedAt isoNow : string) (importedUser : JSValue)
    : result UserProfile :=
  let INITIAL_USER := App.INITIAL_USER loadedAt in
  let spread := objSpread (userProps INITIAL_USER) (ownProps importedUser) in
  cw ← safeNum (getProp importedUser "currentWeight") (currentWeight INITIAL_USER);
  tw ← safeNum (getProp importedUser "targetWeight") (targetWeight INITIAL_USER);
  h ← safeNum (getProp importedUser "height") (height INITIAL_USER);
  a ← safeNum (getProp importedUser "age") (age INITIAL_USER);
  al ← safeNum (getProp importedUser "activityLevel") (activityLevel INITIAL_USER);
  gs ← ToString (getProp importedUser "gender");
  let g := toLowerCase gs in
  goal ← ToString (getProp importedUser "goalType");
  tdee ← ToNumber (getProp importedUser "manualTDEE");
  Ok {| name := or_else (getProp importedUser "name") (name INITIAL_USER);
        currentWeight := cw;
        targetWeight := tw;
        height := h;
        age := a;
        activityLevel := al;
        updatedAt := isoNow;
        gender := if String.eqb g "female" then FEMALE else MALE;
        goalType := default LOSE_WEIGHT
                      (List.find (fun v => String.eqb (GoalType_value v) goal) GoalType_values);
        manualTDEE := if PrimFloat.ltb 0 tdee then Some tdee else None;
        rest := List.filter (fun kv => negb (isCoreKey kv.1)) spread |}.

(** The closure passed to [showModal] as [onConfirm]: it runs only when the
    user confirms. An exception leaves before [setUser] and [setLogs]. (The
    success modal the closure schedules for 300 ms later only changes
    [modalConfig].) *)
Definition importConfirmed (loadedAt isoNow : string) (data : JSValue) (st : AppState)
    : result AppState :=
  u ← newUserState loadedAt isoNow (getProp data "user");
  Ok {| user := u; logs := getProp data "logs"; modalConfig := modalConfig st |}.

(** What the file reader delivers to [onload]: an empty text (it is not
    valid JSON, but [onload] returns before [JSON.parse]), a text on which
    [JSON.parse] throws [e], or a text it parses to [data]. *)
Inductive FileContent : Type :=
| EmptyText
| Malformed (e : Exn)
| Parsed (data : JSValue).

(** The line break of the confirmation text. *)
Definition nl : string := String (ascii_of_nat 10) EmptyString.

(** The text of the format-error modal. *)
Definition formatErrorMessage : string :=
  "รูปแบบไฟล์ไม่ถูกต้อง: ไม่พบข้อมูล user หรือ logs".

(** The text of the modal the [catch] block puts up. *)
Definition genericErrorMessage (e : Exn) : string :=
  "เกิดข้อผิดพลาด: " +:+ exnMessage e.

(** The [try] block of [reader.onload], after [JSON.parse]. *)
Definition onloadBody (data : JSValue) (st : AppState) : result AppState :=
  u ← getV data "user";
  l ← (if JS.truthy u then getV data "logs" else Ok u);
  if JS.truthy u && JS.truthy l then
    n ← ToString (or_else (getProp u "name") (JStr "ไม่ระบุ"));
    w ← ToString (getProp u "currentWeight");
    let confirmMsg := "พบข้อมูล:" +:+ nl +:+ "ชื่อ: " +:+ n +:+ nl +:+ "น้ำหนัก: " +:+ w
                      +:+ "kg" +:+ nl +:+ nl +:+ "ต้องการนำเข้าข้อมูลนี้หรือไม่?" in
    Ok (showModal "ยืนยันการนำเข้า" confirmMsg confirm (Some data) st)
  else
    Ok (showModal "ผิดพลาด" formatErrorMessage error None st).

(** [reader.onload]: [try { ... } catch (error) { showModal(...) }]. *)
Definition onload (content : FileContent) (st : AppState) : AppState :=
  match content with
  | EmptyText => st
  | Malformed e => showModal "ผิดพลาด" (genericErrorMessage e) error None st
  | Parsed data =>
      match onloadBody data st with
      | Ok st' => st'
      | Throw e => showModal "ผิดพลาด" (genericErrorMessage e) error None st
      end
  end.

(** [handleFileChange]: nothing happens without a file. *)
Definition handleFileChange (file : option FileContent) (st : AppState) : AppState :=
  match file with
  | None => st
  | Some content => onload content st
  end.

(** The modal's confirm button: [onConfirm?.(); onClose()]. When the
    closure throws, neither state setter nor [onClose] has run. *)
Definition clickConfirm (loadedAt isoNow : string) (st : AppState) : AppState :=
  match onConfirm (modalConfig st) with
  | None => closeModal st
  | Some data =>
      match importConfirmed loadedAt isoNow data st with
      | Ok st' => closeModal st'
      | Throw _ => st
      end
  end.

(** The modal's cancel button: [onClose]. *)
Definition clickCancel (st : AppState) : AppState := closeModal st.

End ImportExport.

Import ImportExport.

(* ===================================================================== *)
(** ** [App.tsx]: the profile handlers and the weight update *)
(* ===================================================================== *)
(** The handlers of the settings and statistics tabs. They act on the
    typed state: the profile, the logs as the food-log handlers see them,
    the text of the weight field and the modal. *)
Module Handlers.

(** One property of the [Partial<UserProfile>] a call site passes to
    [handleUpdateProfile]; [P_manualTDEE None] is [manualTDEE: undefined]. *)
Inductive Field : Type :=
| P_name (v : string)
| P_gender (g : Gender)
| P_age (n : float)
| P_height (n : float)
| P_currentWeight (n : float)
| P_targetWeight (n : float)
| P_activityLevel (n : float)
| P_goalType (g : GoalType)
| P_manualTDEE (o : option float).

(** [{ ...u, k: v }] for the property [f]. *)
Definition assign (u : UserProfile) (f : Field) : UserProfile :=
  {| name := match f with P_name v => JStr v | _ => name u end;
     gender := match f with P_gender g => g | _ => gender u end;
     age := match f with P_age n => n | _ => age u end;
     height := match f with P_height n => n | _ => height u end;
     currentWeight := match f with P_currentWeight n => n | _ => currentWeight u end;
     targetWeight := match f with P_targetWeight n => n | _ => targetWeight u end;
     activityLevel := match f with P_activityLevel n => n | _ => activityLevel u end;
     goalType := match f with P_goalType g => g | _ => goalType u end;
     manualTDEE := match f with P_manualTDEE o => o | _ => manualTDEE u end;
     updatedAt := updatedAt u;
     rest := rest u |}.

(** [handleUpdateProfile]: the updater
    [prev => ({ ...prev, ...updated, updatedAt: new Date().toISOString() })];
    [updated] lists its properties in order. *)
Definition handleUpdateProfile (isoNow : string) (updated : list Field)
    (prev : UserProfile) : UserProfile :=
  let u := fold_left assign updated prev in
  {| name := name u; gender := gender u; age := age u; height := height u;
     currentWeight := currentWeight u; targetWeight := targetWeight u;
     activityLevel := activityLevel u; goalType := goalType u;
     manualTDEE := manualTDEE u; updatedAt := isoNow; rest := rest u |}.

(** The controls of the settings tab; an input carries [e.target.value]. *)
Inductive SettingsEvent : Type :=
| NameInput (value : string)
| GenderClick (g : Gender)
| HeightInput (value : string)
| AgeInput (value : string)
| ActivitySelect (value : string)
| GoalClick (g : GoalType)
| TargetWeightInput (value : string)
| ManualTDEEInput (value : string)
| ManualTDEEReset.

(** The object each control's handler passes to [handleUpdateProfile]. *)
Definition settingsUpdate (ev : SettingsEvent) : list Field :=
  match ev with
  | NameInput value => [P_name value]
  | GenderClick g => [P_gender g]
  | HeightInput value => [P_height (parseInt value)]
  | AgeInput value => [P_age (parseInt value)]
  | ActivitySelect value => [P_activityLevel (parseFloat value)]
  | GoalClick g => [P_goalType g]
  | TargetWeightInput value => [P_targetWeight (parseFloat value)]
  | ManualTDEEInput value =>
      [P_manualTDEE (if JS.truthy (JStr value) then Some (parseInt value) else None)]
  | ManualTDEEReset => [P_manualTDEE None]
  end.

(** The control's [onChange] or [onClick]. *)
Definition onSettings (isoNow : string) (ev : SettingsEvent) (prev : UserProfile)
    : UserProfile :=
  handleUpdateProfile isoNow (settingsUpdate ev) prev.

(** The number the manual field shows as its placeholder:
    [calculateTDEE({ ...user, manualTDEE: undefined })]. *)
Definition suggestedTDEE (user : UserProfile) : float :=
  App.calculateTDEE (assign user (P_manualTDEE None)).

(** The state the weight update reads and writes. *)
Record State : Type := {
  user : UserProfile;
  logs : gmap string DailyLog;
  newWeight : string;
  modalConfig : ModalConfig
}.

(** [handleWeightUpdate]; [today] is [getTodayDateString()] at the render
    that made the handler, [isoNow] the clock of [handleUpdateProfile]. *)
Definition handleWeightUpdate (today isoNow : string) (st : State) : State :=
  let weight := parseFloat (newWeight st) in
  if negb (Num.isNaN weight) && PrimFloat.ltb 0 weight then
    let todayLog := default (emptyLog today) (logs st !! today) in
    {| user := handleUpdateProfile isoNow [P_currentWeight weight] (user st);
       newWeight := EmptyString;
       logs := <[today := {| date := date todayLog;
                             foods := foods todayLog;
                             totalCalories := totalCalories todayLog;
                             weightRecorded := Some weight;
                             waterIntake := waterIntake todayLog |}]> (logs st);
       modalConfig := {| isOpen := true; title := "สำเร็จ";
                         message := "อัปเดตน้ำหนักเรียบร้อยแล้ว";
                         type := success; onConfirm := None |} |}
  else st.

End Handlers.

(* ===================================================================== *)
(** ** [App.tsx]: what the dashboard computes *)
(* ===================================================================== *)
Module Dashboard.

(** [const dailyTarget = calculateTDEE(user)]. *)
Definition dailyTarget (user : UserProfile) : float := App.calculateTDEE user.

(** [const remaining = dailyTarget - currentLog.totalCalories]. *)
Definition remaining (user : UserProfile) (log : DailyLog) : float :=
  (dailyTarget user - totalCalories log)%float.

(** [const progressPercent =
     Math.min((currentLog.totalCalories / dailyTarget) * 100, 100)]. *)
Definition progressPercent (user : UserProfile) (log : DailyLog) : float :=
  Math_min (totalCalories log / dailyTarget user * 100) 100.

(** The width of the status bar, in percent:
    [Math.min(progressPercent, 100)]. *)
Definition barWidth (user : UserProfile) (log : DailyLog) : float :=
  Math_min (progressPercent user log) 100.

End Dashboard.

(* ===================================================================== *)
(** ** [App.tsx]: the calendar of the history tab *)
(* ===================================================================== *)
(** [renderCalendar]. The year, the month, the week day of the first of
    the month and the number of days are what [Date] gives: integers, held
    here in [Z]; [String(n)] is taken of the number [n] itself. *)
Module Calendar.

(** The [days] array: [firstDay] times [null], then 1 to [daysInMonth]. *)
Definition days (firstDay daysInMonth : Z) : list (option Z) :=
  ((fun _ => None) <$> seqZ 0 firstDay) ++ (Some <$> seqZ 1 daysInMonth).

(** [s.padStart(targetLength, '0')]. *)
Definition padStart0 (s : string) (targetLength : nat) : string :=
  zeros (Z.of_nat (targetLength - String.length s)) +:+ s.

(** The key of a day:
    [`${year}-${String(month + 1).padStart(2, '0')}-${String(day).padStart(2, '0')}`]. *)
Definition dateStr (year month day : Z) : string :=
  NumberToString (ofZ year) +:+ "-" +:+ padStart0 (NumberToString (ofZ month + 1)) 2
  +:+ "-" +:+ padStart0 (NumberToString (ofZ day)) 2.

(** A cell of the grid: a blank, or the button of a day with its key,
    whether it is the selected day and whether it carries the dot. *)
Inductive Cell : Type :=
| Blank
| DayButton (day : Z) (key : string) (isSelected dot : bool).

(** The callback of [days.map]: [if (!day) return <div />], then the
    button; [hasData] is [logs[dateStr]]. *)
Definition cell (year month : Z) (logs : gmap string DailyLog) (selectedDate : string)
    (day : option Z) : Cell :=
  match day with
  | None => Blank
  | Some d =>
      if d =? 0 then Blank
      else
        let dateStr := dateStr year month d in
        let hasData := bool_decide (is_Some (logs !! dateStr)) in
        let isSelected := String.eqb selectedDate dateStr in
        DayButton d dateStr isSelected (hasData && negb isSelected)
  end.

Definition renderCalendar (year month firstDay daysInMonth : Z)
    (logs : gmap string DailyLog) (selectedDate : string) : list Cell :=
  cell year month logs selectedDate <$> days firstDay daysInMonth.

(** [renderHistory] reports that the selected day has no record:
    [!log || log.foods.length === 0]. *)
Definition noRecord (logs : gmap string DailyLog) (selectedDate : string) : bool :=
  match logs !! selectedDate with
  | None => true
  | Some log => (length (foods log) =? 0)%nat
  end.

End Calendar.

(* ===================================================================== *)
(** ** [CustomModal.tsx]: the buttons of the modal *)
(* ===================================================================== *)
Module CustomModal.

Inductive Button : Type := CancelButton | ConfirmButton | OkButton.

(** What the component renders: nothing when [isOpen] is false; the cancel
    and confirm buttons for the type [confirm], the one OK button for the
    other types. *)
Definition buttons (cfg : ModalConfig) : list Button :=
  if negb (isOpen cfg) then []
  else match type cfg with
       | confirm => [CancelButton; ConfirmButton]
       | _ => [OkButton]
       end.

(** The [onClick] of a button, with the props [App] passes:
    [onClose={closeModal}] and [onConfirm={modalConfig.onConfirm}]. *)
Definition click (loadedAt isoNow : string) (b : Button) (st : AppState) : AppState :=
  match b with
  | CancelButton | OkButton => closeModal st
  | ConfirmButton => clickConfirm loadedAt isoNow st
  end.

End CustomModal.

(* ===================================================================== *)
(** ** [CircularProgress.tsx]: the rings *)
(* ===================================================================== *)
Module Progress.

(** [Math.PI]. *)
Definition PI : float := 3.141592653589793.

(** [CircularProgress]: [radius], [circumference] and the dash offset
    [offset] of the coloured circle. *)
Definition radius (size strokeWidth : float) : float :=
  ((size - strokeWidth) / 2)%float.

Definition circumference (size strokeWidth : float) : float :=
  (radius size strokeWidth * 2 * PI)%float.

Definition offset (percentage size strokeWidth : float) : float :=
  let circumference := circumference size strokeWidth in
  (circumference - percentage / 100 * circumference)%float.

(** [BorderProgress]: [p] is the percentage clamped,
    [Math.min(Math.max(percentage, 0), 100)]. *)
Definition clamp (percentage : float) : float :=
  Math_min (Math_max percentage 0) 100.

Definition borderCircumference (size thickness : float) : float :=
  (2 * PI * ((size - thickness) / 2))%float.

Definition strokeDashoffset (percentage size thickness : float) : float :=
  let p := clamp percentage in
  let circumference := borderCircumference size thickness in
  (circumference - p / 100 * circumference)%float.

End Progress.

(* ===================================================================== *)
(** ** [LiquidEffect.tsx]: the tint colour *)
(* ===================================================================== *)
Module LiquidEffect.

(** [[a-f\d]] under the [i] flag. *)
Definition isHex (c : Z) : bool :=
  match digitVal 16 c with Some _ => true | None => false end.

(** [/^#?([a-f\d]{2})([a-f\d]{2})([a-f\d]{2})$/i.exec(hex)]: the three
    groups, or [null]. A character outside ASCII has no byte that is a
    hexadecimal digit, so matching the bytes is matching the characters. *)
Definition exec (hex : string) : option (string * string * string) :=
  let l := codes hex in
  let body := match l with
              | c :: t => if c =? 35 then t else l
              | [] => l
              end in
  match body with
  | [a; b; c; d; e; f] =>
      if forallb isHex body
      then Some (ofCodes [a; b], ofCodes [c; d], ofCodes [e; f])
      else None
  | _ => None
  end.

Definition hexToRgb (hex : string) : string :=
  match exec hex with
  | Some (r, g, b) =>
      NumberToString (parseInt16 r) +:+ ", " +:+ NumberToString (parseInt16 g)
      +:+ ", " +:+ NumberToString (parseInt16 b)
  | None => "0, 0, 0"
  end.

End LiquidEffect.

(* ===================================================================== *)
(** ** The metrics engine, as the specification words it *)
(* ===================================================================== *)
Module Spec.

(** Mifflin-St Jeor: [10*weight + 6.25*height - 5*age + 5] for a man and
    [... - 161] for a woman. *)
Definition BMR (p : UserProfile) : float :=
  match gender p with
  | MALE => (10 * currentWeight p + 6.25 * height p - 5 * age p + 5)%float
  | FEMALE => (10 * currentWeight p + 6.25 * height p - 5 * age p - 161)%float
  end.

(** Subtract a fixed offset for [lose], add the same offset for [gain],
    no change for [maintain]. *)
Definition goalAdjust (offset : float) (g : GoalType) (tdee : float) : float :=
  match g with
  | LOSE_WEIGHT => (tdee - offset)%float
  | GAIN_WEIGHT => (tdee + offset)%float
  | MAINTAIN => tdee
  end.

(** [manualTDEE] is unset, or not greater than 0. *)
Definition noManualTDEE (p : UserProfile) : Prop :=
  match manualTDEE p with
  | None => True
  | Some m => PrimFloat.ltb 0 m = false
  end.

(** The amended safe-number guard: the plain [!isNaN(n)]. *)
Definition safeNumPlain (val : JSValue) (fallback : float) : result float :=
  n ← ToNumber val;
  Ok (if negb (Num.isNaN n) then n else fallback).

End Spec.

(* ===================================================================== *)
(** ** The vocabulary of the statements, and sample data *)
(* ===================================================================== *)

(** Every entry the action adds has an integer number of calories. *)
Definition addsInteger (a : Action) : Prop :=
  match a with
  | AddFood _ _ calInput _ _ => isInteger (parseInt calInput) = true
  | DeleteFood _ _ => True
  end.

(** Every entry of the log has an integer number of calories. *)
Definition integerEntries (l : DailyLog) : Prop :=
  Forall (fun f => isInteger (calories f) = true) (foods l).

(** The specification's scenario: two foods added, the first deleted. *)
Definition sampleSession : list Action :=
  [AddFood "2025-01-01" "rice" "300" "1735689600000" "2025-01-01T00:00:00.000Z";
   AddFood "2025-01-01" "curry" "450" "1735689601000" "2025-01-01T00:00:01.000Z";
   DeleteFood "2025-01-01" "1735689600000"].

(** The profile of the specification's worked example. *)
Definition exampleProfile : UserProfile := {|
  name := JStr "Guest"; gender := MALE; age := 25; height := 170;
  currentWeight := 70; targetWeight := 65; activityLevel := 1.2;
  goalType := LOSE_WEIGHT; manualTDEE := None; updatedAt := "2025-01-01T00:00:00.000Z";
  rest := []
|}.

(** [{ ...u, manualTDEE: m }]. *)
Definition withManualTDEE (u : UserProfile) (m : float) : UserProfile := {|
  name := name u; gender := gender u; age := age u; height := height u;
  currentWeight := currentWeight u; targetWeight := targetWeight u;
  activityLevel := activityLevel u; goalType := goalType u;
  manualTDEE := Some m; updatedAt := updatedAt u; rest := rest u
|}.

(** The field ends as the parsed number when that is zero or not [NaN],
    and as the default otherwise. *)
Definition keptOrDefault (val : JSValue) (dflt field : float) : Prop :=
  exists n, ToNumber val = Ok n
    /\ field = if PrimFloat.eqb n 0 || negb (Num.isNaN n) then n else dflt.

(** Neither an array nor an object: converting such a value never throws. *)
Definition isPrimitive (v : JSValue) : bool :=
  match v with JArr _ | JObj _ => false | _ => true end.

(** The properties of [data.user] that the import converts. *)
Definition convertedKeys : list string :=
  ["currentWeight"; "targetWeight"; "height"; "age"; "activityLevel";
   "gender"; "goalType"; "manualTDEE"].

(** A [user] object as a backup file may carry it. *)
Definition sampleImportedUser : JSValue :=
  JObj [("name", JStr "Ann"); ("currentWeight", JStr "abc"); ("age", JNum 0);
        ("gender", JStr "FEMALE"); ("goalType", JStr "gain");
        ("manualTDEE", JStr "1800.5"); ("streak", JNum 3)].

(** [null] or [undefined]. *)
Definition isNullish (v : JSValue) : bool :=
  match v with JNull | JUndefined => true | _ => false end.

(** [data.user && data.logs] is truthy. *)
Definition hasUserAndLogs (data : JSValue) : bool :=
  JS.truthy (getProp data "user") && JS.truthy (getProp data "logs").

(** An error modal is up. *)
Definition reportsError (st : AppState) : Prop :=
  isOpen (modalConfig st) = true /\ type (modalConfig st) = error.

(** The format-error modal is up. *)
Definition reportsFormatError (st : AppState) : Prop :=
  modalConfig st = {| isOpen := true; title := "ผิดพลาด"; message := formatErrorMessage;
                      type := error; onConfirm := None |}.

(** The state of a fresh installation, no modal up. *)
Definition idleState : AppState := {|
  user := App.INITIAL_USER "2025-01-01T00:00:00.000Z";
  logs := JObj [];
  modalConfig := {| isOpen := false; title := EmptyString; message := EmptyString; type := info;
                    onConfirm := None |}
|}.

(** A document with a [user] but no [logs]. *)
Definition documentWithoutLogs : JSValue := JObj [("user", sampleImportedUser)].

(** What JSON makes of a finite number: itself, [-0] read back as [0]. *)
Definition written (n : float) : float := if PrimFloat.eqb n 0 then 0%float else n.

(** The property is none of those the profile record names. *)
Definition noncore (kv : string * JSValue) : bool := negb (isCoreKey kv.1).

(** [a === b]. *)
Definition sameNumber (a b : float) : Prop := PrimFloat.eqb a b = true.

(** The profile [u'] is [u] but for [updatedAt]: the same values, numbers
    compared as numbers. *)
Definition sameProfile (u u' : UserProfile) : Prop :=
  name u' = name u /\ gender u' = gender u /\ goalType u' = goalType u
  /\ sameNumber (age u') (age u) /\ sameNumber (height u') (height u)
  /\ sameNumber (currentWeight u') (currentWeight u)
  /\ sameNumber (targetWeight u') (targetWeight u)
  /\ sameNumber (activityLevel u') (activityLevel u)
  /\ manualTDEE u' = manualTDEE u
  /\ rest u' = rest u.

(** The state the claim calls valid: a non-empty name, numeric fields
    that are not [NaN], [manualTDEE] unset or greater than 0, any logs
    mapping. *)
Definition validState (st : AppState) : Prop :=
  let u := user st in
  (exists s, name u = JStr s /\ s <> EmptyString)
  /\ isNaN (age u) = false /\ isNaN (height u) = false /\ isNaN (currentWeight u) = false
  /\ isNaN (targetWeight u) = false /\ isNaN (activityLevel u) = false
  /\ match manualTDEE u with Some m => PrimFloat.ltb 0 m = true | None => True end
  /\ exists props, logs st = JObj props.

(** A state JSON can carry: moreover the numbers are finite, and the
    remaining profile properties and the logs come back from
    [JSON.stringify] and [JSON.parse] as they went in. *)
Definition exportable (st : AppState) : Prop :=
  let u := user st in
  (exists s, name u = JStr s /\ s <> EmptyString)
  /\ isFinite (age u) = true /\ isFinite (height u) = true
  /\ isFinite (currentWeight u) = true /\ isFinite (targetWeight u) = true
  /\ isFinite (activityLevel u) = true
  /\ match manualTDEE u with
     | Some m => PrimFloat.ltb 0 m = true /\ isFinite m = true
     | None => True
     end
  /\ (jsonRoundTrip (JObj (rest u)) = JObj (rest u)
      /\ NoDup (rest u).*1 /\ Forall (fun k => isCoreKey k = false) (rest u).*1)
  /\ (jsonRoundTrip (logs st) = logs st /\ JS.truthy (logs st) = true).

(** Export at [exportedAt], write and read the file, confirm the import at
    [importedAt]. *)
Definition exportThenImport (loadedAt exportedAt importedAt : string) (st : AppState)
    : AppState :=
  clickConfirm loadedAt importedAt
    (onload (Parsed (jsonRoundTrip (handleExportData exportedAt st))) st).

(** A valid state by the claim's words, with an infinite weight (as an
    imported [1e999] leaves it). *)
Definition infiniteWeightState : AppState := {|
  user := {| name := JStr "Ann"; gender := FEMALE; age := 30; height := 160;
             currentWeight := infinity; targetWeight := 50; activityLevel := 1.2;
             goalType := MAINTAIN; manualTDEE := None; updatedAt := "2025-01-01T00:00:00.000Z";
             rest := [] |};
  logs := JObj [];
  modalConfig := modalConfig idleState
|}.

(** A valid state by the claim's words whose logs hold a [NaN] total: a
    food was saved with the calories text [".5"]. *)
Definition nanTotalState : AppState := {|
  user := App.INITIAL_USER "2025-01-01T00:00:00.000Z";
  logs := Logs_toJS (handleAddFood "2025-01-01" "tea" ".5" "1735689600000"
                       "2025-01-01T00:00:00.000Z" ∅);
  modalConfig := modalConfig idleState
|}.

(** A number JSON writes and reads back as it is: finite, and not [-0]. *)
Definition jsonNumber (n : float) : Prop :=
  isFinite n = true /\ written n = n.

(** Every number of the log is one JSON carries unchanged. *)
Definition jsonLog (l : DailyLog) : Prop :=
  jsonNumber (totalCalories l)
  /\ Forall (fun f => jsonNumber (calories f)) (foods l)
  /\ (forall w, weightRecorded l = Some w -> jsonNumber w)
  /\ (forall w, waterIntake l = Some w -> jsonNumber w).

(** A state with the scenario's logs and a profile with extra properties. *)
Definition sampleState : AppState := {|
  user := {| name := JStr "Ann"; gender := FEMALE; age := 30; height := 160;
             currentWeight := 55.5; targetWeight := 50; activityLevel := 1.375;
             goalType := GAIN_WEIGHT; manualTDEE := Some 1800%float;
             updatedAt := "2025-01-01T00:00:00.000Z";
             rest := [("streak", JNum 3); ("waterGoal", JNum 2000)] |};
  logs := Logs_toJS (run sampleSession ∅);
  modalConfig := modalConfig idleState
|}.

(** The date an action is about. *)
Definition actionDate (a : Action) : string :=
  match a with
  | AddFood today _ _ _ _ => today
  | DeleteFood today _ => today
  end.

(** The log [l] with the entries named [foodId] taken out and the total
    recomputed. *)
Definition without (foodId : string) (l : DailyLog) : DailyLog :=
  let kept := List.filter (fun f => negb (String.eqb (id f) foodId)) (foods l) in
  {| date := date l; foods := kept; totalCalories := sumCalories kept;
     weightRecorded := weightRecorded l; waterIntake := waterIntake l |}.

(** The logs after the two saves of the scenario. *)
Definition sampleLogs : gmap string DailyLog := run (take 2 sampleSession) ∅.

(** A profile whose height field was cleared in the settings. *)
Definition clearedHeightProfile : UserProfile :=
  Handlers.onSettings "2025-01-02T00:00:00.000Z" (Handlers.HeightInput EmptyString) exampleProfile.

(** A state of the statistics tab with [70.5] typed in the weight field. *)
Definition weightTypedState : Handlers.State := {|
  Handlers.user := exampleProfile;
  Handlers.logs := sampleLogs;
  Handlers.newWeight := "70.5";
  Handlers.modalConfig := modalConfig idleState
|}.

(** The two profiles agree on what [calculateTDEE] reads. *)
Definition sameMetricsInputs (u v : UserProfile) : Prop :=
  gender u = gender v /\ age u = age v /\ height u = height v
  /\ currentWeight u = currentWeight v /\ activityLevel u = activityLevel v
  /\ goalType u = goalType v /\ manualTDEE u = manualTDEE v.

(** What the export and import make of a number: itself when it is
    finite ([-0] read back as [0]), and 0 when it is not: [JSON.stringify]
    writes [null], and [Number(null)] is 0. *)
Definition carried (n : float) : float := if isFinite n then written n else 0%float.

(** A state with a [NaN] height, an infinite weight and a manual target
    that is not finite. *)
Definition brokenNumbersState : AppState := {|
  user := {| name := JStr "Ann"; gender := FEMALE; age := 30; height := nan;
             currentWeight := infinity; targetWeight := 50; activityLevel := 1.2;
             goalType := MAINTAIN; manualTDEE := Some infinity;
             updatedAt := "2025-01-01T00:00:00.000Z";
             rest := [("waterGoal", JNum 2000)] |};
  logs := logs nanTotalState;
  modalConfig := modalConfig idleState
|}.

(** The number as the exported file carries it: [null] when it is not
    finite. *)
Definition carriedValue (n : float) : JSValue :=
  if isFinite n then JNum (written n) else JNull.

(** The state is typed as the program declares it: the name is a string,
    the profile's further properties are none of those the record names,
    and the logs are an object. *)
Definition typedState (st : AppState) : Prop :=
  (exists s, name (user st) = JStr s)
  /\ Forall (fun k => isCoreKey k = false) (rest (user st)).*1
  /\ exists props, logs st = JObj props.

(** The codes of the hexadecimal digits, each with its value. *)
Definition hexDigits : list (Z * Z) :=
  [(48, 0); (49, 1); (50, 2); (51, 3); (52, 4); (53, 5); (54, 6); (55, 7);
   (56, 8); (57, 9); (97, 10); (98, 11); (99, 12); (100, 13); (101, 14);
   (102, 15); (65, 10); (66, 11); (67, 12); (68, 13); (69, 14); (70, 15)].

(** [toLowerCase] on one code. *)
Definition lowerCode (c : Z) : Z := if (65 <=? c) && (c <=? 90) then c + 32 else c.

(** Six hexadecimal digits. *)
Definition sixHexDigits (l : list Z) : Prop :=
  length l = 6%nat /\ Forall (fun c => LiquidEffect.isHex c = true) l.

(** The text is six hexadecimal digits, after a [#] or without one. *)
Definition wellFormedColor (hex : string) : Prop :=
  sixHexDigits (codes hex) \/ exists t, codes hex = 35 :: t /\ sixHexDigits t.

(** [Object.values(ActivityLevel)]: the numbers the activity select
    offers; an option's value is the number as text. *)
Definition activityLevels : list float :=
  [ActivityLevel.SEDENTARY; ActivityLevel.LIGHTLY_ACTIVE; ActivityLevel.MODERATELY_ACTIVE;
   ActivityLevel.VERY_ACTIVE; ActivityLevel.EXTRA_ACTIVE].

(** The code of a decimal digit. *)
Definition isDigit (c : Z) : Prop := 48 <= c <= 57.

(** The decimal numeral of [n], with a leading zero below 10. *)
Definition twoDigits (n : Z) : string :=
  if n <? 10 then "0" +:+ pretty n else pretty n.

(* ===================================================================== *)
(** ** The model at work: evaluations checked by computation *)
(* ===================================================================== *)
Section Evaluations.

Example Math_round_samples :
  map Math_round [2.5; (-2.5); 909.8; 0.5; (-0.5); 0.49999999999999994; (-0.2); 1.5; (-1.5);
                  4503599627370495.5; 1e300; (-7); 0; (-0); infinity; nan; 5e-324]%float
  = [3; (-2); 910; 1; (-0); 0; (-0); 2; (-1);
     4503599627370496; 1e300; (-7); 0; (-0); infinity; nan; 0]%float.
Proof. vm_compute. reflexivity. Qed.

Example StringToNumber_samples :
  map StringToNumber ["abc"; EmptyString; "  12  "; "1e3"; "-0"; ".5"; "5."; "0x1F"; "1,2"; "Infinity";
                      "-Infinity"; "0.1"; "1909.8"; "12px"; "+.5e-1"; "."; "e5"; "1e"; "0b102";
                      "9007199254740993"; "1e-400"; "1e400"; "4.9e-324"; "2e-324"]
  = [nan; 0; 12; 1000; (-0); 0.5; 5; 31; nan; infinity;
     neg_infinity; 0.1; 1909.8; nan; 0.05; nan; nan; nan; nan;
     9007199254740992; 0; infinity; 5e-324; 0]%float.
Proof. vm_compute. reflexivity. Qed.

Example NumberToString_samples :
  map NumberToString [0; (-0); nan; infinity; 1; 70; 1909.8; 0.1; (-2.5); 1e21; 1e-7; 0.000001;
                      123456789012345680000; 5e-324; 1.7976931348623157e308; 0.30000000000000004;
                      9007199254740992; 100; 1234.5678; 9.5; 1e300; 4.35; 2e-7]%float
  = ["0"; "0"; "NaN"; "Infinity"; "1"; "70"; "1909.8"; "0.1"; "-2.5"; "1e+21"; "1e-7"; "0.000001";
     "123456789012345680000"; "5e-324"; "1.7976931348623157e+308"; "0.30000000000000004";
     "9007199254740992"; "100"; "1234.5678"; "9.5"; "1e+300"; "4.35"; "2e-7"].
Proof. vm_compute. reflexivity. Qed.

Example ToNumber_samples :
  map ToNumber [JUndefined; JNull; JBool true; JStr "abc"; JNum 0; JArr []; JArr [JNum 5];
                JArr [JNum 1; JNum 2]; JObj []; JObj [("valueOf", JNum 1)]; JStr " 42 "]
  = map Ok [nan; 0; 1; nan; 0; 0; 5; nan; nan; nan; 42]%float
  /\ ToNumber (JObj [("toString", JNum 1)])
     = Throw (TypeError "Cannot convert object to primitive value").
Proof. split; vm_compute; reflexivity. Qed.

Example parseInt_samples :
  map parseInt ["300"; "450"; EmptyString; ".5"; "12.7"; "-3"; "0x10"; "1e3"; "  7kcal"; "-"]
  = [300; 450; nan; nan; 12; (-3); 16; 1; 7; nan]%float.
Proof. vm_compute. reflexivity. Qed.

Example jsonRoundTrip_samples :
  jsonRoundTrip (JObj [("a", JNum infinity); ("b", JUndefined); ("c", JArr [JUndefined; JNum nan]);
                       ("d", JNum (-0)); ("e", JStr "x"); ("f", JNum 1.5)])
  = JObj [("a", JNull); ("c", JArr [JNull; JNull]); ("d", JNum 0); ("e", JStr "x"); ("f", JNum 1.5)].
Proof. vm_compute. reflexivity. Qed.

Example tdee_initial_user :
  App.calculateTDEE (App.INITIAL_USER "2025-01-01T00:00:00.000Z") = 971%float
  /\ Legacy.calculateTDEE (App.INITIAL_USER "2025-01-01T00:00:00.000Z") = 1471%float
  /\ (10 * 70 + 6.25 * 170 - 5 * 25 + 5 = 1642.5)%float
  /\ (1642.5 * 1.2 = 1971)%float.
Proof. repeat split; vm_compute; reflexivity. Qed.

(** The stored total is recomputed, not decremented: a log whose total had
    drifted to 999 is repaired by deleting an entry. *)
Example delete_repairs_drift :
  let entry i c := {| id := i; food_name := "x"; calories := c;
                      timestamp := "2025-01-01T00:00:00.000Z" |} in
  let drifted := {| date := "d"; foods := [entry "a" 100%float; entry "b" 200%float];
                    totalCalories := 999; weightRecorded := None; waterIntake := None |} in
  totalCalories <$> (handleDeleteFood "d" "a" {[ "d" := drifted ]} !! "d") = Some 200%float.
Proof. vm_compute. reflexivity. Qed.

(** A food saved with the calories text [".5"] has [NaN] calories, and the
    day's total is [NaN]: the export writes both as [null]. *)
Example NaN_total_is_exported_as_null :
  let logs := handleAddFood "2025-01-01" "tea" ".5" "1735689600000" "2025-01-01T00:00:00.000Z" ∅ in
  totalCalories <$> (logs !! "2025-01-01") = Some nan
  /\ getProp (getProp (jsonRoundTrip (Logs_toJS logs)) "2025-01-01") "totalCalories" = JNull
  /\ jsonRoundTrip (Logs_toJS logs) <> Logs_toJS logs.
Proof.
  split; [vm_compute; reflexivity|]. split; [vm_compute; reflexivity|].
  intros H. apply (f_equal (fun v => getProp (getProp v "2025-01-01") "totalCalories")) in H.
  vm_compute in H. discriminate.
Qed.

End Evaluations.

(* ===================================================================== *)
(** ** Facts about binary64 *)
(* ===================================================================== *)
Section NumFacts.

Lemma digits2_pos_bounds (p : positive) :
  2 ^ (Z.pos (digits2_pos p) - 1) <= Z.pos p < 2 ^ Z.pos (digits2_pos p).
Proof.
  induction p as [p IH | p IH |]; cbn [digits2_pos].
  - rewrite Pos2Z.inj_succ.
    replace (Z.succ (Z.pos (digits2_pos p)) - 1) with (Z.succ (Z.pos (digits2_pos p) - 1)) by lia.
    rewrite !Z.pow_succ_r by lia. lia.
  - rewrite Pos2Z.inj_succ.
    replace (Z.succ (Z.pos (digits2_pos p)) - 1) with (Z.succ (Z.pos (digits2_pos p) - 1)) by lia.
    rewrite !Z.pow_succ_r by lia. lia.
  - cbn. lia.
Qed.

Lemma iter_xO_pow (n d : positive) :
  Z.pos (Pos.iter xO n d) = Z.pos n * 2 ^ Z.pos d.
Proof.
  induction d as [| d IH] using Pos.peano_ind.
  - cbn. lia.
  - rewrite Pos.iter_succ, Pos2Z.inj_succ, Z.pow_succ_r by lia.
    rewrite Pos2Z.inj_xO, IH. ring.
Qed.

Lemma digits2_pos_iter_xO (n d : positive) :
  digits2_pos (Pos.iter xO n d) = (digits2_pos n + d)%positive.
Proof.
  induction d as [| d IH] using Pos.peano_ind.
  - cbn. lia.
  - rewrite Pos.iter_succ. cbn [digits2_pos]. rewrite IH. lia.
Qed.

(** Rounding a mantissa that is already canonical changes nothing. *)
Lemma binary_round_aux_canonical (s : bool) (m : positive) (e : Z) :
  canonical_mantissa prec emax m e = true -> e <= emax - prec ->
  binary_round_aux prec emax s (Z.pos m) e loc_Exact = S754_finite s m e.
Proof.
  intros Hc He. unfold canonical_mantissa in Hc. apply Z.eqb_eq in Hc.
  unfold binary_round_aux, shr_fexp. cbn [Zdigits2 shr_record_of_loc].
  rewrite Hc, Z.sub_diag. cbn [shr shr_m]. cbn [loc_of_shr_record round_nearest_even].
  cbn [Zdigits2 shr_record_of_loc]. rewrite Hc, Z.sub_diag. cbn [shr shr_m].
  apply Z.leb_le in He. rewrite He. reflexivity.
Qed.

(** Integers below [2^53] convert to binary64 without rounding. *)
Lemma Prim2SF_ofZ (n : positive) :
  Z.pos (digits2_pos n) <= 53 ->
  exists m e, Prim2SF (ofZ (Z.pos n)) = S754_finite false m e
              /\ Z.pos m = Z.pos n * 2 ^ (- e) /\ -52 <= e <= 0.
Proof.
  intros Hd. pose proof (digits2_pos_bounds n) as Hb.
  assert (Hn : Z.pos n < 2 ^ 53).
  { eapply Z.lt_le_trans; [apply Hb|]. apply Z.pow_le_mono_r; lia. }
  unfold ofZ. rewrite of_uint63_spec, Uint63.of_Z_spec.
  rewrite Z.mod_small by (change wB with (2 ^ 63); split; [lia|];
    eapply Z.lt_trans; [exact Hn|]; reflexivity).
  cbn [binary_normalize]. unfold binary_round, shl_align.
  rewrite Z.add_0_r, Z.sub_0_r.
  assert (Hf : fexp prec emax (Z.pos (digits2_pos n)) = Z.pos (digits2_pos n) - 53).
  { unfold fexp, SpecFloat.emin, prec, emax. lia. }
  rewrite Hf.
  destruct (Z.pos (digits2_pos n) - 53) as [| d | d] eqn:Hdd; try lia.
  - exists n, 0. rewrite binary_round_aux_canonical.
    + split; [reflexivity|]. cbn. lia.
    + unfold canonical_mantissa. apply Z.eqb_eq. rewrite Z.add_0_r. exact Hf.
    + unfold prec, emax. lia.
  - exists (Pos.iter xO n d), (Z.neg d). rewrite binary_round_aux_canonical.
    + split; [reflexivity|]. rewrite iter_xO_pow. cbn [Z.opp]. split; [reflexivity | lia].
    + unfold canonical_mantissa. apply Z.eqb_eq. rewrite digits2_pos_iter_xO.
      unfold fexp, SpecFloat.emin, prec, emax. lia.
    + unfold prec, emax. lia.
Qed.

Lemma SFeqb_refl (f : spec_float) : f <> S754_nan -> SFeqb f f = true.
Proof.
  destruct f as [[] | [] | | [] m e]; intros H; try reflexivity; try congruence;
    unfold SFeqb, SFcompare; rewrite Z.compare_refl, Pos.compare_cont_refl; reflexivity.
Qed.

Lemma isNaN_Prim2SF (x : float) : isNaN x = true <-> Prim2SF x = S754_nan.
Proof.
  unfold isNaN, is_nan. rewrite FloatAxioms.eqb_spec. split.
  - intros H. destruct (Prim2SF x) eqn:E; try reflexivity;
      rewrite SFeqb_refl in H by discriminate; discriminate.
  - intros ->. reflexivity.
Qed.

Lemma isNaN_false_Prim2SF (x : float) : isNaN x = false <-> Prim2SF x <> S754_nan.
Proof.
  rewrite <- isNaN_Prim2SF. destruct (isNaN x); split; congruence.
Qed.

Lemma isFinite_Prim2SF (x : float) :
  isFinite x = true <->
  match Prim2SF x with S754_zero _ | S754_finite _ _ _ => True | _ => False end.
Proof.
  unfold isFinite, is_finite, is_infinity, is_nan.
  rewrite !FloatAxioms.eqb_spec, FloatAxioms.abs_spec.
  change (Prim2SF infinity) with (S754_infinity false).
  destruct (Prim2SF x) as [[] | [] | | [] m e]; cbn [SFabs];
    try (rewrite SFeqb_refl by discriminate); cbn; intuition discriminate.
Qed.

(** A finite binary64 has at most 53 mantissa bits. *)
Lemma Prim2SF_mantissa_bound (x : float) (s : bool) (m : positive) (e : Z) :
  Prim2SF x = S754_finite s m e -> Z.pos m < 2 ^ 53.
Proof.
  intros E. pose proof (Prim2SF_valid x) as V. rewrite E in V.
  cbn [valid_binary] in V. unfold bounded, canonical_mantissa in V.
  apply andb_prop in V as [V _]. apply Z.eqb_eq in V.
  pose proof (digits2_pos_bounds m) as [_ Hb].
  eapply Z.lt_le_trans; [exact Hb|]. apply Z.pow_le_mono_r; [lia|].
  unfold fexp, SpecFloat.emin, prec, emax in V. lia.
Qed.

Lemma isInteger_ofZ (n : Z) :
  0 < n <= 2 ^ 52 ->
  isInteger (ofZ n) = true /\ isInteger (- ofZ n)%float = true.
Proof.
  intros [Hpos Hle]. destruct n as [| p | p]; try lia.
  assert (Hd : Z.pos (digits2_pos p) <= 53).
  { pose proof (digits2_pos_bounds p) as [Hlo _].
    assert (2 ^ (Z.pos (digits2_pos p) - 1) < 2 ^ 53) as Hlt.
    { eapply Z.le_lt_trans; [exact Hlo|]. eapply Z.le_lt_trans; [exact Hle|]. reflexivity. }
    apply Z.pow_lt_mono_r_iff in Hlt; lia. }
  destruct (Prim2SF_ofZ p Hd) as (m & e & E & Hm & He).
  unfold isInteger. rewrite FloatAxioms.opp_spec, E. cbn [SFopp].
  rewrite Hm, Z.mod_mul by (apply Z.pow_nonzero; lia).
  rewrite orb_true_r. split; reflexivity.
Qed.

(** [Math.round] yields an integer whenever it yields a finite number. *)
Lemma Math_round_isInteger (x : float) :
  isFinite (Math_round x) = true -> isInteger (Math_round x) = true.
Proof.
  unfold Math_round. destruct (Prim2SF x) as [s | s | | s m e] eqn:E.
  - intros _. unfold isInteger. rewrite E. reflexivity.
  - rewrite isFinite_Prim2SF, E. tauto.
  - rewrite isFinite_Prim2SF, E. tauto.
  - intros _. destruct (0 <=? e) eqn:He.
    + unfold isInteger. rewrite E, He. reflexivity.
    + apply Z.leb_gt in He. pose proof (Prim2SF_mantissa_bound x s m e E) as Hm.
      set (k := - e). set (q := Z.pos m / 2 ^ k). set (r := Z.pos m mod 2 ^ k).
      assert (Hq : 0 <= q < 2 ^ 52).
      { unfold q. split; [apply Z.div_pos; [lia | apply Z.pow_pos_nonneg; lia]|].
        apply Z.div_lt_upper_bound; [apply Z.pow_pos_nonneg; lia|].
        eapply Z.lt_le_trans; [exact Hm|].
        change (2 ^ 53) with (2 ^ 1 * 2 ^ 52).
        apply Z.mul_le_mono_nonneg_r; [lia|]. apply Z.pow_le_mono_r; lia. }
      match goal with |- context [if ?t =? 0 then _ else _] => set (n := t) end.
      assert (Hn : 0 <= n <= 2 ^ 52).
      { unfold n. destruct s; [destruct (_ <? r) | destruct (_ <=? r)]; lia. }
      destruct (n =? 0) eqn:Hz.
      * destruct s; reflexivity.
      * apply Z.eqb_neq in Hz.
        destruct (isInteger_ofZ n) as [H1 H2]; [lia|]. destruct s; assumption.
Qed.

End NumFacts.

(* ===================================================================== *)
(** ** The log handlers keep the aggregate invariant *)
(* ===================================================================== *)
Section LogMutatorFacts.

Lemma sumCalories_snoc (fs : list FoodItem) (f : FoodItem) :
  sumCalories (fs ++ [f]) = (sumCalories fs + calories f)%float.
Proof. unfold sumCalories. rewrite fold_left_app. reflexivity. Qed.

Lemma emptyLog_consistent (today : string) : consistent (emptyLog today).
Proof. reflexivity. Qed.

Lemma handleAddFood_consistent today foodInput calInput idNow isoNow
    (prev : gmap string DailyLog) :
  map_Forall (fun _ l => consistent l) prev ->
  map_Forall (fun _ l => consistent l)
    (handleAddFood today foodInput calInput idNow isoNow prev).
Proof.
  intros Hprev. unfold handleAddFood.
  destruct (negb _); [exact Hprev|].
  apply map_Forall_insert_2; [|exact Hprev].
  unfold consistent. cbn [foods totalCalories].
  rewrite sumCalories_snoc. f_equal.
  destruct (prev !! today) as [l|] eqn:E; cbn [default].
  - exact (Hprev today l E).
  - reflexivity.
Qed.

Lemma handleDeleteFood_consistent today foodId (prev : gmap string DailyLog) :
  map_Forall (fun _ l => consistent l) prev ->
  map_Forall (fun _ l => consistent l) (handleDeleteFood today foodId prev).
Proof.
  intros Hprev. unfold handleDeleteFood.
  destruct (prev !! today) as [l|]; [|exact Hprev].
  apply map_Forall_insert_2; [reflexivity | exact Hprev].
Qed.

Lemma step_consistent (a : Action) (logs : gmap string DailyLog) :
  map_Forall (fun _ l => consistent l) logs ->
  map_Forall (fun _ l => consistent l) (step logs a).
Proof.
  destruct a; [apply handleAddFood_consistent | apply handleDeleteFood_consistent].
Qed.

Lemma run_consistent (acts : list Action) (logs : gmap string DailyLog) :
  map_Forall (fun _ l => consistent l) logs ->
  map_Forall (fun _ l => consistent l) (run acts logs).
Proof.
  revert logs. induction acts as [| a acts IH]; intros logs H; [exact H|].
  apply IH, step_consistent, H.
Qed.

End LogMutatorFacts.

(* ===================================================================== *)
(** ** Sums of integers are never [NaN] *)
(* ===================================================================== *)
Section NoNaN.

Lemma shr_1_nonneg (mrs : shr_record) : 0 <= shr_m mrs -> 0 <= shr_m (shr_1 mrs).
Proof. destruct mrs as [[| [p | p |] | p] r s]; cbn; lia. Qed.

Lemma iter_shr_1_nonneg (p : positive) (mrs : shr_record) :
  0 <= shr_m mrs -> 0 <= shr_m (SpecFloat.iter_pos shr_1 p mrs).
Proof.
  revert mrs. induction p as [p IH | p IH |]; intros mrs H; cbn [iter_pos].
  - apply IH, IH, shr_1_nonneg, H.
  - apply IH, IH, H.
  - apply shr_1_nonneg, H.
Qed.

Lemma shr_fexp_nonneg (m e : Z) (l : location) :
  0 <= m -> 0 <= shr_m (fst (shr_fexp prec emax m e l)).
Proof.
  intros H. unfold shr_fexp, shr.
  assert (H0 : 0 <= shr_m (shr_record_of_loc m l)) by (destruct l as [| []]; exact H).
  destruct (fexp prec emax (Zdigits2 m + e) - e); cbn [fst]; auto using iter_shr_1_nonneg.
Qed.

Lemma binary_round_aux_not_nan (s : bool) (m e : Z) (l : location) :
  0 <= m -> binary_round_aux prec emax s m e l <> S754_nan.
Proof.
  intros H. unfold binary_round_aux.
  pose proof (shr_fexp_nonneg m e l H) as H1.
  destruct (shr_fexp prec emax m e l) as [mrs' e']. cbn [fst] in H1.
  assert (H2 : 0 <= round_nearest_even (shr_m mrs') (loc_of_shr_record mrs')).
  { unfold round_nearest_even. destruct (loc_of_shr_record mrs') as [| []]; try lia.
    destruct (Z.even _); lia. }
  pose proof (shr_fexp_nonneg _ e' loc_Exact H2) as H3.
  destruct (shr_fexp prec emax _ e' loc_Exact) as [mrs'' e'']. cbn [fst] in H3.
  destruct (shr_m mrs''); try lia; [discriminate|].
  destruct (e'' <=? emax - prec); discriminate.
Qed.

Lemma binary_normalize_not_nan (m e : Z) (sz : bool) :
  binary_normalize prec emax m e sz <> S754_nan.
Proof.
  destruct m; cbn [binary_normalize]; [discriminate | |];
    unfold binary_round; destruct (shl_align _ _ _); apply binary_round_aux_not_nan; lia.
Qed.

(** Adding a finite number never makes a [NaN] out of a number. *)
Lemma add_finite_not_NaN (x y : float) :
  isNaN x = false -> isFinite y = true -> isNaN (x + y) = false.
Proof.
  rewrite !isNaN_false_Prim2SF, isFinite_Prim2SF, FloatAxioms.add_spec. unfold SF64add.
  destruct (Prim2SF x) as [[] | [] | | sx mx ex], (Prim2SF y) as [[] | [] | | sy my ey];
    cbn [SFadd]; try tauto; try discriminate; intros _ _; apply binary_normalize_not_nan.
Qed.

Lemma isInteger_isFinite (x : float) : isInteger x = true -> isFinite x = true.
Proof.
  unfold isInteger. rewrite isFinite_Prim2SF. destruct (Prim2SF x); try discriminate; tauto.
Qed.

(** [x === x] for every number but [NaN]. *)
Lemma eqb_refl_not_NaN (x : float) : isNaN x = false -> PrimFloat.eqb x x = true.
Proof. unfold isNaN, is_nan. destruct (PrimFloat.eqb x x); [reflexivity | discriminate]. Qed.

Lemma sumCalories_not_NaN (fs : list FoodItem) :
  Forall (fun f => isInteger (calories f) = true) fs -> isNaN (sumCalories fs) = false.
Proof.
  unfold sumCalories. assert (H0 : isNaN 0 = false) by reflexivity. revert H0.
  generalize 0%float as acc. induction fs as [| f fs IH]; intros acc Hacc Hall; [exact Hacc|].
  inversion Hall as [| ? ? Hf Hfs]; subst. cbn [fold_left].
  apply IH; [|exact Hfs]. apply add_finite_not_NaN; [exact Hacc|].
  apply isInteger_isFinite, Hf.
Qed.

End NoNaN.

(* ===================================================================== *)
(** ** Claims on the food log (C1, C7) *)
(* ===================================================================== *)
Section LogMutatorClaims.

Lemma step_integerEntries (a : Action) (logs : gmap string DailyLog) :
  addsInteger a ->
  map_Forall (fun _ l => integerEntries l) logs ->
  map_Forall (fun _ l => integerEntries l) (step logs a).
Proof.
  intros Ha Hlogs. destruct a as [today foodInput calInput idNow isoNow | today foodId];
    cbn [step addsInteger] in *.
  - unfold handleAddFood. destruct (negb _); [exact Hlogs|].
    apply map_Forall_insert_2; [|exact Hlogs].
    unfold integerEntries. cbn [foods]. apply Forall_app. split.
    + destruct (logs !! today) as [l|] eqn:E; cbn [default].
      * exact (Hlogs today l E).
      * constructor.
    + repeat constructor. exact Ha.
  - unfold handleDeleteFood. destruct (logs !! today) as [l|] eqn:E; [|exact Hlogs].
    apply map_Forall_insert_2; [|exact Hlogs].
    unfold integerEntries. cbn [foods].
    pose proof (Hlogs today l E) as Hl. unfold integerEntries in Hl.
    rewrite List.Forall_forall in *. intros f Hf. apply List.filter_In in Hf as [Hf _]. auto.
Qed.

Lemma run_integerEntries (acts : list Action) (logs : gmap string DailyLog) :
  Forall addsInteger acts ->
  map_Forall (fun _ l => integerEntries l) logs ->
  map_Forall (fun _ l => integerEntries l) (run acts logs).
Proof.
  revert logs. induction acts as [| a acts IH]; intros logs Ha H; [exact H|].
  inversion Ha; subst. apply IH; [assumption|]. apply step_integerEntries; assumption.
Qed.

(** C1. Starting from logs whose [totalCalories] is the sum of their
    entries' calories, after every action of every session of [handleAddFood]
    and [handleDeleteFood] calls that add integer calories, every log of the
    mapping (and the log the dashboard shows for any day) stores as
    [totalCalories] exactly the number that summing its [foods] gives; when
    the entries present at the start are integers too, the comparison
    [totalCalories === sum] is true as well (no [NaN] can arise). *)
Theorem C1_totalCalories_is_sum (acts : list Action) (logs : gmap string DailyLog) :
  map_Forall (fun _ l => consistent l) logs ->
  Forall addsInteger acts ->
  forall n : nat,
    let logs' := run (take n acts) logs in
    (forall d l, logs' !! d = Some l ->
       totalCalories l = sumCalories (foods l)
       /\ (map_Forall (fun _ l => integerEntries l) logs ->
           PrimFloat.eqb (totalCalories l) (sumCalories (foods l)) = true))
    /\ (forall today, consistent (currentLog today logs')).
Proof.
  intros Hlogs Hacts n logs'.
  assert (Hc : map_Forall (fun _ l => consistent l) logs') by (apply run_consistent, Hlogs).
  split.
  - intros d l Hl. split; [exact (Hc d l Hl)|].
    intros Hint.
    assert (Hi : map_Forall (fun _ l => integerEntries l) logs').
    { apply run_integerEntries; [apply Forall_take, Hacts | exact Hint]. }
    rewrite (Hc d l Hl). apply eqb_refl_not_NaN, sumCalories_not_NaN. exact (Hi d l Hl).
  - intros today. unfold currentLog.
    destruct (logs' !! today) as [l|] eqn:E; cbn [default].
    + exact (Hc today l E).
    + apply emptyLog_consistent.
Qed.

Lemma C1_totalCalories_is_sum_witness :
  let logs' := run (take 3 sampleSession) (∅ : gmap string DailyLog) in
  (forall d l, logs' !! d = Some l ->
     totalCalories l = sumCalories (foods l)
     /\ (map_Forall (fun _ l => integerEntries l) (∅ : gmap string DailyLog) ->
         PrimFloat.eqb (totalCalories l) (sumCalories (foods l)) = true))
  /\ (forall today, consistent (currentLog today logs')).
Proof.
  apply (C1_totalCalories_is_sum sampleSession ∅).
  - apply map_Forall_empty.
  - repeat constructor; vm_compute; reflexivity.
Defined.

(** C7. [handleDeleteFood] returns the mapping unchanged when the date has
    no log. Otherwise it rewrites that date's log only: the entries whose
    [id] is [foodId] are gone, the others stay in their order, and
    [totalCalories] is the sum of the entries that remain, whatever total
    was stored before. Adding a 300 kcal and a 450 kcal food to an empty
    mapping and deleting the first by its id leaves one entry and a total
    of 450. *)
Theorem C7_handleDeleteFood (today foodId : string) (prev : gmap string DailyLog) :
  (prev !! today = None -> handleDeleteFood today foodId prev = prev)
  /\ (forall l, prev !! today = Some l ->
        exists l', handleDeleteFood today foodId prev = <[today := l']> prev
          /\ foods l' = List.filter (fun f => negb (String.eqb (id f) foodId)) (foods l)
          /\ (forall f, In f (foods l') <-> In f (foods l) /\ id f <> foodId)
          /\ sublist (foods l') (foods l)
          /\ totalCalories l' = sumCalories (foods l')
          /\ date l' = date l /\ weightRecorded l' = weightRecorded l
          /\ waterIntake l' = waterIntake l)
  /\ (forall name1 name2 id2 t1 t2,
        name1 <> EmptyString -> name2 <> EmptyString -> id2 <> foodId ->
        let added := handleAddFood today name2 "450" id2 t2
                       (handleAddFood today name1 "300" foodId t1 ∅) in
        exists l, handleDeleteFood today foodId added !! today = Some l
          /\ foods l = [{| id := id2; food_name := name2; calories := 450; timestamp := t2 |}]
          /\ length (foods l) = 1%nat
          /\ totalCalories l = 450%float).
Proof.
  split; [|split].
  - intros E. unfold handleDeleteFood. rewrite E. reflexivity.
  - intros l E. unfold handleDeleteFood. rewrite E. eexists. split; [reflexivity|].
    cbn [foods totalCalories date weightRecorded waterIntake].
    split; [reflexivity|]. split; [|split; [|repeat split; reflexivity]].
    + intros f. rewrite List.filter_In, negb_true_iff, String.eqb_neq. reflexivity.
    + induction (foods l) as [| f fs IH]; cbn [List.filter]; [constructor|].
      destruct (negb _); [apply sublist_skip | apply sublist_cons]; exact IH.
  - intros name1 name2 id2 t1 t2 Hn1 Hn2 Hid added. subst added.
    unfold handleDeleteFood, handleAddFood. cbn [JS.truthy].
    rewrite (proj2 (String.eqb_neq name1 EmptyString) Hn1).
    rewrite (proj2 (String.eqb_neq name2 EmptyString) Hn2).
    cbn [negb]. rewrite lookup_empty, !lookup_insert_eq.
    cbn [default from_option Datatypes.id emptyLog foods totalCalories date weightRecorded
         waterIntake app List.filter Types.id].
    rewrite String.eqb_refl, (proj2 (String.eqb_neq id2 foodId) Hid). cbn [negb].
    eexists. split; [reflexivity|].
    cbn [foods totalCalories]. repeat split; vm_compute; reflexivity.
Qed.

Lemma C7_handleDeleteFood_witness :
  exists l, handleDeleteFood "2025-01-01" "1735689600000" (run (take 2 sampleSession) ∅)
              !! "2025-01-01" = Some l
    /\ foods l = [{| id := "1735689601000"; food_name := "curry"; calories := 450;
                     timestamp := "2025-01-01T00:00:01.000Z" |}]
    /\ length (foods l) = 1%nat
    /\ totalCalories l = 450%float.
Proof.
  apply (proj2 (proj2 (C7_handleDeleteFood "2025-01-01" "1735689600000" ∅))
           "rice" "curry" "1735689601000" "2025-01-01T00:00:00.000Z" "2025-01-01T00:00:01.000Z");
    discriminate.
Defined.

End LogMutatorClaims.

(* ===================================================================== *)
(** ** Claims on [calculateTDEE] (C2, C3) *)
(* ===================================================================== *)
Section MetricsClaims.

Lemma ltb_zero_cases (m : float) :
  PrimFloat.ltb 0 m = true ->
  Prim2SF m = S754_infinity false \/ exists mm e, Prim2SF m = S754_finite false mm e.
Proof.
  rewrite FloatAxioms.ltb_spec. change (Prim2SF 0) with (S754_zero false).
  destruct (Prim2SF m) as [[] | [] | | [] mm e]; cbn; try discriminate; eauto.
Qed.

Lemma eqb_zero_cases (n : float) :
  PrimFloat.eqb n 0 = true <-> exists s, Prim2SF n = S754_zero s.
Proof.
  rewrite FloatAxioms.eqb_spec. change (Prim2SF 0) with (S754_zero false).
  destruct (Prim2SF n) as [[] | [] | | [] mm e]; cbn; split;
    try discriminate; try (intros [? ?]; discriminate); eauto.
Qed.

(** [n === 0] already excludes [NaN]. *)
Lemma eqb_zero_not_NaN (n : float) : PrimFloat.eqb n 0 = true -> isNaN n = false.
Proof.
  rewrite eqb_zero_cases, isNaN_false_Prim2SF. intros [s ->]. discriminate.
Qed.

(** A number greater than 0 is truthy. *)
Lemma ltb_zero_truthy (m : float) : PrimFloat.ltb 0 m = true -> Num.truthy m = true.
Proof.
  intros H. unfold Num.truthy.
  assert (Hn : isNaN m = false).
  { apply isNaN_false_Prim2SF. destruct (ltb_zero_cases m H) as [-> | (? & ? & ->)]; discriminate. }
  assert (Hz : PrimFloat.eqb m 0 = false).
  { destruct (PrimFloat.eqb m 0) eqn:E; [|reflexivity].
    apply eqb_zero_cases in E as [s E].
    destruct (ltb_zero_cases m H) as [E' | (? & ? & E')]; congruence. }
  rewrite Hn, Hz. reflexivity.
Qed.

Lemma manualOverride_false (u : UserProfile) :
  Spec.noManualTDEE u -> App.manualOverride u = None.
Proof.
  unfold Spec.noManualTDEE, App.manualOverride.
  destruct (manualTDEE u); [intros ->; rewrite andb_false_r|]; reflexivity.
Qed.

Lemma manualOverride_true (u : UserProfile) (m : float) :
  manualTDEE u = Some m -> PrimFloat.ltb 0 m = true -> App.manualOverride u = Some m.
Proof.
  intros E H. unfold App.manualOverride. rewrite E, H, ltb_zero_truthy by exact H. reflexivity.
Qed.

(** C2, as stated, fails on its worked example: for the male, 25 years,
    170 cm, 70 kg, 1.2, [lose] profile the function does not return
    [round(1909.8 - C)] for the configured [C] (1000 in [App.tsx], 500 in
    the earlier copy): it returns 971 (resp. 1471), since the BMR of that
    profile is 1642.5, not 1591.5. *)
Lemma C2_example_is_not_round_1909_8 :
  Spec.noManualTDEE exampleProfile
  /\ App.calculateTDEE exampleProfile <> Math_round (1909.8 - 1000)
  /\ Legacy.calculateTDEE exampleProfile <> Math_round (1909.8 - 500)
  /\ Spec.BMR exampleProfile <> 1591.5%float.
Proof.
  split; [exact I|].
  repeat split; intros H; apply (f_equal Prim2SF) in H; vm_compute in H; discriminate.
Qed.

(** C2, amended. For every profile whose [manualTDEE] is unset or not
    greater than 0, [calculateTDEE] returns [round(BMR * activityLevel)]
    adjusted by the offset ([- C] for [lose], [+ C] for [gain], nothing for
    [maintain]) before rounding, with the Mifflin-St Jeor BMR of the
    profile's gender and [C] the one offset the file uses in both branches
    (1000 in [App.tsx], 500 in the earlier copy); for male, 25, 170, 70,
    1.2, [lose] the BMR is 1642.5, the base 1971, and the result
    [round(1971 - C)], that is 971 (1471 in the earlier copy). *)
Theorem C2_calculateTDEE_formula (u : UserProfile) :
  Spec.noManualTDEE u ->
  App.calculateTDEE u
    = Math_round (Spec.goalAdjust 1000 (goalType u) (Spec.BMR u * activityLevel u))
  /\ Legacy.calculateTDEE u
     = Math_round (Spec.goalAdjust 500 (goalType u) (Spec.BMR u * activityLevel u))
  /\ Spec.BMR exampleProfile = 1642.5%float
  /\ (Spec.BMR exampleProfile * activityLevel exampleProfile = 1971)%float
  /\ App.calculateTDEE exampleProfile = Math_round (1971 - 1000)
  /\ App.calculateTDEE exampleProfile = 971%float
  /\ Legacy.calculateTDEE exampleProfile = 1471%float.
Proof.
  intros H. apply manualOverride_false in H.
  unfold App.calculateTDEE, Legacy.calculateTDEE, Spec.goalAdjust, Spec.BMR. rewrite H.
  split; [|split]; [destruct (gender u), (goalType u); reflexivity ..|].
  repeat split; vm_compute; reflexivity.
Qed.

Lemma C2_calculateTDEE_formula_witness :
  App.calculateTDEE exampleProfile
    = Math_round (Spec.goalAdjust 1000 (goalType exampleProfile)
                    (Spec.BMR exampleProfile * activityLevel exampleProfile))
  /\ Legacy.calculateTDEE exampleProfile
     = Math_round (Spec.goalAdjust 500 (goalType exampleProfile)
                     (Spec.BMR exampleProfile * activityLevel exampleProfile))
  /\ Spec.BMR exampleProfile = 1642.5%float
  /\ (Spec.BMR exampleProfile * activityLevel exampleProfile = 1971)%float
  /\ App.calculateTDEE exampleProfile = Math_round (1971 - 1000)
  /\ App.calculateTDEE exampleProfile = 971%float
  /\ Legacy.calculateTDEE exampleProfile = 1471%float.
Proof. apply (C2_calculateTDEE_formula exampleProfile). exact I. Defined.

(** C3. For every profile whose [manualTDEE] is set and greater than 0,
    [calculateTDEE] returns exactly [manualTDEE], whatever the gender, age,
    height, weight, activity level and goal; with [manualTDEE = 1800] it
    returns exactly 1800 for every choice of the other fields. *)
Theorem C3_manualTDEE_overrides (u : UserProfile) (m : float) :
  manualTDEE u = Some m -> PrimFloat.ltb 0 m = true ->
  App.calculateTDEE u = m
  /\ Legacy.calculateTDEE u = m
  /\ (forall v : UserProfile, App.calculateTDEE (withManualTDEE v 1800) = 1800%float).
Proof.
  intros E H.
  unfold App.calculateTDEE, Legacy.calculateTDEE.
  rewrite (manualOverride_true u m E H). split; [reflexivity|]. split; [reflexivity|].
  intros v. rewrite (manualOverride_true (withManualTDEE v 1800) 1800); reflexivity.
Qed.

Lemma C3_manualTDEE_overrides_witness :
  App.calculateTDEE (withManualTDEE exampleProfile 1800) = 1800%float
  /\ Legacy.calculateTDEE (withManualTDEE exampleProfile 1800) = 1800%float
  /\ (forall v : UserProfile, App.calculateTDEE (withManualTDEE v 1800) = 1800%float).
Proof.
  apply (C3_manualTDEE_overrides (withManualTDEE exampleProfile 1800) 1800); reflexivity.
Defined.

End MetricsClaims.

(* ===================================================================== *)
(** ** Claims on the import (C10, C4, C9, C6, C5) *)
(* ===================================================================== *)
Section ImportClaims.

Lemma bind_Ok {A B : Type} (r : result A) (k : A -> result B) (b : B) :
  (r ≫= k) = Ok b -> exists a, r = Ok a /\ k a = Ok b.
Proof. destruct r as [a | e]; cbn; [eauto | discriminate]. Qed.

(** C10. For every value [v] and fallback [d], [safeNum(v, d)] returns [d]
    when [Number(v)] is [NaN] and [Number(v)] otherwise (and throws exactly
    when [Number(v)] throws); its guard [n === 0 || !isNaN(n)] is the plain
    guard [!isNaN(n)], since a number equal to 0 is not [NaN]: an imported
    zero is kept like every other number. *)
Theorem C10_safeNum_guard_is_not_NaN (v : JSValue) (d : float) :
  safeNum v d = (n ← ToNumber v; Ok (if Num.isNaN n then d else n))
  /\ safeNum v d = Spec.safeNumPlain v d
  /\ (forall n : float, PrimFloat.eqb n 0 || negb (Num.isNaN n) = negb (Num.isNaN n))
  /\ safeNum (JNum 0) d = Ok 0%float.
Proof.
  assert (G : forall n : float, PrimFloat.eqb n 0 || negb (Num.isNaN n) = negb (Num.isNaN n)).
  { intros n. destruct (PrimFloat.eqb n 0) eqn:E; [|reflexivity].
    rewrite (eqb_zero_not_NaN n E). reflexivity. }
  unfold safeNum, Spec.safeNumPlain.
  repeat split; try exact G; destruct (ToNumber v) as [n | e]; cbn; try reflexivity;
    rewrite G; destruct (Num.isNaN n); reflexivity.
Qed.

Lemma safeNum_inv (v : JSValue) (d r : float) :
  safeNum v d = Ok r ->
  exists n, ToNumber v = Ok n /\ r = if PrimFloat.eqb n 0 || negb (Num.isNaN n) then n else d.
Proof.
  unfold safeNum. intros H. apply bind_Ok in H as (n & Hn & H).
  exists n. split; [exact Hn | congruence].
Qed.

Lemma ToString_primitive (v : JSValue) : isPrimitive v = true -> exists s, ToString v = Ok s.
Proof. destruct v; cbn; try discriminate; eauto. Qed.

Lemma ToNumber_primitive (v : JSValue) : isPrimitive v = true -> exists n, ToNumber v = Ok n.
Proof. destruct v; cbn; try discriminate; eauto. Qed.

Lemma safeNum_primitive (v : JSValue) (d : float) :
  isPrimitive v = true -> exists n, safeNum v d = Ok n.
Proof.
  intros H. destruct (ToNumber_primitive v H) as [n E]. unfold safeNum. rewrite E. cbn. eauto.
Qed.

Lemma newUserState_returns (loadedAt isoNow : string) (importedUser : JSValue) :
  Forall (fun k => isPrimitive (getProp importedUser k) = true) convertedKeys ->
  exists u, newUserState loadedAt isoNow importedUser = Ok u.
Proof.
  intros H. unfold convertedKeys in H.
  repeat match goal with
         | H : Forall _ (_ :: _) |- _ => apply Forall_cons in H as [? H]
         end.
  unfold newUserState.
  repeat match goal with
         | Hp : isPrimitive (getProp importedUser ?k) = true
           |- context [safeNum (getProp importedUser ?k) ?d] =>
             let E := fresh "E" in
             destruct (safeNum_primitive _ d Hp) as [? E]; rewrite E; clear E; cbn [mbind result_bind]
         end.
  destruct (ToString_primitive (getProp importedUser "gender")) as [? ->]; [assumption|].
  destruct (ToString_primitive (getProp importedUser "goalType")) as [? ->]; [assumption|].
  destruct (ToNumber_primitive (getProp importedUser "manualTDEE")) as [? ->]; [assumption|].
  cbn [mbind result_bind]. eauto.
Qed.

Lemma newUserState_inv (loadedAt isoNow : string) (importedUser : JSValue) (u : UserProfile) :
  newUserState loadedAt isoNow importedUser = Ok u ->
  let init := App.INITIAL_USER loadedAt in
  safeNum (getProp importedUser "currentWeight") (currentWeight init) = Ok (currentWeight u)
  /\ safeNum (getProp importedUser "targetWeight") (targetWeight init) = Ok (targetWeight u)
  /\ safeNum (getProp importedUser "height") (height init) = Ok (height u)
  /\ safeNum (getProp importedUser "age") (age init) = Ok (age u)
  /\ safeNum (getProp importedUser "activityLevel") (activityLevel init) = Ok (activityLevel u)
  /\ (exists tdee, ToNumber (getProp importedUser "manualTDEE") = Ok tdee
        /\ manualTDEE u = if PrimFloat.ltb 0 tdee then Some tdee else None)
  /\ (exists gs, ToString (getProp importedUser "gender") = Ok gs
        /\ gender u = if String.eqb (toLowerCase gs) "female" then FEMALE else MALE)
  /\ (exists goal, ToString (getProp importedUser "goalType") = Ok goal
        /\ goalType u = default LOSE_WEIGHT
             (List.find (fun v => String.eqb (GoalType_value v) goal) GoalType_values))
  /\ name u = or_else (getProp importedUser "name") (name init)
  /\ updatedAt u = isoNow
  /\ rest u = List.filter (fun kv => negb (isCoreKey kv.1))
                (objSpread (userProps init) (ownProps importedUser)).
Proof.
  unfold newUserState. intros H.
  repeat (apply bind_Ok in H as (? & ? & H)).
  injection H as <-. cbn [currentWeight targetWeight height age activityLevel manualTDEE
                           gender goalType name updatedAt rest].
  repeat split; eauto.
Qed.

(** C4. In the import, each of [currentWeight], [targetWeight], [height],
    [age] and [activityLevel] of the document's [user] is converted with
    [Number]; the converted number is kept when it is zero or not [NaN],
    and the field takes the default profile's value otherwise. The
    conversion returns whenever the converted properties are primitives.
    A [currentWeight] of ["abc"] yields the default 70 (not [NaN], not
    zero), and an [age] of [0] yields [0] (not the default 25). *)
Theorem C4_numeric_override_pass (loadedAt isoNow : string) (importedUser : JSValue) :
  (Forall (fun k => isPrimitive (getProp importedUser k) = true) convertedKeys ->
   exists u, newUserState loadedAt isoNow importedUser = Ok u)
  /\ (forall u, newUserState loadedAt isoNow importedUser = Ok u ->
      let init := App.INITIAL_USER loadedAt in
      keptOrDefault (getProp importedUser "currentWeight") (currentWeight init) (currentWeight u)
      /\ keptOrDefault (getProp importedUser "targetWeight") (targetWeight init) (targetWeight u)
      /\ keptOrDefault (getProp importedUser "height") (height init) (height u)
      /\ keptOrDefault (getProp importedUser "age") (age init) (age u)
      /\ keptOrDefault (getProp importedUser "activityLevel") (activityLevel init) (activityLevel u)
      /\ (getProp importedUser "currentWeight" = JStr "abc" ->
          currentWeight u = currentWeight init /\ currentWeight u = 70%float
          /\ Num.isNaN (currentWeight u) = false /\ PrimFloat.eqb (currentWeight u) 0 = false)
      /\ (getProp importedUser "age" = JNum 0 ->
          age u = 0%float /\ PrimFloat.eqb (age u) (age init) = false)).
Proof.
  split; [apply newUserState_returns|].
  intros u H init. apply newUserState_inv in H. cbv zeta in H. fold init in H.
  destruct H as (Hcw & Htw & Hh & Ha & Hal & _).
  do 5 (split; [apply safeNum_inv; assumption|]).
  split; intros E.
  - assert (X : safeNum (JStr "abc") (currentWeight init) = Ok 70%float)
      by (vm_compute; reflexivity).
    rewrite E, X in Hcw. injection Hcw as <-. repeat split; reflexivity.
  - assert (X : safeNum (JNum 0) (age init) = Ok 0%float) by (vm_compute; reflexivity).
    rewrite E, X in Ha. injection Ha as <-. split; reflexivity.
Qed.

Lemma C4_numeric_override_pass_witness :
  exists u, newUserState "t0" "t1" sampleImportedUser = Ok u
    /\ currentWeight u = 70%float /\ age u = 0%float.
Proof.
  destruct (C4_numeric_override_pass "t0" "t1" sampleImportedUser) as [Hret Hfields].
  destruct Hret as [u Hu]; [repeat constructor|].
  exists u. split; [exact Hu|].
  destruct (Hfields u Hu) as (_ & _ & _ & _ & _ & Hcw & Hage).
  split; [apply Hcw | apply Hage]; reflexivity.
Defined.

(** C9, as stated, fails: the import keeps a [manualTDEE] of 1800.5, and
    for the profile it builds [calculateTDEE] returns 1800.5. *)
Lemma C9_imported_manualTDEE_not_integer :
  exists u, newUserState "t0" "t1" sampleImportedUser = Ok u
    /\ App.calculateTDEE u = 1800.5%float
    /\ isInteger (App.calculateTDEE u) = false.
Proof. eexists. split; [vm_compute; reflexivity|]. split; vm_compute; reflexivity. Qed.

(** C9, amended. When [manualTDEE] is unset or not greater than 0,
    [calculateTDEE] returns [Math.round] of a number: an integer whenever
    the result is finite. When [manualTDEE] is greater than 0 the function
    returns it unchanged, so the result is an integer exactly when the
    stored [manualTDEE] is one; the import stores any number greater
    than 0. *)
Theorem C9_calculateTDEE_integer_when_computed (u : UserProfile) :
  (Spec.noManualTDEE u ->
   isFinite (App.calculateTDEE u) = true -> isInteger (App.calculateTDEE u) = true)
  /\ (forall m, manualTDEE u = Some m -> PrimFloat.ltb 0 m = true ->
      App.calculateTDEE u = m /\ isInteger (App.calculateTDEE u) = isInteger m)
  /\ (forall loadedAt isoNow importedUser,
      newUserState loadedAt isoNow importedUser = Ok u ->
      exists tdee, ToNumber (getProp importedUser "manualTDEE") = Ok tdee
        /\ manualTDEE u = if PrimFloat.ltb 0 tdee then Some tdee else None).
Proof.
  split; [|split].
  - intros H. apply manualOverride_false in H. unfold App.calculateTDEE. rewrite H.
    destruct (goalType u); apply Math_round_isInteger.
  - intros m E H. unfold App.calculateTDEE.
    rewrite (manualOverride_true u m E H). split; reflexivity.
  - intros loadedAt isoNow importedUser H.
    apply newUserState_inv in H. apply H.
Qed.

Lemma C9_calculateTDEE_integer_when_computed_witness :
  isInteger (App.calculateTDEE exampleProfile) = true.
Proof.
  apply (proj1 (C9_calculateTDEE_integer_when_computed exampleProfile)); [exact I | reflexivity].
Defined.

(** *** Reading the file *)

Lemma genericErrorMessage_not_format (e : Exn) : genericErrorMessage e <> formatErrorMessage.
Proof. unfold genericErrorMessage, formatErrorMessage. cbn. discriminate. Qed.

Lemma onloadBody_nullish (data : JSValue) (st : AppState) :
  isNullish data = true -> exists e, onloadBody data st = Throw e.
Proof. destruct data; try discriminate; intros _; cbn; eauto. Qed.

Lemma onloadBody_unfold (data : JSValue) (st : AppState) :
  isNullish data = false ->
  onloadBody data st =
    if hasUserAndLogs data then
      n ← ToString (or_else (getProp (getProp data "user") "name") (JStr "ไม่ระบุ"));
      w ← ToString (getProp (getProp data "user") "currentWeight");
      Ok (showModal "ยืนยันการนำเข้า"
            ("พบข้อมูล:" +:+ nl +:+ "ชื่อ: " +:+ n +:+ nl +:+ "น้ำหนัก: " +:+ w
             +:+ "kg" +:+ nl +:+ nl +:+ "ต้องการนำเข้าข้อมูลนี้หรือไม่?")
            confirm (Some data) st)
    else Ok (showModal "ผิดพลาด" formatErrorMessage error None st).
Proof.
  intros Hn. unfold onloadBody, hasUserAndLogs, getV.
  destruct data; try discriminate; cbn [mbind result_bind];
    destruct (JS.truthy (getProp _ "user")) eqn:Eu; cbn [mbind result_bind andb];
    try rewrite Eu; reflexivity.
Qed.

Lemma onload_keeps_data (content : FileContent) (st : AppState) :
  user (onload content st) = user st /\ logs (onload content st) = logs st.
Proof.
  destruct content as [| e | data]; cbn [onload]; try (split; reflexivity).
  destruct (isNullish data) eqn:Hn.
  - destruct (onloadBody_nullish data st Hn) as [e ->]. split; reflexivity.
  - rewrite (onloadBody_unfold data st Hn).
    destruct (hasUserAndLogs data); [|split; reflexivity].
    destruct (ToString (or_else _ _)); cbn [mbind result_bind]; [|split; reflexivity].
    destruct (ToString (getProp _ "currentWeight")); cbn [mbind result_bind]; split; reflexivity.
Qed.

(** C6, as stated, fails on the empty text: it is not valid JSON, yet
    [onload] returns at [if (!content) return] and no notification is put
    up (nothing is changed either). *)
Lemma C6_empty_text_is_ignored_silently :
  onload EmptyText idleState = idleState
  /\ isOpen (modalConfig (onload EmptyText idleState)) = false
  /\ ~ reportsError (onload EmptyText idleState).
Proof.
  split; [reflexivity|]. split; [reflexivity|]. intros [H _]. discriminate.
Qed.

(** C6, amended. Reading a file never touches the profile or the logs. A
    non-empty text that is not valid JSON puts up the error modal with the
    exception's message; a document in which [user] or [logs] is missing
    (or falsy) puts up the format-error modal; a document that is [null]
    puts up the error modal too; an empty text is ignored, with no
    notification. The state changes only when the user confirms, and not
    even then when building the new profile throws; cancelling changes
    nothing. *)
Theorem C6_failed_import_leaves_state (content : FileContent) (st : AppState) :
  (user (onload content st) = user st /\ logs (onload content st) = logs st)
  /\ (forall e, content = Malformed e ->
      reportsError (onload content st)
      /\ message (modalConfig (onload content st)) = genericErrorMessage e)
  /\ (forall data, content = Parsed data -> isNullish data = false ->
      hasUserAndLogs data = false -> reportsFormatError (onload content st))
  /\ (forall data, content = Parsed data -> isNullish data = true ->
      reportsError (onload content st))
  /\ (content = EmptyText -> onload content st = st)
  /\ (forall loadedAt isoNow data e,
      onConfirm (modalConfig st) = Some data ->
      importConfirmed loadedAt isoNow data st = Throw e ->
      clickConfirm loadedAt isoNow st = st)
  /\ (user (clickCancel st) = user st /\ logs (clickCancel st) = logs st).
Proof.
  split; [apply onload_keeps_data|].
  split; [intros e ->; repeat split|].
  split.
  { intros data -> Hn Hf. cbn [onload]. rewrite (onloadBody_unfold data st Hn), Hf. reflexivity. }
  split.
  { intros data -> Hn. cbn [onload]. destruct (onloadBody_nullish data st Hn) as [e ->].
    split; reflexivity. }
  split; [intros ->; reflexivity|].
  split; [|split; reflexivity].
  intros loadedAt isoNow data e Hc Ht. unfold clickConfirm. rewrite Hc, Ht. reflexivity.
Qed.

Lemma C6_failed_import_leaves_state_witness :
  reportsFormatError (onload (Parsed documentWithoutLogs) idleState)
  /\ user (onload (Parsed documentWithoutLogs) idleState) = user idleState
  /\ logs (onload (Parsed documentWithoutLogs) idleState) = logs idleState.
Proof.
  pose proof (C6_failed_import_leaves_state (Parsed documentWithoutLogs) idleState)
    as ([Hu Hl] & _ & Hf & _).
  split; [apply (Hf documentWithoutLogs); reflexivity | split; assumption].
Defined.

(** *** Layering *)

Lemma assoc_None_iff (k : string) (l : list (string * JSValue)) :
  assoc k l = None <-> k ∉ l.*1.
Proof.
  induction l as [| [k' v] l IH]; cbn.
  - split; [intros _; apply not_elem_of_nil | reflexivity].
  - rewrite not_elem_of_cons. destruct (String.eqb_spec k k') as [-> | Hne].
    + split; [discriminate | intros [? _]; congruence].
    + rewrite IH. tauto.
Qed.

Lemma assoc_app (k : string) (l1 l2 : list (string * JSValue)) :
  assoc k (l1 ++ l2)
  = match assoc k l1 with Some v => Some v | None => assoc k l2 end.
Proof.
  induction l1 as [| [k' v] l1 IH]; cbn; [reflexivity|].
  destruct (String.eqb k k'); [reflexivity | exact IH].
Qed.

Lemma assoc_setProp (k k' : string) (v : JSValue) (l : list (string * JSValue)) :
  assoc k (setProp k' v l) = if String.eqb k k' then Some v else assoc k l.
Proof.
  induction l as [| [k0 v0] l IH]; cbn.
  - destruct (String.eqb k k'); reflexivity.
  - destruct (String.eqb_spec k' k0) as [-> | Hne]; cbn.
    + destruct (String.eqb k k0); reflexivity.
    + rewrite IH. destruct (String.eqb_spec k k0) as [-> | Hne'].
      * destruct (String.eqb_spec k0 k'); [congruence | reflexivity].
      * reflexivity.
Qed.

(** In [{...base, ...over}] a property of [over] hides that of [base]. *)
Lemma assoc_objSpread (k : string) (base over : list (string * JSValue)) :
  NoDup over.*1 ->
  assoc k (objSpread base over)
  = match assoc k over with Some v => Some v | None => assoc k base end.
Proof.
  unfold objSpread. revert base.
  induction over as [| [k' v] over IH]; intros base Hnd; cbn; [reflexivity|].
  cbn in Hnd. apply NoDup_cons in Hnd as [Hk Hnd]. rewrite IH by exact Hnd.
  rewrite assoc_setProp. destruct (String.eqb_spec k k') as [-> | Hne].
  - apply assoc_None_iff in Hk. rewrite Hk. reflexivity.
  - reflexivity.
Qed.

Lemma assoc_filter_noncore (k : string) (l : list (string * JSValue)) :
  isCoreKey k = false ->
  assoc k (List.filter (fun kv => negb (isCoreKey kv.1)) l) = assoc k l.
Proof.
  intros Hk. induction l as [| [k' v] l IH]; cbn; [reflexivity|].
  destruct (String.eqb_spec k k') as [-> | Hne].
  - rewrite Hk. cbn. rewrite String.eqb_refl. reflexivity.
  - destruct (negb (isCoreKey k')); cbn; [|exact IH].
    destruct (String.eqb_spec k k'); [congruence | exact IH].
Qed.

Lemma assoc_initial_noncore (k loadedAt : string) :
  isCoreKey k = false -> assoc k (userProps (App.INITIAL_USER loadedAt)) = None.
Proof.
  intros Hk. apply assoc_None_iff. intros Hin.
  apply bool_decide_eq_false in Hk. apply Hk.
  cbn in Hin. unfold coreKeys. revert Hin. rewrite !elem_of_cons. tauto.
Qed.

Lemma assoc_userProps_noncore (k : string) (u : UserProfile) :
  isCoreKey k = false -> assoc k (userProps u) = assoc k (rest u).
Proof.
  intros Hk. apply bool_decide_eq_false in Hk. unfold coreKeys in Hk.
  assert (forall c, c ∈ coreKeys -> String.eqb k c = false) as Hc.
  { intros c Hin. apply String.eqb_neq. intros ->. apply Hk, Hin. }
  unfold userProps. rewrite !assoc_app. cbn [assoc].
  rewrite !Hc by (unfold coreKeys; rewrite !elem_of_cons; tauto).
  destruct (manualTDEE u); cbn [assoc];
    [rewrite Hc by (unfold coreKeys; rewrite !elem_of_cons; tauto)|]; reflexivity.
Qed.

(** C5, as stated, fails: a document that has a [user] and lacks only
    [logs] is rejected with the format error. *)
Lemma C5_user_without_logs_is_rejected :
  JS.truthy (getProp documentWithoutLogs "user") = true
  /\ getProp documentWithoutLogs "logs" = JUndefined
  /\ reportsFormatError (onload (Parsed documentWithoutLogs) idleState).
Proof. repeat split. Qed.

(** C5, amended. The format error is reported exactly when the parsed
    document is not [null] and [data.user && data.logs] is falsy, that is
    when [user] or [logs] is missing. When both are there (and the
    confirmation text can be built from [user.name] and
    [user.currentWeight]) the confirm modal is put up with nothing changed;
    confirming installs [data.logs] and the new profile, which is layered:
    every property outside the normalized ones is the document's own when
    it has one (the defaults have none), [name] is the document's unless
    falsy, the five numbers went through the override pass, and
    [updatedAt] is the time of the import. *)
Theorem C5_format_error_iff_user_or_logs_missing (data : JSValue) (st : AppState) :
  (reportsFormatError (onload (Parsed data) st)
   <-> isNullish data = false /\ hasUserAndLogs data = false)
  /\ (hasUserAndLogs data = true ->
      forall n w,
        ToString (or_else (getProp (getProp data "user") "name") (JStr "ไม่ระบุ")) = Ok n ->
        ToString (getProp (getProp data "user") "currentWeight") = Ok w ->
        let st1 := onload (Parsed data) st in
        type (modalConfig st1) = confirm /\ onConfirm (modalConfig st1) = Some data
        /\ user st1 = user st /\ logs st1 = logs st
        /\ forall loadedAt isoNow u,
             newUserState loadedAt isoNow (getProp data "user") = Ok u ->
             let st2 := clickConfirm loadedAt isoNow st1 in
             let importedUser := getProp data "user" in
             let init := App.INITIAL_USER loadedAt in
             user st2 = u /\ logs st2 = getProp data "logs"
             /\ name u = or_else (getProp importedUser "name") (name init)
             /\ updatedAt u = isoNow
             /\ keptOrDefault (getProp importedUser "currentWeight") (currentWeight init)
                  (currentWeight u)
             /\ keptOrDefault (getProp importedUser "targetWeight") (targetWeight init)
                  (targetWeight u)
             /\ keptOrDefault (getProp importedUser "height") (height init) (height u)
             /\ keptOrDefault (getProp importedUser "age") (age init) (age u)
             /\ keptOrDefault (getProp importedUser "activityLevel") (activityLevel init)
                  (activityLevel u)
             /\ (NoDup (ownProps importedUser).*1 ->
                 forall k, isCoreKey k = false ->
                   assoc k (userProps u) = assoc k (ownProps importedUser))).
Proof.
  split.
  - cbn [onload]. destruct (isNullish data) eqn:Hn.
    + destruct (onloadBody_nullish data st Hn) as [e ->]. split.
      * intros H. apply (f_equal message) in H. cbn in H.
        exfalso. revert H. apply genericErrorMessage_not_format.
      * intros [? _]. discriminate.
    + rewrite (onloadBody_unfold data st Hn). destruct (hasUserAndLogs data).
      * split; [|intros [_ ?]; discriminate]. intros H. exfalso.
        destruct (ToString (or_else _ _)); cbn [mbind result_bind] in H;
          [destruct (ToString (getProp _ "currentWeight")); cbn [mbind result_bind] in H|].
        -- apply (f_equal type) in H. discriminate.
        -- apply (f_equal message) in H. revert H. apply genericErrorMessage_not_format.
        -- apply (f_equal message) in H. revert H. apply genericErrorMessage_not_format.
      * split; [intros _; split; reflexivity | intros _; reflexivity].
  - intros Hb n w Hname Hw st1.
    assert (Hn : isNullish data = false).
    { destruct data; try reflexivity; discriminate. }
    assert (E1 : st1 = showModal "ยืนยันการนำเข้า"
              ("พบข้อมูล:" +:+ nl +:+ "ชื่อ: " +:+ n +:+ nl +:+ "น้ำหนัก: " +:+ w
               +:+ "kg" +:+ nl +:+ nl +:+ "ต้องการนำเข้าข้อมูลนี้หรือไม่?")
              confirm (Some data) st).
    { subst st1. cbn [onload]. rewrite (onloadBody_unfold data st Hn), Hb, Hname, Hw.
      reflexivity. }
    rewrite E1. do 4 (split; [reflexivity|]).
    intros loadedAt isoNow u Hu st2 importedUser init.
    assert (E2 : st2 = closeModal {| user := u; logs := getProp data "logs";
                                     modalConfig := modalConfig st1 |}).
    { subst st2. unfold clickConfirm. rewrite E1. cbn [showModal modalConfig onConfirm].
      unfold importConfirmed. fold importedUser in Hu |- *. rewrite Hu. reflexivity. }
    rewrite E2. do 2 (split; [reflexivity|]).
    pose proof (newUserState_inv _ _ _ _ Hu) as Hinv. cbv zeta in Hinv.
    fold importedUser init in Hinv.
    destruct Hinv as (Hcw & Htw & Hh & Ha & Hal & _ & _ & _ & Hnm & Hup & Hrest).
    split; [exact Hnm|]. split; [exact Hup|].
    do 5 (split; [apply safeNum_inv; assumption|]).
    intros Hnd k Hk.
    rewrite (assoc_userProps_noncore k u Hk), Hrest, (assoc_filter_noncore k _ Hk).
    subst init. rewrite (assoc_objSpread k _ _ Hnd), (assoc_initial_noncore k loadedAt Hk).
    destruct (assoc k (ownProps importedUser)); reflexivity.
Qed.

(** A document with both a [user] and [logs]. *)
Lemma C5_format_error_iff_user_or_logs_missing_witness :
  let data := JObj [("user", sampleImportedUser); ("logs", JObj [])] in
  ~ reportsFormatError (onload (Parsed data) idleState)
  /\ type (modalConfig (onload (Parsed data) idleState)) = confirm.
Proof.
  intros data.
  destruct (C5_format_error_iff_user_or_logs_missing data idleState) as [Hiff Hboth].
  split.
  - intros H. apply Hiff in H as [_ H]. discriminate.
  - apply (Hboth eq_refl "Ann" "abc"); reflexivity.
Defined.

End ImportClaims.

(* ===================================================================== *)
(** ** Export followed by import (C8) *)
(* ===================================================================== *)
Section RoundTripClaims.

Lemma jsonRoundTrip_obj (props : list (string * JSValue)) :
  jsonRoundTrip (JObj props) = JObj (omap roundTripProp props).
Proof.
  cbn [jsonRoundTrip]. f_equal. induction props as [| [k x] props IH]; [reflexivity|].
  destruct x; cbn [omap list_omap roundTripProp fst snd];
    first [exact IH | f_equal; exact IH].
Qed.

Lemma jsonRoundTrip_finite (n : float) :
  isFinite n = true -> jsonRoundTrip (JNum n) = JNum (written n).
Proof. intros H. cbn [jsonRoundTrip]. rewrite H. reflexivity. Qed.

Lemma written_same (n : float) :
  isFinite n = true -> PrimFloat.eqb (written n) n = true /\ isNaN (written n) = false.
Proof.
  intros H. unfold written. destruct (PrimFloat.eqb n 0) eqn:E.
  - split; [|reflexivity]. apply eqb_zero_cases in E as [s E].
    rewrite FloatAxioms.eqb_spec, E. destruct s; reflexivity.
  - assert (Hn : isNaN n = false).
    { apply isNaN_false_Prim2SF. apply isFinite_Prim2SF in H. intros E'. rewrite E' in H. exact H. }
    split; [apply eqb_refl_not_NaN|]; exact Hn.
Qed.

Lemma written_positive (m : float) : PrimFloat.ltb 0 m = true -> written m = m.
Proof.
  intros H. unfold written. apply ltb_zero_truthy in H. unfold Num.truthy in H.
  destruct (PrimFloat.eqb m 0); [discriminate | reflexivity].
Qed.

Lemma safeNum_number (n d : float) : isNaN n = false -> safeNum (JNum n) d = Ok n.
Proof. intros H. unfold safeNum. cbn. rewrite H, orb_true_r. reflexivity. Qed.

(** *** Spreading and filtering *)

Lemma filter_noncore_setProp (k : string) (v : JSValue) (l : list (string * JSValue)) :
  List.filter noncore (setProp k v l)
  = if isCoreKey k then List.filter noncore l else setProp k v (List.filter noncore l).
Proof.
  induction l as [| [k' v'] l IH]; cbn [setProp List.filter].
  - unfold noncore. cbn [fst]. destruct (isCoreKey k); reflexivity.
  - destruct (String.eqb k k') eqn:E.
    + apply String.eqb_eq in E. subst k'. cbn [List.filter]. unfold noncore. cbn [fst].
      destruct (isCoreKey k); cbn [negb setProp]; rewrite ?String.eqb_refl; reflexivity.
    + cbn [List.filter]. rewrite IH. unfold noncore. cbn [fst].
      destruct (isCoreKey k), (isCoreKey k'); cbn [negb setProp]; rewrite ?E; reflexivity.
Qed.

Lemma filter_noncore_objSpread (base over : list (string * JSValue)) :
  List.filter noncore (objSpread base over)
  = objSpread (List.filter noncore base) (List.filter noncore over).
Proof.
  unfold objSpread. revert base.
  induction over as [| [k v] over IH]; intros base; [reflexivity|].
  cbn [fold_left fst snd List.filter]. rewrite IH, filter_noncore_setProp.
  change (noncore (k, v)) with (negb (isCoreKey k)).
  destruct (isCoreKey k); cbn [negb fold_left fst snd]; reflexivity.
Qed.

Lemma setProp_fresh (k : string) (v : JSValue) (l : list (string * JSValue)) :
  k ∉ l.*1 -> setProp k v l = l ++ [(k, v)].
Proof.
  induction l as [| [k' v'] l IH]; intros H; [reflexivity|].
  cbn in H. apply not_elem_of_cons in H as [Hne H].
  cbn. destruct (String.eqb_spec k k'); [congruence|]. rewrite IH by exact H. reflexivity.
Qed.

Lemma objSpread_fresh (acc r : list (string * JSValue)) :
  NoDup r.*1 -> (forall k, k ∈ r.*1 -> k ∉ acc.*1) -> objSpread acc r = acc ++ r.
Proof.
  unfold objSpread. revert acc.
  induction r as [| [k v] r IH]; intros acc Hnd Hfresh; cbn.
  - rewrite app_nil_r. reflexivity.
  - cbn in Hnd. apply NoDup_cons in Hnd as [Hk Hnd].
    rewrite setProp_fresh by (apply Hfresh; cbn; left).
    rewrite IH; [rewrite <- app_assoc; reflexivity | exact Hnd |].
    intros k' Hk'. rewrite fmap_app. cbn. rewrite elem_of_app, list_elem_of_singleton.
    intros [Hin | ->]; [|contradiction].
    revert Hin. apply Hfresh. cbn. right. exact Hk'.
Qed.

Lemma filter_cons_core (k : string) (v : JSValue) (l : list (string * JSValue)) :
  isCoreKey k = true -> List.filter noncore ((k, v) :: l) = List.filter noncore l.
Proof. intros H. cbn. unfold noncore at 1. cbn. rewrite H. reflexivity. Qed.

Lemma filter_noncore_id (l : list (string * JSValue)) :
  Forall (fun k => isCoreKey k = false) l.*1 -> List.filter noncore l = l.
Proof.
  induction l as [| [k v] l IH]; intros H; [reflexivity|].
  cbn in H. apply Forall_cons in H as [Hk H].
  cbn. unfold noncore at 1. cbn. rewrite Hk. cbn. rewrite IH by exact H. reflexivity.
Qed.

(** *** Export, then import *)

(** C8, as stated, fails: an infinite [currentWeight] is not [NaN], is
    written [null] by the export, and is read back as 0; and a logs mapping
    with a [NaN] total is not the mapping that comes back. *)
Lemma C8_infinite_weight_comes_back_zero :
  (validState infiniteWeightState
   /\ currentWeight (user (exportThenImport "t0" "t1" "t2" infiniteWeightState)) = 0%float
   /\ ~ sameProfile (user infiniteWeightState)
          (user (exportThenImport "t0" "t1" "t2" infiniteWeightState)))
  /\ (validState nanTotalState
      /\ logs (exportThenImport "t0" "t1" "t2" nanTotalState) <> logs nanTotalState).
Proof.
  split; split.
  - unfold validState. cbn. split; [exists "Ann"; split; [reflexivity | discriminate]|].
    repeat split; eauto.
  - split; [vm_compute; reflexivity|].
    unfold sameProfile, sameNumber. intros (_ & _ & _ & _ & _ & H & _).
    vm_compute in H. discriminate.
  - unfold validState. cbn -[Logs_toJS].
    split; [exists "Guest"; split; [reflexivity | discriminate]|].
    repeat split; eauto.
  - intros H.
    apply (f_equal (fun v => getProp (getProp v "2025-01-01") "totalCalories")) in H.
    vm_compute in H. discriminate.
Qed.

(** Reads of literal keys in a property list spelled out. *)
Ltac read_props :=
  cbn [getProp assoc String.eqb Ascii.eqb Bool.eqb default from_option Datatypes.id].

Lemma roundTripProp_cons (k : string) (x : JSValue) (l : list (string * JSValue)) :
  x <> JUndefined ->
  omap roundTripProp ((k, x) :: l) = (k, jsonRoundTrip x) :: omap roundTripProp l.
Proof. destruct x; [congruence | reflexivity ..]. Qed.

Lemma truthy_not_undefined (v : JSValue) : JS.truthy v = true -> v <> JUndefined.
Proof. intros H ->. discriminate. Qed.

(** *** Typed logs through JSON *)

Lemma jsonRoundTrip_jsonNumber (n : float) : jsonNumber n -> jsonRoundTrip (JNum n) = JNum n.
Proof. intros [Hf Hw]. rewrite jsonRoundTrip_finite, Hw by exact Hf. reflexivity. Qed.

Lemma jsonRoundTrip_optionalNumber (k : string) (o : option float) :
  (forall w, o = Some w -> jsonNumber w) ->
  omap roundTripProp (optionalNumber k o) = optionalNumber k o.
Proof.
  intros H. destruct o as [w|]; [|reflexivity]. unfold optionalNumber.
  rewrite roundTripProp_cons by discriminate.
  rewrite jsonRoundTrip_jsonNumber by (apply H; reflexivity). reflexivity.
Qed.

Lemma jsonRoundTrip_FoodItem (f : FoodItem) :
  jsonNumber (calories f) -> jsonRoundTrip (FoodItem_toJS f) = FoodItem_toJS f.
Proof.
  intros H. unfold FoodItem_toJS. rewrite jsonRoundTrip_obj.
  rewrite !roundTripProp_cons by discriminate.
  rewrite jsonRoundTrip_jsonNumber by exact H. reflexivity.
Qed.

Lemma jsonRoundTrip_DailyLog (l : DailyLog) :
  jsonLog l -> jsonRoundTrip (DailyLog_toJS l) = DailyLog_toJS l.
Proof.
  intros (Ht & Hf & Hw & Hi). unfold DailyLog_toJS. rewrite jsonRoundTrip_obj.
  cbn [app]. rewrite !roundTripProp_cons by discriminate.
  rewrite omap_app, !jsonRoundTrip_optionalNumber by assumption.
  rewrite jsonRoundTrip_jsonNumber by exact Ht.
  do 2 f_equal. f_equal. cbn [jsonRoundTrip]. do 2 f_equal.
  induction Hf as [| f fs Hc _ IH]; [reflexivity|].
  cbn [map]. rewrite IH. f_equal.
  change (jsonRoundTrip (FoodItem_toJS f) = FoodItem_toJS f).
  apply jsonRoundTrip_FoodItem, Hc.
Qed.

(** Typed logs whose numbers are finite and not [-0] are logs the export
    carries unchanged. *)
Lemma jsonRoundTrip_Logs (m : gmap string DailyLog) :
  map_Forall (fun _ l => jsonLog l) m ->
  jsonRoundTrip (Logs_toJS m) = Logs_toJS m /\ JS.truthy (Logs_toJS m) = true.
Proof.
  intros H. split; [|reflexivity]. unfold Logs_toJS. rewrite jsonRoundTrip_obj. f_equal.
  apply map_Forall_to_list in H.
  induction H as [| [d l] dls Hl _ IH]; [reflexivity|].
  cbn [map fst snd]. rewrite roundTripProp_cons by discriminate.
  rewrite IH, jsonRoundTrip_DailyLog by exact Hl. reflexivity.
Qed.

Lemma onload_shows_confirm (data : JSValue) (st : AppState) (n w : string) :
  hasUserAndLogs data = true ->
  ToString (or_else (getProp (getProp data "user") "name") (JStr "ไม่ระบุ")) = Ok n ->
  ToString (getProp (getProp data "user") "currentWeight") = Ok w ->
  exists msg, onload (Parsed data) st = showModal "ยืนยันการนำเข้า" msg confirm (Some data) st.
Proof.
  intros Hb Hn Hw.
  assert (Hnull : isNullish data = false) by (destruct data; try reflexivity; discriminate).
  cbn [onload]. rewrite (onloadBody_unfold data st Hnull), Hb, Hn, Hw. cbn. eauto.
Qed.

Lemma clickConfirm_installs (loadedAt isoNow : string) (data : JSValue) (st : AppState)
    (u : UserProfile) :
  onConfirm (modalConfig st) = Some data ->
  newUserState loadedAt isoNow (getProp data "user") = Ok u ->
  user (clickConfirm loadedAt isoNow st) = u
  /\ logs (clickConfirm loadedAt isoNow st) = getProp data "logs".
Proof.
  intros Hc Hu. unfold clickConfirm, importConfirmed. rewrite Hc, Hu. split; reflexivity.
Qed.

(** C8, amended. For every state whose profile has a non-empty string
    [name], finite numeric fields and a [manualTDEE] that is unset or finite
    and greater than 0, and whose other profile properties and logs are
    values JSON carries unchanged (finite numbers other than [-0], nothing
    [undefined]), exporting and importing the exported document with the
    confirmation accepted gives back the same profile (numbers equal as
    numbers) and the identical logs; [updatedAt] is the time of the
    import. *)
Theorem C8_export_then_import (loadedAt exportedAt importedAt : string) (st : AppState) :
  exportable st ->
  let st' := exportThenImport loadedAt exportedAt importedAt st in
  sameProfile (user st) (user st') /\ logs st' = logs st
  /\ updatedAt (user st') = importedAt.
Proof.
  intros (Hname & Ha & Hh & Hcw & Htw & Hal & Hm & (Hrest & Hnd & Hnc) & (Hlogs & Htruthy)).
  destruct Hname as (s & Hs & Hne).
  intros st'. subst st'. unfold exportThenImport.
  set (u := user st) in *.
  assert (Hdoc : jsonRoundTrip (handleExportData exportedAt st)
                 = JObj [("user", jsonRoundTrip (JObj (userProps u))); ("logs", logs st);
                         ("version", JStr "1.0"); ("exportedAt", JStr exportedAt)]).
  { unfold handleExportData. rewrite jsonRoundTrip_obj.
    rewrite !roundTripProp_cons by (try discriminate; apply truthy_not_undefined, Htruthy).
    rewrite Hlogs. reflexivity. }
  rewrite Hdoc. clear Hdoc.
  assert (Hrest' : omap roundTripProp (rest u) = rest u).
  { rewrite jsonRoundTrip_obj in Hrest. congruence. }
  set (manualE := match manualTDEE u with Some m => [("manualTDEE", JNum m)] | None => [] end).
  assert (Huser : jsonRoundTrip (JObj (userProps u))
      = JObj (("name", JStr s) :: ("gender", JStr (Gender_value (gender u)))
              :: ("age", JNum (written (age u))) :: ("height", JNum (written (height u)))
              :: ("currentWeight", JNum (written (currentWeight u)))
              :: ("targetWeight", JNum (written (targetWeight u)))
              :: ("activityLevel", JNum (written (activityLevel u)))
              :: ("goalType", JStr (GoalType_value (goalType u)))
              :: manualE ++ ("updatedAt", JStr (updatedAt u)) :: rest u)).
  { rewrite jsonRoundTrip_obj. unfold userProps. cbn [app]. rewrite Hs.
    rewrite !roundTripProp_cons by discriminate.
    rewrite omap_app, roundTripProp_cons, Hrest' by discriminate.
    rewrite !jsonRoundTrip_finite by assumption. cbn [jsonRoundTrip].
    do 8 f_equal. f_equal.
    subst manualE. destruct (manualTDEE u) as [m|]; [|reflexivity].
    destruct Hm as [Hpos Hfin].
    rewrite roundTripProp_cons by discriminate.
    rewrite jsonRoundTrip_finite, written_positive by assumption. reflexivity. }
  rewrite Huser. clear Huser.
  match goal with |- context [("user", JObj ?l)] => set (E := l) end.
  assert (Hmanual : assoc "manualTDEE" E
                    = match manualTDEE u with Some m => Some (JNum m) | None => None end).
  { subst E manualE. cbn [assoc String.eqb Ascii.eqb Bool.eqb].
    destruct (manualTDEE u); cbn [app assoc String.eqb Ascii.eqb Bool.eqb]; [reflexivity|].
    apply assoc_None_iff. intros Hin.
    rewrite List.Forall_forall in Hnc. apply list_elem_of_In in Hin.
    specialize (Hnc _ Hin). discriminate. }
  assert (Hfilter : List.filter noncore E = rest u).
  { subst E. rewrite !filter_cons_core by reflexivity.
    rewrite List.filter_app. subst manualE.
    destruct (manualTDEE u); cbn [app]; rewrite !filter_cons_core by reflexivity;
      cbn [List.filter app]; apply filter_noncore_id, Hnc. }
  assert (Hspread : List.filter (fun kv => negb (isCoreKey kv.1))
                      (objSpread (userProps (App.INITIAL_USER loadedAt)) E) = rest u).
  { change (fun kv : string * JSValue => negb (isCoreKey kv.1)) with noncore.
    rewrite filter_noncore_objSpread, Hfilter.
    change (List.filter noncore (userProps (App.INITIAL_USER loadedAt))) with (@nil (string * JSValue)).
    rewrite objSpread_fresh; [reflexivity | exact Hnd |]. intros k _. apply not_elem_of_nil. }
  assert (Hnew : exists u', newUserState loadedAt importedAt (JObj E) = Ok u'
                   /\ sameProfile u u' /\ updatedAt u' = importedAt).
  { unfold newUserState. cbn [getProp ownProps]. rewrite Hmanual, Hspread.
    subst E. read_props.
    rewrite !safeNum_number by (apply written_same; assumption).
    cbn [mbind result_bind ToString].
    assert (Hor : or_else (JStr s) (name (App.INITIAL_USER loadedAt)) = name u).
    { unfold or_else. cbn [JS.truthy]. rewrite (proj2 (String.eqb_neq s EmptyString) Hne). cbn [negb].
      symmetry. exact Hs. }
    rewrite Hor.
    assert (Hg : (if String.eqb (toLowerCase (Gender_value (gender u))) "female"
                  then FEMALE else MALE) = gender u) by (destruct (gender u); reflexivity).
    rewrite Hg.
    assert (Hgoal : default LOSE_WEIGHT
                      (List.find (fun v => String.eqb (GoalType_value v)
                                             (GoalType_value (goalType u))) GoalType_values)
                    = goalType u) by (destruct (goalType u); reflexivity).
    rewrite Hgoal.
    destruct (manualTDEE u) as [m|] eqn:Em; cbn [default from_option Datatypes.id ToNumber mbind result_bind].
    - destruct Hm as [Hpos _]. rewrite Hpos. eexists. split; [reflexivity|].
      unfold sameProfile, sameNumber.
      cbn [name gender goalType age height currentWeight targetWeight activityLevel
           manualTDEE rest updatedAt].
      repeat split; try (apply written_same; assumption). symmetry; exact Em.
    - change (PrimFloat.ltb 0 nan) with false. cbn iota. eexists. split; [reflexivity|].
      unfold sameProfile, sameNumber.
      cbn [name gender goalType age height currentWeight targetWeight activityLevel
           manualTDEE rest updatedAt].
      repeat split; try (apply written_same; assumption). symmetry; exact Em. }
  destruct Hnew as (u' & Hu' & Hsame & Hup).
  match goal with |- context [Parsed ?d] => set (data := d) end.
  destruct (onload_shows_confirm data st s (NumberToString (written (currentWeight u))))
    as [msg Hon].
  { unfold hasUserAndLogs. subst data. read_props. cbn [JS.truthy]. exact Htruthy. }
  { subst data E. read_props.
    unfold or_else. cbn [JS.truthy]. rewrite (proj2 (String.eqb_neq s EmptyString) Hne). reflexivity. }
  { subst data E. read_props. reflexivity. }
  rewrite Hon.
  destruct (clickConfirm_installs loadedAt importedAt data
              (showModal "ยืนยันการนำเข้า" msg confirm (Some data) st) u') as [Hu2 Hl2].
  { reflexivity. }
  { exact Hu'. }
  rewrite Hu2, Hl2. split; [exact Hsame|]. split; [reflexivity | exact Hup].
Qed.

Lemma C8_export_then_import_witness :
  let st' := exportThenImport "t0" "t1" "t2" sampleState in
  sameProfile (user sampleState) (user st') /\ logs st' = logs sampleState
  /\ updatedAt (user st') = "t2".
Proof.
  apply (C8_export_then_import "t0" "t1" "t2" sampleState).
  unfold exportable. cbn [user logs sampleState name age height currentWeight targetWeight
                          activityLevel manualTDEE rest].
  split; [exists "Ann"; split; [reflexivity | discriminate]|].
  do 5 (split; [reflexivity|]).
  split; [split; reflexivity|].
  split; [|split; vm_compute; reflexivity].
  split; [vm_compute; reflexivity|].
  split; [apply (bool_decide_unpack _); vm_compute; exact I | repeat constructor].
Defined.

End RoundTripClaims.

(* ===================================================================== *)
(** ** The further models at work *)
(* ===================================================================== *)
Section MoreEvaluations.

Example parseFloat_samples :
  map parseFloat ["70.5"; "  12kg"; EmptyString; "."; ".5"; "5."; "-.5e1"; "1e"; "1e+"; "1e+2x";
                  "Infinityx"; "-Infinity"; "-0"; "abc"; "0x10"; "1.5.3"; "1.e2"; "+7"; "--7";
                  "1e-400"; "0.0000001"]
  = [70.5; 12; nan; nan; 0.5; 5; (-5); 1; 1; 100;
     infinity; neg_infinity; (-0); nan; 0; 1.5; 100; 7; nan;
     0; 1e-7]%float.
Proof. vm_compute. reflexivity. Qed.

Example parseInt16_samples :
  map parseInt16 ["ff"; "0A"; "0x1f"; "g"; EmptyString; "-7f"; "7fz"]
  = [255; 10; 31; nan; nan; (-127); 127]%float.
Proof. vm_compute. reflexivity. Qed.

Example Math_min_max_samples :
  (Math_min 5 100, Math_min 150 100, Math_min nan 100, Math_min 0 (-0), Math_min (-0) 0,
   Math_min infinity 100, Math_min neg_infinity 100)%float
  = (5, 100, nan, (-0), (-0), 100, neg_infinity)%float
  /\ (Math_max 5 0, Math_max (-3) 0, Math_max nan 0, Math_max (-0) 0, Math_max 0 (-0))%float
     = (5, 0, nan, 0, 0)%float.
Proof. split; vm_compute; reflexivity. Qed.

Example hexToRgb_samples :
  map LiquidEffect.hexToRgb ["#000000"; "#ffffff"; "FFAA00"; "#fff"; "#12345g"; "##123456";
                             "#1234567"; EmptyString; "#22c55e"; "0x1234"; " #000000"]
  = ["0, 0, 0"; "255, 255, 255"; "255, 170, 0"; "0, 0, 0"; "0, 0, 0"; "0, 0, 0";
     "0, 0, 0"; "0, 0, 0"; "34, 197, 94"; "0, 0, 0"; "0, 0, 0"].
Proof. vm_compute. reflexivity. Qed.

Example calendar_samples :
  Calendar.days 3 5 = [None; None; None; Some 1; Some 2; Some 3; Some 4; Some 5]
  /\ Calendar.dateStr 2025 11 31 = "2025-12-31"
  /\ take 5 (Calendar.renderCalendar 2025 0 3 31 (run sampleSession ∅) "2025-01-02")
     = [Calendar.Blank; Calendar.Blank; Calendar.Blank;
        Calendar.DayButton 1 "2025-01-01" false true;
        Calendar.DayButton 2 "2025-01-02" true false].
Proof. repeat split; vm_compute; reflexivity. Qed.

(** The ring of the dashboard (180 by 14) at half the target. *)
Example progress_samples :
  (Progress.circumference 180 14, Progress.offset 50 180 14, Progress.clamp 120,
   Progress.clamp (-5))%float
  = (521.50438049590571, 260.75219024795285, 100, 0)%float.
Proof. vm_compute. reflexivity. Qed.

(** The weight field: a number greater than 0 is stored, anything else
    is ignored. *)
Example handleWeightUpdate_samples :
  let typed s := {| Handlers.user := exampleProfile; Handlers.logs := ∅;
                    Handlers.newWeight := s; Handlers.modalConfig := modalConfig idleState |} in
  map (fun s => currentWeight (Handlers.user (Handlers.handleWeightUpdate "2025-01-01"
                                                "2025-01-01T00:00:00.000Z" (typed s))))
      ["70.5"; "0"; "-3"; "abc"; EmptyString; "65kg"]
  = [70.5; 70; 70; 70; 70; 65]%float.
Proof. vm_compute. reflexivity. Qed.

End MoreEvaluations.

(* ===================================================================== *)
(** ** More on the food-log handlers *)
(* ===================================================================== *)
Section LogMutatorMore.

Lemma filter_filter_comm {A : Type} (p q : A -> bool) (l : list A) :
  List.filter p (List.filter q l) = List.filter q (List.filter p l).
Proof.
  induction l as [| x l IH]; [reflexivity|]. cbn.
  destruct (p x) eqn:Hp, (q x) eqn:Hq; cbn; rewrite ?Hp, ?Hq, ?IH; reflexivity.
Qed.

Lemma filter_idem {A : Type} (p : A -> bool) (l : list A) :
  List.filter p (List.filter p l) = List.filter p l.
Proof.
  induction l as [| x l IH]; [reflexivity|]. cbn.
  destruct (p x) eqn:Hp; cbn; rewrite ?Hp, IH; reflexivity.
Qed.

Lemma filter_all {A : Type} (p : A -> bool) (l : list A) :
  Forall (fun x => p x = true) l -> List.filter p l = l.
Proof.
  induction 1 as [| x l Hx _ IH]; [reflexivity|]. cbn. rewrite Hx, IH. reflexivity.
Qed.

(** A day's log after a deletion. *)
Lemma handleDeleteFood_lookup (today foodId d : string) (prev : gmap string DailyLog) :
  handleDeleteFood today foodId prev !! d
  = if decide (today = d) then without foodId <$> (prev !! d) else prev !! d.
Proof.
  unfold handleDeleteFood. destruct (decide (today = d)) as [<- | Hne].
  - destruct (prev !! today) as [l |] eqn:E.
    + rewrite lookup_insert_eq. reflexivity.
    + rewrite E. reflexivity.
  - destruct (prev !! today) as [l |] eqn:E; [|reflexivity].
    rewrite lookup_insert_ne by exact Hne. reflexivity.
Qed.

Lemma handleAddFood_lookup_ne today foodInput calInput idNow isoNow d
    (prev : gmap string DailyLog) :
  today <> d -> handleAddFood today foodInput calInput idNow isoNow prev !! d = prev !! d.
Proof.
  intros Hne. unfold handleAddFood.
  destruct (negb _); [reflexivity|]. rewrite lookup_insert_ne by exact Hne. reflexivity.
Qed.

Lemma without_without_comm (a b : string) (l : DailyLog) :
  without a (without b l) = without b (without a l).
Proof. unfold without. cbn. rewrite filter_filter_comm. reflexivity. Qed.

Lemma without_idem (a : string) (l : DailyLog) : without a (without a l) = without a l.
Proof. unfold without. cbn. rewrite filter_idem. reflexivity. Qed.

(** X1. An action on one day leaves every other day's log as it was:
    through any session, a date that none of the actions is about keeps
    its log (or stays without one). *)
Theorem X1_other_days_untouched (acts : list Action) (logs : gmap string DailyLog)
    (d : string) :
  Forall (fun a => actionDate a <> d) acts -> run acts logs !! d = logs !! d.
Proof.
  intros H. revert logs. induction H as [| a acts Ha _ IH]; intros logs; [reflexivity|].
  cbn [run fold_left]. fold (run acts (step logs a)). rewrite IH.
  destruct a as [today foodInput calInput idNow isoNow | today foodId]; cbn in Ha |- *.
  - apply handleAddFood_lookup_ne. exact Ha.
  - rewrite handleDeleteFood_lookup. destruct (decide (today = d)); [contradiction | reflexivity].
Qed.

Lemma X1_other_days_untouched_witness :
  run sampleSession {[ "2024-12-31" := emptyLog "2024-12-31" ]} !! "2024-12-31"
  = Some (emptyLog "2024-12-31").
Proof.
  rewrite (X1_other_days_untouched sampleSession _ "2024-12-31").
  - apply lookup_singleton_eq.
  - repeat constructor; cbn; discriminate.
Defined.

Lemma run_keeps_days (acts : list Action) (logs : gmap string DailyLog) (d : string) :
  is_Some (logs !! d) -> is_Some (run acts logs !! d).
Proof.
  revert logs. induction acts as [| a acts IH]; intros logs H; [exact H|].
  cbn [run fold_left]. fold (run acts (step logs a)). apply IH.
  destruct H as [l Hl].
  destruct a as [today foodInput calInput idNow isoNow | today foodId]; cbn [step].
  - unfold handleAddFood. destruct (negb _); [eauto|].
    destruct (decide (today = d)) as [<- | Hne].
    + rewrite lookup_insert_eq. eauto.
    + rewrite lookup_insert_ne by exact Hne. eauto.
  - rewrite handleDeleteFood_lookup, Hl. destruct (decide (today = d)); cbn; eauto.
Qed.

Lemma delete_all_lookup (today foodId : string) (logs : gmap string DailyLog) (l : DailyLog) :
  logs !! today = Some l -> Forall (fun f => id f = foodId) (foods l) ->
  exists l', handleDeleteFood today foodId logs !! today = Some l'
    /\ foods l' = [] /\ totalCalories l' = 0%float.
Proof.
  intros Hl Hall. rewrite handleDeleteFood_lookup, Hl.
  destruct (decide (today = today)); [|congruence]. cbn.
  eexists. split; [reflexivity|].
  assert (E : List.filter (fun f => negb (String.eqb (id f) foodId)) (foods l) = []).
  { induction Hall as [| f fs Hf _ IH]; [reflexivity|].
    cbn. rewrite Hf, String.eqb_refl. exact IH. }
  cbn. rewrite E. split; reflexivity.
Qed.


(** X3. Saving a food and deleting it again: the day's entries are the
    earlier ones less those that share the new entry's id, and the total
    is their sum. When the day had a log whose total was the sum of its
    entries and the id is new, the logs are exactly what they were. *)
Theorem X3_add_then_delete (today foodInput calInput idNow isoNow : string)
    (prev : gmap string DailyLog) :
  foodInput <> EmptyString ->
  let after := handleDeleteFood today idNow
                 (handleAddFood today foodInput calInput idNow isoNow prev) in
  after !! today = Some (without idNow (currentLog today prev))
  /\ (forall l, prev !! today = Some l -> consistent l ->
        Forall (fun f => id f <> idNow) (foods l) -> after = prev).
Proof.
  intros Hname after.
  assert (Hadd : handleAddFood today foodInput calInput idNow isoNow prev
                 = <[today := {| date := date (currentLog today prev);
                                 foods := foods (currentLog today prev)
                                          ++ [{| id := idNow; food_name := foodInput;
                                                 calories := parseInt calInput;
                                                 timestamp := isoNow |}];
                                 totalCalories := (totalCalories (currentLog today prev)
                                                   + parseInt calInput)%float;
                                 weightRecorded := weightRecorded (currentLog today prev);
                                 waterIntake := waterIntake (currentLog today prev) |}]> prev).
  { unfold handleAddFood. destruct foodInput; [congruence | reflexivity]. }
  assert (Hafter : after !! today = Some (without idNow (currentLog today prev))).
  { unfold after. rewrite handleDeleteFood_lookup, Hadd.
    destruct (decide (today = today)); [|congruence].
    rewrite lookup_insert_eq. cbn [fmap option_fmap option_map]. f_equal.
    unfold without. cbn [foods date weightRecorded waterIntake].
    rewrite List.filter_app. cbn [List.filter id]. rewrite String.eqb_refl. cbn [negb].
    rewrite app_nil_r. reflexivity. }
  split; [exact Hafter|].
  intros l Hl Hc Hfresh. apply map_eq. intros d.
  destruct (decide (today = d)) as [<- | Hne].
  - rewrite Hafter, Hl. f_equal. unfold currentLog. rewrite Hl. cbn [default from_option Datatypes.id].
    unfold without. rewrite filter_all.
    + unfold consistent in Hc. rewrite <- Hc. destruct l; reflexivity.
    + eapply Forall_impl; [exact Hfresh|]. intros f Hf. cbn in Hf.
      destruct (String.eqb_spec (id f) idNow); [contradiction | reflexivity].
  - unfold after. rewrite handleDeleteFood_lookup.
    destruct (decide (today = d)); [contradiction|].
    apply handleAddFood_lookup_ne. exact Hne.
Qed.

Lemma X3_add_then_delete_witness :
  handleDeleteFood "2025-01-01" "1735689609000"
    (handleAddFood "2025-01-01" "tea" ".5" "1735689609000" "2025-01-01T00:00:09.000Z" sampleLogs)
  = sampleLogs.
Proof.
  pose proof (X3_add_then_delete "2025-01-01" "tea" ".5" "1735689609000"
                "2025-01-01T00:00:09.000Z" sampleLogs) as H.
  cbv zeta in H. destruct H as [_ H]; [discriminate|].
  eapply H.
  - vm_compute. reflexivity.
  - vm_compute. reflexivity.
  - repeat constructor; cbn; discriminate.
Defined.

(** X4. Deleting is idempotent, and two deletions commute, on the same day
    or on different days. *)
Theorem X4_deletions_commute (t1 t2 a b : string) (prev : gmap string DailyLog) :
  handleDeleteFood t1 a (handleDeleteFood t1 a prev) = handleDeleteFood t1 a prev
  /\ handleDeleteFood t1 a (handleDeleteFood t2 b prev)
     = handleDeleteFood t2 b (handleDeleteFood t1 a prev).
Proof.
  split; apply map_eq; intros d; rewrite !handleDeleteFood_lookup.
  - destruct (decide (t1 = d)); [|reflexivity].
    destruct (prev !! d); cbn; [rewrite without_idem|]; reflexivity.
  - destruct (decide (t1 = d)), (decide (t2 = d)); try reflexivity.
    destruct (prev !! d); cbn; [rewrite without_without_comm|]; reflexivity.
Qed.

End LogMutatorMore.

(* ===================================================================== *)
(** ** Not-a-number through the arithmetic *)
(* ===================================================================== *)
Section NaNFacts.

Lemma add_NaN (x y : float) : isNaN x || isNaN y = true -> isNaN (x + y) = true.
Proof.
  intros H. apply isNaN_Prim2SF. rewrite FloatAxioms.add_spec.
  apply orb_true_iff in H as [H | H]; apply isNaN_Prim2SF in H; rewrite H.
  - reflexivity.
  - destruct (Prim2SF x) as [[] | [] | | [] m e]; reflexivity.
Qed.

Lemma sub_NaN (x y : float) : isNaN x || isNaN y = true -> isNaN (x - y) = true.
Proof.
  intros H. apply isNaN_Prim2SF. rewrite FloatAxioms.sub_spec.
  apply orb_true_iff in H as [H | H]; apply isNaN_Prim2SF in H; rewrite H.
  - reflexivity.
  - destruct (Prim2SF x) as [[] | [] | | [] m e]; reflexivity.
Qed.

Lemma mul_NaN (x y : float) : isNaN x || isNaN y = true -> isNaN (x * y) = true.
Proof.
  intros H. apply isNaN_Prim2SF. rewrite FloatAxioms.mul_spec.
  apply orb_true_iff in H as [H | H]; apply isNaN_Prim2SF in H; rewrite H.
  - reflexivity.
  - destruct (Prim2SF x) as [[] | [] | | [] m e]; reflexivity.
Qed.

Lemma Math_round_NaN (x : float) : isNaN x = true -> isNaN (Math_round x) = true.
Proof.
  intros H. unfold Math_round. apply isNaN_Prim2SF in H as E. rewrite E. exact H.
Qed.

End NaNFacts.

(* ===================================================================== *)
(** ** The settings tab and the weight update *)
(* ===================================================================== *)
Section HandlersFacts.

(** X5. [handleAddFood] does not validate the calories: with a text
    [parseInt] makes nothing of (an empty or blank one, for instance) the
    day's total becomes [NaN], and a total that is [NaN] stays [NaN]
    through every further save. *)
Theorem X5_NaN_calories_poison_the_total (today foodInput calInput idNow isoNow : string)
    (prev : gmap string DailyLog) :
  foodInput <> EmptyString ->
  isNaN (parseInt calInput) || isNaN (totalCalories (currentLog today prev)) = true ->
  isNaN (totalCalories
           (currentLog today (handleAddFood today foodInput calInput idNow isoNow prev))) = true
  /\ (forall s, trimStart (codes s) = [] -> isNaN (parseInt s) = true).
Proof.
  intros Hname H. split.
  - unfold handleAddFood. destruct foodInput; [congruence|]. cbn [JS.truthy negb String.eqb].
    unfold currentLog at 1. rewrite lookup_insert_eq. cbn [default from_option Datatypes.id totalCalories].
    apply add_NaN. rewrite orb_comm. exact H.
  - intros s Hs. unfold parseInt. rewrite Hs. reflexivity.
Qed.

Lemma X5_NaN_calories_poison_the_total_witness :
  isNaN (totalCalories
           (currentLog "2025-01-01"
              (handleAddFood "2025-01-01" "tea" EmptyString "1735689609000"
                 "2025-01-01T00:00:09.000Z" sampleLogs))) = true.
Proof.
  apply (X5_NaN_calories_poison_the_total "2025-01-01" "tea" EmptyString "1735689609000"
           "2025-01-01T00:00:09.000Z" sampleLogs).
  - discriminate.
  - reflexivity.
Defined.

(** X6. Without a manual target, [calculateTDEE] hides no [NaN]: if the
    weight, the height, the age or the activity level is [NaN], so is the
    daily target. The settings tab stores [parseInt(value)] unchecked, so
    clearing the height or the age field makes the target [NaN]. *)
Theorem X6_NaN_input_gives_NaN_target (u : UserProfile) :
  App.manualOverride u = None ->
  (isNaN (currentWeight u) || isNaN (height u) || isNaN (age u)
   || isNaN (activityLevel u) = true ->
   isNaN (App.calculateTDEE u) = true /\ isNaN (Legacy.calculateTDEE u) = true)
  /\ (forall isoNow value, isNaN (parseInt value) = true ->
      isNaN (App.calculateTDEE (Handlers.onSettings isoNow (Handlers.HeightInput value) u)) = true
      /\ isNaN (App.calculateTDEE (Handlers.onSettings isoNow (Handlers.AgeInput value) u)) = true).
Proof.
  intros Hm.
  assert (G : forall v : UserProfile, App.manualOverride v = None ->
            isNaN (currentWeight v) || isNaN (height v) || isNaN (age v)
            || isNaN (activityLevel v) = true ->
            isNaN (App.calculateTDEE v) = true /\ isNaN (Legacy.calculateTDEE v) = true).
  { intros v Hv H. unfold App.calculateTDEE, Legacy.calculateTDEE. rewrite Hv.
    assert (B : forall c : float,
              isNaN ((10 * currentWeight v + 6.25 * height v - 5 * age v + c)
                     * activityLevel v) = true).
    { intros c. apply mul_NaN.
      destruct (isNaN (activityLevel v)); [apply orb_true_r|]. rewrite orb_false_r in H |- *.
      apply add_NaN. apply orb_true_iff. left. apply sub_NaN.
      destruct (isNaN (age v)) eqn:Ha.
      - apply orb_true_iff. right. apply mul_NaN. rewrite Ha. apply orb_true_r.
      - rewrite orb_false_r in H. apply orb_true_iff. left. apply add_NaN.
        apply orb_true_iff in H as [H | H]; apply orb_true_iff; [left | right];
          apply mul_NaN; rewrite H; apply orb_true_r. }
    assert (B' : forall c : float,
              isNaN ((10 * currentWeight v + 6.25 * height v - 5 * age v - c)
                     * activityLevel v) = true).
    { intros c. apply mul_NaN.
      destruct (isNaN (activityLevel v)); [apply orb_true_r|]. rewrite orb_false_r in H |- *.
      apply sub_NaN. apply orb_true_iff. left. apply sub_NaN.
      destruct (isNaN (age v)) eqn:Ha.
      - apply orb_true_iff. right. apply mul_NaN. rewrite Ha. apply orb_true_r.
      - rewrite orb_false_r in H. apply orb_true_iff. left. apply add_NaN.
        apply orb_true_iff in H as [H | H]; apply orb_true_iff; [left | right];
          apply mul_NaN; rewrite H; apply orb_true_r. }
    destruct (gender v), (goalType v); split; apply Math_round_NaN;
      first [apply B | apply B'
            | apply sub_NaN; rewrite ?B, ?B'; reflexivity
            | apply add_NaN; rewrite ?B, ?B'; reflexivity]. }
  split; [apply G; exact Hm|].
  intros isoNow value Hv. split; apply G; try exact Hm; cbn; rewrite Hv;
    rewrite ?orb_true_r; reflexivity.
Qed.

Lemma X6_NaN_input_gives_NaN_target_witness :
  isNaN (App.calculateTDEE clearedHeightProfile) = true.
Proof.
  apply (X6_NaN_input_gives_NaN_target exampleProfile); reflexivity.
Defined.

(** X7. [calculateTDEE] reads the gender, the age, the height, the
    current weight, the activity level, the goal and [manualTDEE], and
    nothing else: two profiles that agree on these have the same daily
    target. Changing the name or the target weight in the settings never
    changes it. *)
Theorem X7_target_ignores_name_and_target_weight (u v : UserProfile) :
  sameMetricsInputs u v ->
  (App.calculateTDEE u = App.calculateTDEE v /\ Legacy.calculateTDEE u = Legacy.calculateTDEE v)
  /\ (forall isoNow value,
      App.calculateTDEE (Handlers.onSettings isoNow (Handlers.NameInput value) u)
      = App.calculateTDEE v
      /\ App.calculateTDEE (Handlers.onSettings isoNow (Handlers.TargetWeightInput value) u)
         = App.calculateTDEE v).
Proof.
  intros (Hg & Ha & Hh & Hw & Hl & Ht & Hm).
  assert (G : forall a b : UserProfile, sameMetricsInputs a b ->
            App.calculateTDEE a = App.calculateTDEE b
            /\ Legacy.calculateTDEE a = Legacy.calculateTDEE b).
  { intros a b (Eg & Ea & Eh & Ew & El & Et & Em).
    unfold App.calculateTDEE, Legacy.calculateTDEE, App.manualOverride.
    rewrite Eg, Ea, Eh, Ew, El, Et, Em. split; reflexivity. }
  split; [apply G; repeat split; assumption|].
  intros isoNow value. split; apply G; repeat split; assumption.
Qed.

Lemma X7_target_ignores_name_and_target_weight_witness :
  App.calculateTDEE
    (Handlers.onSettings "2025-01-02T00:00:00.000Z" (Handlers.TargetWeightInput "40") exampleProfile)
  = App.calculateTDEE exampleProfile.
Proof.
  apply (X7_target_ignores_name_and_target_weight exampleProfile exampleProfile).
  repeat split.
Defined.

(** X8. The manual-target field of the settings: after typing [value] the
    daily target is [parseInt(value)] when that is greater than 0, and the
    automatic target (the number the field shows as its placeholder)
    otherwise: for an empty text, a text that is not a number, zero or a
    negative number. The reset button gives the automatic target too. *)
Theorem X8_manual_target_field (isoNow value : string) (u : UserProfile) :
  App.calculateTDEE (Handlers.onSettings isoNow (Handlers.ManualTDEEInput value) u)
  = (if PrimFloat.ltb 0 (parseInt value) then parseInt value else Handlers.suggestedTDEE u)
  /\ App.calculateTDEE (Handlers.onSettings isoNow Handlers.ManualTDEEReset u)
     = Handlers.suggestedTDEE u.
Proof.
  split; [|reflexivity].
  unfold Handlers.suggestedTDEE, App.calculateTDEE, App.manualOverride.
  cbn [Handlers.onSettings Handlers.settingsUpdate Handlers.handleUpdateProfile fold_left
       Handlers.assign manualTDEE gender currentWeight height age activityLevel goalType].
  destruct value as [| c value]; [reflexivity|].
  cbn [JS.truthy String.eqb negb].
  destruct (PrimFloat.ltb 0 (parseInt (String c value))) eqn:E.
  - rewrite (ltb_zero_truthy _ E). reflexivity.
  - rewrite andb_false_r. reflexivity.
Qed.

(** X9. [handleWeightUpdate] acts exactly when [parseFloat(newWeight)] is
    greater than 0 (the [isNaN] test adds nothing to that): on an empty
    text, a text that is not a number, zero or a negative number the state
    is returned as it is. When it acts it stores the one number in the
    profile and in today's log, clears the field and puts up the success
    modal; the day's entries and total, the other days and the other
    profile fields stay as they were. *)
Theorem X9_handleWeightUpdate (today isoNow : string) (st : Handlers.State) :
  let w := parseFloat (Handlers.newWeight st) in
  let st' := Handlers.handleWeightUpdate today isoNow st in
  (PrimFloat.ltb 0 w = false -> st' = st)
  /\ (PrimFloat.ltb 0 w = true ->
      (isNaN w = false /\ currentWeight (Handlers.user st') = w
       /\ weightRecorded (currentLog today (Handlers.logs st')) = Some w)
      /\ (Handlers.logs st' !! today
          = Some {| date := date (currentLog today (Handlers.logs st));
                    foods := foods (currentLog today (Handlers.logs st));
                    totalCalories := totalCalories (currentLog today (Handlers.logs st));
                    weightRecorded := Some w;
                    waterIntake := waterIntake (currentLog today (Handlers.logs st)) |}
          /\ forall d, d <> today -> Handlers.logs st' !! d = Handlers.logs st !! d)
      /\ (Handlers.user st'
          = Handlers.handleUpdateProfile isoNow [Handlers.P_currentWeight w] (Handlers.user st)
          /\ sameMetricsInputs (Handlers.assign (Handlers.user st) (Handlers.P_currentWeight w))
               (Handlers.user st')
          /\ name (Handlers.user st') = name (Handlers.user st)
          /\ targetWeight (Handlers.user st') = targetWeight (Handlers.user st)
          /\ rest (Handlers.user st') = rest (Handlers.user st)
          /\ updatedAt (Handlers.user st') = isoNow)
      /\ Handlers.newWeight st' = EmptyString
      /\ isOpen (Handlers.modalConfig st') = true
      /\ type (Handlers.modalConfig st') = success).
Proof.
  intros w st'. unfold st', Handlers.handleWeightUpdate. fold w. split.
  - intros ->. rewrite andb_false_r. reflexivity.
  - intros Hw. assert (Hn : isNaN w = false).
    { apply ltb_zero_truthy in Hw. unfold Num.truthy in Hw.
      apply negb_true_iff, orb_false_iff in Hw as [_ Hw]. exact Hw. }
    rewrite Hn, Hw. cbn [negb andb Handlers.user Handlers.logs Handlers.newWeight
                         Handlers.modalConfig isOpen type].
    split; [split; [reflexivity|]; split; [reflexivity|]|].
    { unfold currentLog at 1. rewrite lookup_insert_eq. reflexivity. }
    split; [split; [apply lookup_insert_eq|]|].
    { intros d Hd. apply lookup_insert_ne. congruence. }
    split; [|repeat split]. repeat split.
Qed.

Lemma X9_handleWeightUpdate_witness :
  currentWeight (Handlers.user (Handlers.handleWeightUpdate "2025-01-01"
                                  "2025-01-02T00:00:00.000Z" weightTypedState)) = 70.5%float
  /\ weightRecorded (currentLog "2025-01-01"
                       (Handlers.logs (Handlers.handleWeightUpdate "2025-01-01"
                                         "2025-01-02T00:00:00.000Z" weightTypedState)))
     = Some 70.5%float.
Proof.
  pose proof (X9_handleWeightUpdate "2025-01-01" "2025-01-02T00:00:00.000Z" weightTypedState) as H.
  cbv zeta in H. destruct H as [_ H].
  destruct H as [(_ & Hu & Hl) _]; [vm_compute; reflexivity|].
  split; [rewrite Hu | rewrite Hl; f_equal]; vm_compute; reflexivity.
Defined.

(** X10. The weight update keeps the aggregate invariant of the logs:
    if every day's total is the sum of its entries before, it is after;
    so the invariant holds along any mix of saves, deletions and weight
    updates. *)
Theorem X10_weight_update_keeps_totals (today isoNow : string) (st : Handlers.State) :
  map_Forall (fun _ l => consistent l) (Handlers.logs st) ->
  map_Forall (fun _ l => consistent l)
    (Handlers.logs (Handlers.handleWeightUpdate today isoNow st))
  /\ forall acts,
       map_Forall (fun _ l => consistent l)
         (run acts (Handlers.logs (Handlers.handleWeightUpdate today isoNow st))).
Proof.
  intros H.
  assert (G : map_Forall (fun _ l => consistent l)
                (Handlers.logs (Handlers.handleWeightUpdate today isoNow st))).
  { unfold Handlers.handleWeightUpdate. destruct (_ && _); [|exact H].
    cbn [Handlers.logs]. apply map_Forall_insert_2; [|exact H].
    unfold consistent. cbn [totalCalories foods].
    destruct (Handlers.logs st !! today) as [l |] eqn:E; cbn [default from_option Datatypes.id].
    - apply (H today l E).
    - reflexivity. }
  split; [exact G|]. intros acts. apply run_consistent. exact G.
Qed.

Lemma X10_weight_update_keeps_totals_witness :
  map_Forall (fun _ l => consistent l)
    (Handlers.logs (Handlers.handleWeightUpdate "2025-01-01" "2025-01-02T00:00:00.000Z"
                      weightTypedState)).
Proof.
  apply (X10_weight_update_keeps_totals "2025-01-01" "2025-01-02T00:00:00.000Z" weightTypedState).
  apply run_consistent. apply map_Forall_empty.
Defined.

End HandlersFacts.

(* ===================================================================== *)
(** ** The dashboard *)
(* ===================================================================== *)
Section DashboardFacts.

Lemma Math_min_100 (x : float) :
  Math_min x 100 = if isNaN x then nan else if PrimFloat.ltb 100 x then 100%float else x.
Proof.
  unfold Math_min. change (isNaN 100) with false. rewrite orb_false_r.
  destruct (isNaN x); [reflexivity|].
  change (Prim2SF 100) with (S754_finite false 7036874417766400 (-46)).
  reflexivity.
Qed.

(** X11. The progress shown on the dashboard is never greater than 100,
    whatever the profile and the day's log (it is [NaN] when the quotient
    is); clamping it a second time for the width of the status bar changes
    nothing. *)
Theorem X11_progress_never_exceeds_100 (u : UserProfile) (log : DailyLog) :
  PrimFloat.ltb 100 (Dashboard.progressPercent u log) = false
  /\ Dashboard.barWidth u log = Dashboard.progressPercent u log.
Proof.
  assert (G : forall x, PrimFloat.ltb 100 (Math_min x 100) = false).
  { intros x. rewrite Math_min_100. destruct (isNaN x); [reflexivity|].
    destruct (PrimFloat.ltb 100 x) eqn:E; [reflexivity | exact E]. }
  split; [apply G|].
  unfold Dashboard.barWidth. set (p := Dashboard.progressPercent u log).
  rewrite Math_min_100. destruct (isNaN p) eqn:En.
  - symmetry. apply isNaN_Prim2SF in En.
    rewrite <- (SF2Prim_Prim2SF p), En. reflexivity.
  - unfold p, Dashboard.progressPercent. rewrite G. reflexivity.
Qed.

End DashboardFacts.

(* ===================================================================== *)
(** ** More on the import *)
(* ===================================================================== *)
Section ImportMore.

Lemma safeNum_not_NaN (v : JSValue) (d r : float) :
  safeNum v d = Ok r -> isNaN d = false -> isNaN r = false.
Proof.
  intros H Hd. apply safeNum_inv in H as (n & _ & ->).
  destruct (PrimFloat.eqb n 0) eqn:E0; cbn [orb].
  - apply eqb_zero_not_NaN. exact E0.
  - destruct (isNaN n) eqn:En; [exact Hd | exact En].
Qed.

Lemma safeNum_undefined (d : float) : safeNum JUndefined d = Ok d.
Proof. reflexivity. Qed.

(** X12. Whatever the document holds, a profile the import builds has a
    truthy name, no [NaN] among its weight, target weight, height, age and
    activity level, and a [manualTDEE] that is unset or greater than 0 (so
    that it is the daily target exactly when it is set); [updatedAt] is
    the time of the import. *)
Theorem X12_imported_profile_invariants (loadedAt isoNow : string) (importedUser : JSValue)
    (u : UserProfile) :
  newUserState loadedAt isoNow importedUser = Ok u ->
  JS.truthy (name u) = true
  /\ (isNaN (currentWeight u) = false /\ isNaN (targetWeight u) = false
      /\ isNaN (height u) = false /\ isNaN (age u) = false
      /\ isNaN (activityLevel u) = false)
  /\ match manualTDEE u with Some m => PrimFloat.ltb 0 m = true | None => True end
  /\ App.manualOverride u = manualTDEE u
  /\ (forall m, manualTDEE u = Some m -> App.calculateTDEE u = m)
  /\ updatedAt u = isoNow.
Proof.
  intros H. apply newUserState_inv in H.
  destruct H as (Hcw & Htw & Hh & Ha & Hal & (tdee & _ & Hm) & _ & _ & Hn & Hup & _).
  split.
  { rewrite Hn. unfold or_else. destruct (JS.truthy (getProp importedUser "name")) eqn:E;
      [exact E | reflexivity]. }
  split.
  { repeat split; eapply safeNum_not_NaN; eauto. }
  assert (Hpos : match manualTDEE u with Some m => PrimFloat.ltb 0 m = true | None => True end).
  { rewrite Hm. destruct (PrimFloat.ltb 0 tdee) eqn:E; [exact E | exact I]. }
  assert (Ho : App.manualOverride u = manualTDEE u).
  { unfold App.manualOverride. destruct (manualTDEE u) as [m|]; [|reflexivity].
    rewrite Hpos, (ltb_zero_truthy m Hpos). reflexivity. }
  split; [exact Hpos|]. split; [exact Ho|]. split; [|exact Hup].
  intros m Em. unfold App.calculateTDEE. rewrite Ho, Em. reflexivity.
Qed.

Lemma X12_imported_profile_invariants_witness :
  exists u, newUserState "t0" "t1" sampleImportedUser = Ok u
    /\ JS.truthy (name u) = true /\ isNaN (currentWeight u) = false
    /\ App.manualOverride u = manualTDEE u.
Proof.
  assert (E : exists u, newUserState "t0" "t1" sampleImportedUser = Ok u)
    by (eexists; vm_compute; reflexivity).
  destruct E as [u E]. exists u. split; [exact E|].
  destruct (X12_imported_profile_invariants "t0" "t1" sampleImportedUser u E)
    as (Hn & (Hw & _) & _ & Ho & _).
  repeat split; assumption.
Defined.

(** X13. The import builds the profile from [INITIAL_USER] and the
    document alone. A property the document's [user] lacks takes the
    default: Guest, 70 kg, 65 kg, 170 cm, 25 years, 1.2, male, lose, no
    manual target. A numeric property that is [null] is not missing: it is
    read as 0. *)
Theorem X13_missing_fields_take_defaults (loadedAt isoNow : string) (importedUser : JSValue)
    (u : UserProfile) :
  newUserState loadedAt isoNow importedUser = Ok u ->
  (getProp importedUser "name" = JUndefined -> name u = JStr "Guest")
  /\ (getProp importedUser "currentWeight" = JUndefined -> currentWeight u = 70%float)
  /\ (getProp importedUser "targetWeight" = JUndefined -> targetWeight u = 65%float)
  /\ (getProp importedUser "height" = JUndefined -> height u = 170%float)
  /\ (getProp importedUser "age" = JUndefined -> age u = 25%float)
  /\ (getProp importedUser "activityLevel" = JUndefined -> activityLevel u = 1.2%float)
  /\ (getProp importedUser "gender" = JUndefined -> gender u = MALE)
  /\ (getProp importedUser "goalType" = JUndefined -> goalType u = LOSE_WEIGHT)
  /\ (getProp importedUser "manualTDEE" = JUndefined -> manualTDEE u = None)
  /\ (getProp importedUser "currentWeight" = JNull -> currentWeight u = 0%float)
  /\ (getProp importedUser "height" = JNull -> height u = 0%float)
  /\ (getProp importedUser "age" = JNull -> age u = 0%float).
Proof.
  intros H. apply newUserState_inv in H.
  destruct H as (Hcw & Htw & Hh & Ha & Hal & (tdee & Ht & Hm) & (gs & Hgs & Hg)
                 & (goal & Hgoal & Hgt) & Hn & _ & _).
  assert (U : forall d r : float, safeNum JUndefined d = Ok r -> r = d)
    by (intros d r [= <-]; reflexivity).
  assert (N : forall d r : float, safeNum JNull d = Ok r -> r = 0%float)
    by (intros d r [= <-]; reflexivity).
  split; [intros E; rewrite E in Hn; exact Hn|].
  split; [intros E; rewrite E in Hcw; apply (U _ _ Hcw)|].
  split; [intros E; rewrite E in Htw; apply (U _ _ Htw)|].
  split; [intros E; rewrite E in Hh; apply (U _ _ Hh)|].
  split; [intros E; rewrite E in Ha; apply (U _ _ Ha)|].
  split; [intros E; rewrite E in Hal; apply (U _ _ Hal)|].
  split; [intros E; rewrite E in Hgs; injection Hgs as <-; exact Hg|].
  split; [intros E; rewrite E in Hgoal; injection Hgoal as <-; exact Hgt|].
  split; [intros E; rewrite E in Ht; injection Ht as <-; exact Hm|].
  split; [intros E; rewrite E in Hcw; apply (N _ _ Hcw)|].
  split; [intros E; rewrite E in Hh; apply (N _ _ Hh)|].
  intros E; rewrite E in Ha; apply (N _ _ Ha).
Qed.

Lemma X13_missing_fields_take_defaults_witness :
  exists u, newUserState "t0" "t1" (JObj [("age", JNull)]) = Ok u
    /\ height u = 170%float /\ age u = 0%float.
Proof.
  assert (E : exists u, newUserState "t0" "t1" (JObj [("age", JNull)]) = Ok u)
    by (eexists; vm_compute; reflexivity).
  destruct E as [u E]. exists u. split; [exact E|].
  destruct (X13_missing_fields_take_defaults "t0" "t1" _ u E)
    as (_ & _ & _ & Hh & _ & _ & _ & _ & _ & _ & _ & Ha).
  split; [apply Hh | apply Ha]; reflexivity.
Defined.

(** X14. The import reads the gender without regard to case and the goal
    with it: the profile is female exactly when [String(gender)]
    lower-cased is "female", it has the goal gain (maintain) exactly when
    [String(goalType)] is "gain" ("maintain") letter for letter, and the
    goal lose in every other case. *)
Theorem X14_gender_and_goal_normalization (loadedAt isoNow : string) (importedUser : JSValue)
    (u : UserProfile) :
  newUserState loadedAt isoNow importedUser = Ok u ->
  exists gs goal,
    ToString (getProp importedUser "gender") = Ok gs
    /\ ToString (getProp importedUser "goalType") = Ok goal
    /\ (gender u = FEMALE <-> toLowerCase gs = "female")
    /\ (goalType u = GAIN_WEIGHT <-> goal = "gain")
    /\ (goalType u = MAINTAIN <-> goal = "maintain")
    /\ (goalType u = LOSE_WEIGHT <-> goal <> "gain" /\ goal <> "maintain").
Proof.
  intros H. apply newUserState_inv in H.
  destruct H as (_ & _ & _ & _ & _ & _ & (gs & Hgs & Hg) & (goal & Hgoal & Hgt) & _).
  exists gs, goal. split; [exact Hgs|]. split; [exact Hgoal|]. split.
  { rewrite Hg. destruct (String.eqb_spec (toLowerCase gs) "female"); split; congruence. }
  rewrite Hgt. cbn [GoalType_values List.find GoalType_value].
  destruct (String.eqb_spec "lose" goal) as [<- | Hl].
  { cbn. repeat split; try discriminate; intros; congruence. }
  destruct (String.eqb_spec "maintain" goal) as [<- | Hm].
  { cbn. repeat split; try discriminate; intros; try congruence. tauto. }
  destruct (String.eqb_spec "gain" goal) as [<- | Hg'].
  { cbn. repeat split; try discriminate; intros; try congruence. tauto. }
  cbn. repeat split; try discriminate; intros; congruence.
Qed.

Lemma X14_gender_and_goal_normalization_witness :
  exists u, newUserState "t0" "t1" sampleImportedUser = Ok u
    /\ gender u = FEMALE /\ goalType u = GAIN_WEIGHT.
Proof.
  assert (E : exists u, newUserState "t0" "t1" sampleImportedUser = Ok u)
    by (eexists; vm_compute; reflexivity).
  destruct E as [u E]. exists u. split; [exact E|].
  destruct (X14_gender_and_goal_normalization "t0" "t1" sampleImportedUser u E)
    as (gs & goal & Hgs & Hgoal & Hg & Hgain & _).
  vm_compute in Hgs, Hgoal.
  injection Hgs as <-. injection Hgoal as <-.
  split; [apply Hg | apply Hgain]; reflexivity.
Defined.

(** X15. A confirmed import replaces and never merges: the profile and
    the logs it installs depend on the document and the two clocks only,
    not on the profile and the logs held before; the logs are the
    document's [logs], whatever they are. *)
Theorem X15_import_replaces (loadedAt isoNow : string) (data : JSValue) (st1 st2 : AppState) :
  (forall s1, importConfirmed loadedAt isoNow data st1 = Ok s1 ->
     exists s2, importConfirmed loadedAt isoNow data st2 = Ok s2
       /\ user s2 = user s1 /\ logs s2 = logs s1
       /\ logs s1 = getProp data "logs")
  /\ (forall e, importConfirmed loadedAt isoNow data st1 = Throw e ->
      importConfirmed loadedAt isoNow data st2 = Throw e).
Proof.
  unfold importConfirmed.
  destruct (newUserState loadedAt isoNow (getProp data "user")) as [u | e]; cbn; split.
  - intros s1 [= <-]. eexists. split; [reflexivity|]. repeat split.
  - discriminate.
  - discriminate.
  - intros e' H. exact H.
Qed.

End ImportMore.

(* ===================================================================== *)
(** ** Export and import, whatever the numbers *)
(* ===================================================================== *)
Section ExportImportMore.

(** Reads of literal keys in a property list spelled out. *)
Ltac read_keys :=
  cbn [getProp assoc String.eqb Ascii.eqb Bool.eqb default from_option Datatypes.id].

Lemma jsonRoundTrip_num (n : float) : jsonRoundTrip (JNum n) = carriedValue n.
Proof. reflexivity. Qed.

Lemma carriedValue_not_undefined (n : float) : carriedValue n <> JUndefined.
Proof. unfold carriedValue. destruct (isFinite n); discriminate. Qed.

Lemma safeNum_carried (n d : float) : safeNum (carriedValue n) d = Ok (carried n).
Proof.
  unfold carriedValue, carried. destruct (isFinite n) eqn:E; [|reflexivity].
  apply safeNum_number. apply written_same. exact E.
Qed.

Lemma ToNumber_carried (n : float) : ToNumber (carriedValue n) = Ok (carried n).
Proof. unfold carriedValue, carried. destruct (isFinite n); reflexivity. Qed.

Lemma ToString_carried (n : float) : exists w, ToString (carriedValue n) = Ok w.
Proof. unfold carriedValue. destruct (isFinite n); cbn; eauto. Qed.

Lemma assoc_omap_roundTripProp_None (k : string) (l : list (string * JSValue)) :
  k ∉ l.*1 -> assoc k (omap roundTripProp l) = None.
Proof.
  induction l as [| [k' x] l IH]; intros H; [reflexivity|].
  cbn in H. apply not_elem_of_cons in H as [Hne H].
  destruct x; cbn [omap list_omap roundTripProp fst snd assoc];
    rewrite ?(proj2 (String.eqb_neq k k') Hne); apply IH, H.
Qed.

(** X16. Exporting a typed state and importing the file, confirmed,
    never fails, whatever numbers the state holds: the confirmation closes
    on a new profile and new logs. Each numeric field comes back as itself
    when it is finite and as 0 (not as the default) when it is [NaN] or
    infinite; a manual target comes back only when it is finite and
    greater than 0; gender and goal come back as they were, an empty name
    as Guest; the logs are what [JSON] makes of them. *)
Theorem X16_export_then_import_never_fails (loadedAt exportedAt importedAt : string)
    (st : AppState) :
  typedState st ->
  let st' := exportThenImport loadedAt exportedAt importedAt st in
  isOpen (modalConfig st') = false
  /\ (age (user st') = carried (age (user st))
      /\ height (user st') = carried (height (user st))
      /\ currentWeight (user st') = carried (currentWeight (user st))
      /\ targetWeight (user st') = carried (targetWeight (user st))
      /\ activityLevel (user st') = carried (activityLevel (user st)))
  /\ manualTDEE (user st')
     = match manualTDEE (user st) with
       | Some m => if PrimFloat.ltb 0 (carried m) then Some (carried m) else None
       | None => None
       end
  /\ gender (user st') = gender (user st)
  /\ goalType (user st') = goalType (user st)
  /\ name (user st') = or_else (name (user st)) (JStr "Guest")
  /\ updatedAt (user st') = importedAt
  /\ logs st' = jsonRoundTrip (logs st).
Proof.
  intros ((s & Hs) & Hnc & (props & Hlogs)) st'. subst st'. unfold exportThenImport.
  set (u := user st) in *.
  set (manualE := match manualTDEE u with
                  | Some m => [("manualTDEE", carriedValue m)]
                  | None => []
                  end).
  set (E := ("name", JStr s) :: ("gender", JStr (Gender_value (gender u)))
            :: ("age", carriedValue (age u)) :: ("height", carriedValue (height u))
            :: ("currentWeight", carriedValue (currentWeight u))
            :: ("targetWeight", carriedValue (targetWeight u))
            :: ("activityLevel", carriedValue (activityLevel u))
            :: ("goalType", JStr (GoalType_value (goalType u)))
            :: manualE ++ ("updatedAt", JStr (updatedAt u)) :: omap roundTripProp (rest u)).
  assert (Huser : jsonRoundTrip (JObj (userProps u)) = JObj E).
  { rewrite jsonRoundTrip_obj. unfold userProps. cbn [app]. rewrite Hs.
    rewrite !roundTripProp_cons by discriminate.
    rewrite omap_app, roundTripProp_cons by discriminate.
    rewrite !jsonRoundTrip_num. cbn [jsonRoundTrip].
    subst E. do 8 f_equal. f_equal. subst manualE.
    destruct (manualTDEE u) as [m|]; [|reflexivity].
    rewrite roundTripProp_cons by discriminate. reflexivity. }
  assert (Hdoc : jsonRoundTrip (handleExportData exportedAt st)
                 = JObj [("user", JObj E); ("logs", jsonRoundTrip (logs st));
                         ("version", JStr "1.0"); ("exportedAt", JStr exportedAt)]).
  { unfold handleExportData. rewrite jsonRoundTrip_obj.
    rewrite !roundTripProp_cons by (try discriminate; rewrite Hlogs; discriminate).
    fold u. rewrite Huser. reflexivity. }
  rewrite Hdoc. clear Hdoc Huser.
  assert (Hmanual : assoc "manualTDEE" E
                    = match manualTDEE u with Some m => Some (carriedValue m) | None => None end).
  { subst E manualE. cbn [assoc String.eqb Ascii.eqb Bool.eqb].
    destruct (manualTDEE u); cbn [app assoc String.eqb Ascii.eqb Bool.eqb]; [reflexivity|].
    apply assoc_omap_roundTripProp_None. intros Hin.
    rewrite List.Forall_forall in Hnc. apply list_elem_of_In in Hin.
    specialize (Hnc _ Hin). discriminate. }
  assert (Hnew : exists u', newUserState loadedAt importedAt (JObj E) = Ok u'
            /\ (age u' = carried (age u) /\ height u' = carried (height u)
                /\ currentWeight u' = carried (currentWeight u)
                /\ targetWeight u' = carried (targetWeight u)
                /\ activityLevel u' = carried (activityLevel u))
            /\ manualTDEE u'
               = match manualTDEE u with
                 | Some m => if PrimFloat.ltb 0 (carried m) then Some (carried m) else None
                 | None => None
                 end
            /\ gender u' = gender u /\ goalType u' = goalType u
            /\ name u' = or_else (name u) (JStr "Guest")
            /\ updatedAt u' = importedAt).
  { unfold newUserState. cbn [getProp ownProps]. rewrite Hmanual.
    subst E. read_keys.
    rewrite !safeNum_carried. cbn [mbind result_bind ToString].
    assert (Hg : (if String.eqb (toLowerCase (Gender_value (gender u))) "female"
                  then FEMALE else MALE) = gender u) by (destruct (gender u); reflexivity).
    rewrite Hg.
    assert (Hgoal : default LOSE_WEIGHT
                      (List.find (fun v => String.eqb (GoalType_value v)
                                             (GoalType_value (goalType u))) GoalType_values)
                    = goalType u) by (destruct (goalType u); reflexivity).
    rewrite Hgoal. rewrite Hs.
    destruct (manualTDEE u) as [m|] eqn:Em;
      cbn [default from_option Datatypes.id mbind result_bind].
    - rewrite ToNumber_carried. cbn [mbind result_bind].
      eexists. split; [reflexivity|]. repeat split.
    - cbn [ToNumber mbind result_bind]. change (PrimFloat.ltb 0 nan) with false. cbn iota.
      eexists. split; [reflexivity|]. repeat split. }
  destruct Hnew as (u' & Hu' & Hnum & Hman & Hgen & Hgoal & Hname & Hup).
  match goal with |- context [Parsed ?d] => set (data := d) end.
  destruct (ToString_carried (currentWeight u)) as [w Hw].
  assert (Hn : exists n, ToString (or_else (JStr s) (JStr "ไม่ระบุ")) = Ok n).
  { unfold or_else. destruct (JS.truthy (JStr s)); cbn; eauto. }
  destruct Hn as [n Hn].
  destruct (onload_shows_confirm data st n w) as [msg Hon].
  { unfold hasUserAndLogs. subst data. read_keys. rewrite Hlogs. reflexivity. }
  { subst data E. read_keys. exact Hn. }
  { subst data E. read_keys. exact Hw. }
  rewrite Hon.
  assert (Hclick : clickConfirm loadedAt importedAt
                     (showModal "ยืนยันการนำเข้า" msg confirm (Some data) st)
                   = closeModal {| user := u'; logs := jsonRoundTrip (logs st);
                                   modalConfig := modalConfig
                                     (showModal "ยืนยันการนำเข้า" msg confirm (Some data) st) |}).
  { unfold clickConfirm, importConfirmed.
    cbn [onConfirm modalConfig showModal].
    change (getProp data "user") with (JObj E). rewrite Hu'. reflexivity. }
  rewrite Hclick. cbn [closeModal user logs modalConfig isOpen].
  split; [reflexivity|]. split; [exact Hnum|]. split; [exact Hman|].
  split; [exact Hgen|]. split; [exact Hgoal|]. split; [exact Hname|].
  split; [exact Hup | reflexivity].
Qed.

Lemma X16_export_then_import_never_fails_witness :
  let st' := exportThenImport "t0" "t1" "t2" brokenNumbersState in
  isOpen (modalConfig st') = false
  /\ height (user st') = 0%float /\ currentWeight (user st') = 0%float
  /\ manualTDEE (user st') = None.
Proof.
  destruct (X16_export_then_import_never_fails "t0" "t1" "t2" brokenNumbersState)
    as (Ho & (_ & Hh & Hw & _) & Hm & _).
  { split; [exists "Ann"; reflexivity|].
    split; [repeat constructor | eexists; vm_compute; reflexivity]. }
  split; [exact Ho|]. split; [rewrite Hh; reflexivity|].
  split; [rewrite Hw | rewrite Hm]; reflexivity.
Defined.

End ExportImportMore.

(* ===================================================================== *)
(** ** The tint colour *)
(* ===================================================================== *)
Section LiquidEffectFacts.

Lemma codes_ofCodes (l : list Z) :
  Forall (fun c => 0 <= c < 256) l -> codes (ofCodes l) = l.
Proof.
  intros H. unfold codes, ofCodes. rewrite list_ascii_of_string_of_list_ascii.
  induction H as [| c l Hc _ IH]; [reflexivity|].
  cbn [map]. rewrite IH. f_equal.
  rewrite N_ascii_embedding by lia. lia.
Qed.

Lemma codes_range (s : string) : Forall (fun c => 0 <= c < 256) (codes s).
Proof.
  unfold codes. induction (list_ascii_of_string s) as [| a l IH]; constructor; [|exact IH].
  pose proof (N_ascii_bounded a). lia.
Qed.

Lemma ofCodes_codes (s : string) : ofCodes (codes s) = s.
Proof.
  unfold codes, ofCodes. rewrite map_map.
  rewrite <- (string_of_list_ascii_of_string s) at 2. f_equal.
  induction (list_ascii_of_string s) as [| a l IH]; [reflexivity|].
  cbn [map]. rewrite IH, N2Z.id, ascii_N_embedding. reflexivity.
Qed.

(** The hexadecimal digits and their values. *)
Lemma digitVal_16_cases (c h : Z) :
  digitVal 16 c = Some h -> In (c, h) hexDigits.
Proof.
  unfold digitVal, hexDigits. intros H.
  destruct ((48 <=? c) && (c <=? 57)) eqn:E1;
    [|destruct ((97 <=? c) && (c <=? 102)) eqn:E2;
      [|destruct ((65 <=? c) && (c <=? 70)) eqn:E3]].
  - apply andb_prop in E1 as [A B]. apply Z.leb_le in A, B.
    destruct (c - 48 <? 16); [|discriminate]. injection H as <-.
    assert (D : c = 48 \/ c = 49 \/ c = 50 \/ c = 51 \/ c = 52 \/ c = 53 \/ c = 54
                \/ c = 55 \/ c = 56 \/ c = 57) by lia.
    cbn [In]. repeat (destruct D as [-> | D]; [tauto|]). subst c. tauto.
  - apply andb_prop in E2 as [A B]. apply Z.leb_le in A, B.
    destruct (c - 87 <? 16); [|discriminate]. injection H as <-.
    assert (D : c = 97 \/ c = 98 \/ c = 99 \/ c = 100 \/ c = 101 \/ c = 102) by lia.
    cbn [In]. repeat (destruct D as [-> | D]; [tauto|]). subst c. tauto.
  - apply andb_prop in E3 as [A B]. apply Z.leb_le in A, B.
    destruct (c - 55 <? 16); [|discriminate]. injection H as <-.
    assert (D : c = 65 \/ c = 66 \/ c = 67 \/ c = 68 \/ c = 69 \/ c = 70) by lia.
    cbn [In]. repeat (destruct D as [-> | D]; [tauto|]). subst c. tauto.
  - rewrite Z.ltb_irrefl in H. discriminate.
Qed.

(** [`${parseInt(g, 16)}`] for a group [g] of two hexadecimal digits. *)
Lemma group_value (a b h1 h2 : Z) :
  digitVal 16 a = Some h1 -> digitVal 16 b = Some h2 ->
  NumberToString (parseInt16 (ofCodes [a; b])) = pretty (16 * h1 + h2).
Proof.
  intros Ha Hb. apply digitVal_16_cases in Ha, Hb.
  assert (T : forallb (fun x => forallb (fun y =>
                String.eqb (NumberToString (parseInt16 (ofCodes [x.1; y.1])))
                           (pretty (16 * x.2 + y.2))) hexDigits) hexDigits = true)
    by (vm_compute; reflexivity).
  rewrite forallb_forall in T. specialize (T _ Ha).
  rewrite forallb_forall in T. specialize (T _ Hb).
  apply String.eqb_eq in T. exact T.
Qed.


Ltac by_cases_on_codes :=
  repeat (match goal with
          | |- context [?a <=? ?b] => destruct (Z.leb_spec a b)
          | |- context [?a <? ?b] => destruct (Z.ltb_spec a b)
          | |- context [?a =? ?b] => destruct (Z.eqb_spec a b)
          end; cbn [andb] in *);
  first [reflexivity | f_equal; lia | exfalso; lia | lia].

Lemma digitVal_lowerCode (c : Z) : digitVal 16 (lowerCode c) = digitVal 16 c.
Proof.
  unfold lowerCode. destruct (Z.leb_spec 65 c), (Z.leb_spec c 90); cbn [andb];
    try reflexivity. unfold digitVal. by_cases_on_codes.
Qed.

Lemma isHex_lowerCode (c : Z) : LiquidEffect.isHex (lowerCode c) = LiquidEffect.isHex c.
Proof. unfold LiquidEffect.isHex. rewrite digitVal_lowerCode. reflexivity. Qed.

Lemma lowerCode_hash (c : Z) : (lowerCode c =? 35) = (c =? 35).
Proof.
  unfold lowerCode. destruct (Z.leb_spec 65 c), (Z.leb_spec c 90); cbn [andb];
    try reflexivity. by_cases_on_codes.
Qed.

Lemma codes_toLowerCase (s : string) : codes (toLowerCase s) = map lowerCode (codes s).
Proof.
  unfold toLowerCase. fold lowerCode. change (fun c => lowerCode c) with lowerCode.
  apply codes_ofCodes. apply Forall_map. eapply Forall_impl; [apply codes_range|].
  intros c Hc. cbn in Hc |- *. unfold lowerCode.
  destruct (Z.leb_spec 65 c), (Z.leb_spec c 90); cbn [andb]; lia.
Qed.

Lemma isHex_digitVal (c : Z) : LiquidEffect.isHex c = true -> exists h, digitVal 16 c = Some h.
Proof. unfold LiquidEffect.isHex. destruct (digitVal 16 c); [eauto | discriminate]. Qed.

Lemma isHex_not_hash (c : Z) : LiquidEffect.isHex c = true -> (c =? 35) = false.
Proof.
  intros H. destruct (Z.eqb_spec c 35) as [-> |]; [|reflexivity]. discriminate.
Qed.

(** The regular expression matches exactly the well-formed texts. *)
Lemma exec_wellFormed (hex : string) :
  wellFormedColor hex <-> exists g, LiquidEffect.exec hex = Some g.
Proof.
  unfold LiquidEffect.exec, wellFormedColor, sixHexDigits. split.
  - intros [[Hlen Hall] | (t & Ht & Hlen & Hall)].
    + destruct (codes hex) as [| a [| b [| c [| d [| e [| f [| x t]]]]]]]; try discriminate.
      rewrite (isHex_not_hash a) by (apply Forall_cons in Hall as [Ha _]; exact Ha).
      assert (F : forallb LiquidEffect.isHex [a; b; c; d; e; f] = true).
      { apply forallb_forall. intros y Hy. rewrite Forall_forall in Hall.
        apply Hall, list_elem_of_In, Hy. }
      rewrite F. eauto.
    + rewrite Ht, Z.eqb_refl.
      destruct t as [| a [| b [| c [| d [| e [| f [| x t]]]]]]]; try discriminate.
      assert (F : forallb LiquidEffect.isHex [a; b; c; d; e; f] = true).
      { apply forallb_forall. intros y Hy. rewrite Forall_forall in Hall.
        apply Hall, list_elem_of_In, Hy. }
      rewrite F. eauto.
  - intros [g E].
    destruct (codes hex) as [| c0 t]; [discriminate|].
    destruct (c0 =? 35) eqn:E0.
    + apply Z.eqb_eq in E0. subst c0. right. exists t. split; [reflexivity|].
      destruct t as [| a [| b [| c [| d [| e [| f [| x t]]]]]]]; try discriminate.
      destruct (forallb LiquidEffect.isHex [a; b; c; d; e; f]) eqn:F; [|discriminate].
      split; [reflexivity|]. apply Forall_forall. intros y Hy.
      rewrite forallb_forall in F. apply F. apply list_elem_of_In. exact Hy.
    + left.
      destruct t as [| b [| c [| d [| e [| f [| x t]]]]]]; try discriminate.
      destruct (forallb LiquidEffect.isHex [c0; b; c; d; e; f]) eqn:F; [|discriminate].
      split; [reflexivity|]. apply Forall_forall. intros y Hy.
      rewrite forallb_forall in F. apply F. apply list_elem_of_In. exact Hy.
Qed.

Lemma hexToRgb_not_wellFormed (hex : string) :
  ~ wellFormedColor hex -> LiquidEffect.hexToRgb hex = "0, 0, 0".
Proof.
  intros H. unfold LiquidEffect.hexToRgb.
  destruct (LiquidEffect.exec hex) as [g |] eqn:E; [|reflexivity].
  exfalso. apply H, exec_wellFormed. eauto.
Qed.

Lemma wellFormedColor_toLowerCase (hex : string) :
  wellFormedColor (toLowerCase hex) -> wellFormedColor hex.
Proof.
  unfold wellFormedColor, sixHexDigits.
  assert (B : forall l, Forall (fun c => LiquidEffect.isHex c = true) (map lowerCode l) ->
            Forall (fun c => LiquidEffect.isHex c = true) l).
  { intros l Hall. apply Forall_map in Hall. eapply Forall_impl; [exact Hall|].
    intros c Hc. cbn in Hc. rewrite isHex_lowerCode in Hc. exact Hc. }
  rewrite codes_toLowerCase.
  intros [[Hlen Hall] | (t & Ht & Hlen & Hall)].
  - left. rewrite length_map in Hlen. split; [exact Hlen | apply B, Hall].
  - right. destruct (codes hex) as [| c0 t0]; [discriminate|].
    cbn [map] in Ht. injection Ht as Hc0 <-.
    exists t0. split.
    + f_equal. apply Z.eqb_eq. rewrite <- lowerCode_hash, Hc0. reflexivity.
    + rewrite length_map in Hlen. split; [exact Hlen | apply B, Hall].
Qed.

(** The groups of six digits, decoded. *)
Lemma hexToRgb_six (hex : string) (a b c d e f h1 h2 h3 h4 h5 h6 : Z) :
  codes hex = [a; b; c; d; e; f] \/ codes hex = 35 :: [a; b; c; d; e; f] ->
  digitVal 16 a = Some h1 -> digitVal 16 b = Some h2 -> digitVal 16 c = Some h3 ->
  digitVal 16 d = Some h4 -> digitVal 16 e = Some h5 -> digitVal 16 f = Some h6 ->
  LiquidEffect.hexToRgb hex
  = pretty (16 * h1 + h2) +:+ ", " +:+ pretty (16 * h3 + h4) +:+ ", " +:+ pretty (16 * h5 + h6).
Proof.
  intros Hc Ha Hb Hc' Hd He Hf.
  assert (Hbody : LiquidEffect.exec hex = Some (ofCodes [a; b], ofCodes [c; d], ofCodes [e; f])).
  { unfold LiquidEffect.exec.
    assert (Hx : forall x h, digitVal 16 x = Some h -> LiquidEffect.isHex x = true)
      by (intros x h Hx; unfold LiquidEffect.isHex; rewrite Hx; reflexivity).
    destruct Hc as [-> | ->].
    - rewrite (isHex_not_hash a (Hx _ _ Ha)). cbn [forallb].
      rewrite (Hx _ _ Ha), (Hx _ _ Hb), (Hx _ _ Hc'), (Hx _ _ Hd), (Hx _ _ He), (Hx _ _ Hf).
      reflexivity.
    - rewrite Z.eqb_refl. cbn [forallb].
      rewrite (Hx _ _ Ha), (Hx _ _ Hb), (Hx _ _ Hc'), (Hx _ _ Hd), (Hx _ _ He), (Hx _ _ Hf).
      reflexivity. }
  unfold LiquidEffect.hexToRgb. rewrite Hbody.
  rewrite (group_value a b h1 h2 Ha Hb), (group_value c d h3 h4 Hc' Hd),
    (group_value e f h5 h6 He Hf). reflexivity.
Qed.

(** X17. For a text of six hexadecimal digits, after a [#] or without
    one, [hexToRgb] gives the three pairs as decimal numbers between 0 and
    255, separated by a comma and a space: [16 * h1 + h2] for the pair of
    digits worth [h1] and [h2]. *)
Theorem X17_hexToRgb_decodes (hex : string) (a b c d e f h1 h2 h3 h4 h5 h6 : Z) :
  codes hex = [a; b; c; d; e; f] \/ codes hex = 35 :: [a; b; c; d; e; f] ->
  digitVal 16 a = Some h1 -> digitVal 16 b = Some h2 -> digitVal 16 c = Some h3 ->
  digitVal 16 d = Some h4 -> digitVal 16 e = Some h5 -> digitVal 16 f = Some h6 ->
  LiquidEffect.hexToRgb hex
  = pretty (16 * h1 + h2) +:+ ", " +:+ pretty (16 * h3 + h4) +:+ ", " +:+ pretty (16 * h5 + h6)
  /\ 0 <= 16 * h1 + h2 <= 255 /\ 0 <= 16 * h3 + h4 <= 255 /\ 0 <= 16 * h5 + h6 <= 255.
Proof.
  intros Hc Ha Hb Hc' Hd He Hf. split; [eapply hexToRgb_six; eassumption|].
  assert (R : forall x h, digitVal 16 x = Some h -> 0 <= h <= 15).
  { intros x h Hx. apply digitVal_16_cases in Hx. unfold hexDigits in Hx. cbn [In] in Hx.
    repeat (destruct Hx as [Hx | Hx]; [injection Hx as <- <-; lia|]). contradiction. }
  pose proof (R _ _ Ha). pose proof (R _ _ Hb). pose proof (R _ _ Hc').
  pose proof (R _ _ Hd). pose proof (R _ _ He). pose proof (R _ _ Hf). lia.
Qed.

Lemma X17_hexToRgb_decodes_witness : LiquidEffect.hexToRgb "#22c55e" = "34, 197, 94".
Proof.
  apply (X17_hexToRgb_decodes "#22c55e" 50 50 99 53 53 101 2 2 12 5 5 14);
    first [right; reflexivity | reflexivity].
Defined.

(** X18. On every other text [hexToRgb] answers black: a text that is not
    six hexadecimal digits after at most one leading [#] (the three-digit
    shorthand, a text with a space or with a colour name) gives
    "0, 0, 0". *)
Theorem X18_hexToRgb_falls_back (hex : string) :
  ~ wellFormedColor hex -> LiquidEffect.hexToRgb hex = "0, 0, 0".
Proof.
  intros H. unfold LiquidEffect.hexToRgb.
  destruct (LiquidEffect.exec hex) as [[[r g] b] |] eqn:E; [|reflexivity].
  destruct H. apply exec_wellFormed. exists (r, g, b). exact E.
Qed.

Lemma X18_hexToRgb_falls_back_witness : LiquidEffect.hexToRgb "#fff" = "0, 0, 0".
Proof.
  apply (X18_hexToRgb_falls_back "#fff").
  intros [[H _] | (t & Ht & H & _)]; [discriminate|].
  injection Ht as <-. discriminate.
Defined.

(** X19. [hexToRgb] does not tell upper-case digits from lower-case ones:
    the text lower-cased gives the same answer. *)
Theorem X19_hexToRgb_ignores_case (hex : string) :
  LiquidEffect.hexToRgb (toLowerCase hex) = LiquidEffect.hexToRgb hex.
Proof.
  assert (S : forall l, Forall (fun c => LiquidEffect.isHex c = true) l ->
            Forall (fun c => LiquidEffect.isHex c = true) (map lowerCode l)).
  { intros l Hl. apply Forall_map. eapply Forall_impl; [exact Hl|].
    intros c Hc. cbn. rewrite isHex_lowerCode. exact Hc. }
  assert (D : forall l, length l = 6%nat -> Forall (fun c => LiquidEffect.isHex c = true) l ->
            forall s s', codes s = l \/ codes s = 35 :: l ->
                         codes s' = map lowerCode l \/ codes s' = 35 :: map lowerCode l ->
                         LiquidEffect.hexToRgb s' = LiquidEffect.hexToRgb s).
  { intros l Hlen Hall s s' Hs Hs'.
    destruct l as [| a [| b [| c [| d [| e [| f [| x t]]]]]]]; try discriminate.
    repeat match goal with
           | H : Forall _ (_ :: _) |- _ => apply Forall_cons in H as [? H]
           end.
    repeat match goal with
           | H : LiquidEffect.isHex _ = true |- _ => apply isHex_digitVal in H as [? H]
           end.
    cbn [map] in Hs'.
    erewrite (hexToRgb_six s); [|exact Hs | eassumption ..].
    erewrite (hexToRgb_six s'); [reflexivity | exact Hs' | ..];
      rewrite digitVal_lowerCode; eassumption. }
  destruct (LiquidEffect.exec hex) as [g |] eqn:E.
  - assert (W : wellFormedColor hex) by (apply exec_wellFormed; eauto).
    destruct W as [[Hlen Hall] | (t & Ht & Hlen & Hall)].
    + apply (D (codes hex) Hlen Hall); [left; reflexivity|].
      left. apply codes_toLowerCase.
    + apply (D t Hlen Hall); [right; exact Ht|].
      right. rewrite codes_toLowerCase, Ht. reflexivity.
  - assert (W : ~ wellFormedColor hex).
    { intros W. apply exec_wellFormed in W as [g W]. congruence. }
    rewrite (hexToRgb_not_wellFormed hex W). apply hexToRgb_not_wellFormed.
    intros W'. apply W, wellFormedColor_toLowerCase, W'.
Qed.

End LiquidEffectFacts.

(* ===================================================================== *)
(** ** The modal and the file reader *)
(* ===================================================================== *)
Section ModalFacts.

Lemma showModal_frame (t m : string) (ty : ModalType) (oc : option JSValue)
    (st1 st2 : AppState) :
  user st1 = user st2 -> logs st1 = logs st2 ->
  showModal t m ty oc st1 = showModal t m ty oc st2.
Proof. intros Hu Hl. unfold showModal. rewrite Hu, Hl. reflexivity. Qed.

Lemma onload_frame (content : FileContent) (st1 st2 : AppState) :
  content <> EmptyText -> user st1 = user st2 -> logs st1 = logs st2 ->
  onload content st1 = onload content st2.
Proof.
  intros Hc Hu Hl. destruct content as [| e | data]; [congruence | |]; cbn [onload].
  - apply showModal_frame; assumption.
  - unfold onloadBody.
    destruct (getV data "user") as [u | e]; cbn [mbind result_bind];
      [|apply showModal_frame; assumption].
    destruct (if JS.truthy u then getV data "logs" else Ok u) as [l | e];
      cbn [mbind result_bind]; [|apply showModal_frame; assumption].
    destruct (JS.truthy u && JS.truthy l); [|apply showModal_frame; assumption].
    destruct (ToString (or_else (getProp u "name") (JStr "ไม่ระบุ"))) as [n | e];
      cbn [mbind result_bind]; [|apply showModal_frame; assumption].
    destruct (ToString (getProp u "currentWeight")) as [w | e];
      cbn [mbind result_bind]; apply showModal_frame; assumption.
Qed.

(** X20. The activity select stores the level it shows: for each of the
    five activity levels, choosing the option whose value is that number
    as text sets [activityLevel] to exactly that number. *)
Theorem X20_activity_select_round_trip (isoNow : string) (u : UserProfile) (a : float) :
  In a activityLevels ->
  activityLevel (Handlers.onSettings isoNow (Handlers.ActivitySelect (NumberToString a)) u) = a.
Proof.
  intros H. cbn [Handlers.onSettings Handlers.settingsUpdate Handlers.handleUpdateProfile
                 fold_left Handlers.assign activityLevel].
  unfold activityLevels in H. cbn [In] in H.
  repeat (destruct H as [<- | H]; [vm_compute; reflexivity|]). contradiction.
Qed.

Lemma X20_activity_select_round_trip_witness :
  activityLevel (Handlers.onSettings "2025-01-02T00:00:00.000Z"
                   (Handlers.ActivitySelect "1.55") exampleProfile) = 1.55%float.
Proof.
  apply (X20_activity_select_round_trip "2025-01-02T00:00:00.000Z" exampleProfile 1.55).
  right. right. left. reflexivity.
Defined.

(** X21. Of the buttons the modal renders, only the confirm button of an
    open confirm modal can change the profile or the logs: a closed modal
    renders no button, and the cancel button and the OK button of the
    other modals close the modal and leave both as they are. After a
    failed import in particular, whatever the user clicks, nothing is
    imported. *)
Theorem X21_only_confirm_imports (loadedAt isoNow : string) (b : CustomModal.Button)
    (st : AppState) :
  In b (CustomModal.buttons (modalConfig st)) ->
  isOpen (modalConfig st) = true
  /\ (b = CustomModal.ConfirmButton -> type (modalConfig st) = confirm)
  /\ (b <> CustomModal.ConfirmButton ->
      user (CustomModal.click loadedAt isoNow b st) = user st
      /\ logs (CustomModal.click loadedAt isoNow b st) = logs st
      /\ isOpen (modalConfig (CustomModal.click loadedAt isoNow b st)) = false)
  /\ (forall content st0, st = onload content st0 -> reportsError st ->
      user (CustomModal.click loadedAt isoNow b st) = user st0
      /\ logs (CustomModal.click loadedAt isoNow b st) = logs st0).
Proof.
  unfold CustomModal.buttons. intros H.
  destruct (isOpen (modalConfig st)) eqn:Eo; cbn [negb] in H; [|destruct H].
  split; [reflexivity|]. split.
  { intros ->. destruct (type (modalConfig st)); cbn [In] in H;
      intuition discriminate. }
  split.
  { intros Hb. destruct b; [| congruence |]; cbn; repeat split. }
  intros content st0 -> [_ Ht].
  destruct (onload_keeps_data content st0) as [Hu Hl].
  rewrite Ht in H. cbn [In] in H. destruct H as [<- | []].
  cbn [CustomModal.click closeModal user logs]. split; assumption.
Qed.

Lemma X21_only_confirm_imports_witness :
  user (CustomModal.click "t0" "t1" CustomModal.OkButton
          (onload (Parsed documentWithoutLogs) idleState)) = user idleState
  /\ isOpen (modalConfig (CustomModal.click "t0" "t1" CustomModal.OkButton
                            (onload (Parsed documentWithoutLogs) idleState))) = false.
Proof.
  destruct (X21_only_confirm_imports "t0" "t1" CustomModal.OkButton
              (onload (Parsed documentWithoutLogs) idleState)) as (_ & _ & H & _).
  { left. reflexivity. }
  destruct H as (Hu & _ & Ho); [discriminate|].
  split; [exact Hu | exact Ho].
Defined.

(** X22. The last file read wins: reading a second file (one that is not
    empty) replaces whatever the first one put up, a pending confirmation
    included, and the result is what reading the second file alone gives;
    an empty second file leaves the first one's modal in place. *)
Theorem X22_last_file_wins (c1 c2 : FileContent) (st : AppState) :
  (c2 <> EmptyText -> onload c2 (onload c1 st) = onload c2 st)
  /\ (c2 = EmptyText -> onload c2 (onload c1 st) = onload c1 st).
Proof.
  split.
  - intros Hc. destruct (onload_keeps_data c1 st) as [Hu Hl].
    apply onload_frame; assumption.
  - intros ->. reflexivity.
Qed.

End ModalFacts.

(* ===================================================================== *)
(** ** The progress rings *)
(* ===================================================================== *)
Section ProgressFacts.

Lemma Prim2SF_canonical (x : float) (s : bool) (m : positive) (e : Z) :
  Prim2SF x = S754_finite s m e ->
  canonical_mantissa prec emax m e = true /\ e <= emax - prec.
Proof.
  intros E. pose proof (Prim2SF_valid x) as V. rewrite E in V.
  cbn [valid_binary] in V. unfold bounded in V.
  apply andb_prop in V as [V1 V2]. split; [exact V1 | apply Z.leb_le, V2].
Qed.

(** Multiplying a finite number by 1 is exact. *)
Lemma mul_one_l (c : float) : isFinite c = true -> (1 * c)%float = c.
Proof.
  intros Hf. apply Prim2SF_inj. rewrite FloatAxioms.mul_spec.
  change (Prim2SF 1) with (S754_finite false 4503599627370496 (-52)).
  apply isFinite_Prim2SF in Hf.
  destruct (Prim2SF c) as [s | s | | s m e] eqn:E; try contradiction.
  - destruct s; reflexivity.
  - destruct (Prim2SF_canonical c s m e E) as [Hc He].
    unfold SF64mul, SFmul. cbn [xorb].
    rewrite <- (binary_round_aux_canonical s m e Hc He).
    unfold canonical_mantissa in Hc. apply Z.eqb_eq in Hc.
    unfold binary_round_aux.
    assert (S : shr_fexp prec emax (Z.pos (4503599627370496 * m)) (-52 + e) loc_Exact
                = shr_fexp prec emax (Z.pos m) e loc_Exact).
    { unfold shr_fexp. cbn [Zdigits2 shr_record_of_loc].
      change (4503599627370496 * m)%positive with (Pos.iter xO m 52).
      rewrite digits2_pos_iter_xO.
      replace (Z.pos (digits2_pos m + 52) + (-52 + e)) with (Z.pos (digits2_pos m) + e) by lia.
      rewrite Hc, Z.sub_diag. replace (e - (-52 + e)) with 52 by lia.
      unfold shr. f_equal; try reflexivity; lia. }
    rewrite S. reflexivity.
Qed.

(** A finite number less itself is [+0]. *)
Lemma sub_diag_finite (c : float) : isFinite c = true -> (c - c)%float = 0%float.
Proof.
  intros Hf. apply Prim2SF_inj. rewrite FloatAxioms.sub_spec.
  change (Prim2SF 0) with (S754_zero false).
  apply isFinite_Prim2SF in Hf.
  destruct (Prim2SF c) as [s | s | | s m e] eqn:E; try contradiction.
  - destruct s; reflexivity.
  - unfold SF64sub, SFsub. cbv zeta. rewrite Z.min_id. unfold shl_align.
    match goal with
    | |- context [match ?t with Z.neg _ => _ | _ => _ end] =>
        replace t with 0 by (symmetry; apply Z.sub_diag)
    end.
    cbn [fst]. rewrite Z.sub_diag. reflexivity.
Qed.

(** A zero times a finite number is a zero, and taking a zero away from a
    finite number changes nothing that [===] sees. *)
Lemma sub_zero_mul (z c : float) :
  PrimFloat.eqb z 0 = true -> isFinite c = true -> PrimFloat.eqb (c - z * c) c = true.
Proof.
  intros Hz Hf. apply eqb_zero_cases in Hz as [sz Hz].
  rewrite FloatAxioms.eqb_spec, FloatAxioms.sub_spec, FloatAxioms.mul_spec, Hz.
  apply isFinite_Prim2SF in Hf.
  destruct (Prim2SF c) as [s | s | | s m e] eqn:E; try contradiction.
  - destruct sz, s; reflexivity.
  - cbn [SF64mul SFmul SF64sub SFsub]. apply SFeqb_refl. discriminate.
Qed.

Lemma div_NaN (x y : float) : isNaN x = true -> isNaN (x / y) = true.
Proof.
  intros H. apply isNaN_Prim2SF. rewrite FloatAxioms.div_spec.
  apply isNaN_Prim2SF in H. rewrite H. reflexivity.
Qed.

(** The clamp of [BorderProgress], case by case. *)
Lemma clamp_cases (a : float) :
  Progress.clamp a
  = if isNaN a then nan
    else if PrimFloat.ltb a 0 then 0%float
    else if PrimFloat.ltb 100 a then 100%float
    else match Prim2SF a with S754_zero true => 0%float | _ => a end.
Proof.
  unfold Progress.clamp, Math_max. change (isNaN 0) with false. rewrite orb_false_r.
  destruct (isNaN a) eqn:En; [reflexivity|].
  change (Prim2SF 0) with (S754_zero false). cbv iota.
  assert (Z : forall x s, Prim2SF x = S754_zero s ->
            PrimFloat.ltb x 0 = false /\ PrimFloat.ltb 100 x = false).
  { intros x s E. rewrite !FloatAxioms.ltb_spec, E. split; reflexivity. }
  destruct (Prim2SF a) as [[] | s | | s m e] eqn:E.
  - destruct (Z _ _ E) as [-> ->]. reflexivity.
  - destruct (Z _ _ E) as [Z1 Z2]. rewrite Z1, Math_min_100, En, Z2. reflexivity.
  - destruct (PrimFloat.ltb a 0); [reflexivity|]. rewrite Math_min_100, En. reflexivity.
  - apply isNaN_false_Prim2SF in En. congruence.
  - destruct (PrimFloat.ltb a 0); [reflexivity|]. rewrite Math_min_100, En. reflexivity.
Qed.

Lemma ltb_not_NaN (x y : float) : PrimFloat.ltb x y = true -> isNaN x = false /\ isNaN y = false.
Proof.
  rewrite FloatAxioms.ltb_spec, !isNaN_false_Prim2SF.
  destruct (Prim2SF x) as [[] | [] | | [] mx ex], (Prim2SF y) as [[] | [] | | [] my ey];
    cbn; intros H; split; discriminate.
Qed.

Lemma ltb_100_not_ltb_0 (a : float) : PrimFloat.ltb 100 a = true -> PrimFloat.ltb a 0 = false.
Proof.
  rewrite !FloatAxioms.ltb_spec.
  change (Prim2SF 100) with (S754_finite false 7036874417766400 (-46)).
  change (Prim2SF 0) with (S754_zero false).
  destruct (Prim2SF a) as [[] | [] | | [] m e]; cbn; congruence.
Qed.

(** X23. The ring of [CircularProgress], for a finite circumference: at 0
    per cent the dash offset is the whole circumference (nothing is
    drawn), at 100 per cent it is 0 (the ring is closed), and a percentage
    that is [NaN] gives an offset that is [NaN]. *)
Theorem X23_CircularProgress_ends (size strokeWidth : float) :
  isFinite (Progress.circumference size strokeWidth) = true ->
  PrimFloat.eqb (Progress.offset 0 size strokeWidth)
    (Progress.circumference size strokeWidth) = true
  /\ Progress.offset 100 size strokeWidth = 0%float
  /\ (forall percentage, isNaN percentage = true ->
      isNaN (Progress.offset percentage size strokeWidth) = true).
Proof.
  intros Hf. unfold Progress.offset. cbv zeta.
  set (c := Progress.circumference size strokeWidth) in *.
  split; [|split].
  - change (0 / 100)%float with 0%float. apply sub_zero_mul; [reflexivity | exact Hf].
  - change (100 / 100)%float with 1%float. rewrite (mul_one_l c Hf). apply sub_diag_finite, Hf.
  - intros p Hp. apply sub_NaN. apply orb_true_iff. right.
    apply mul_NaN. apply orb_true_iff. left. apply div_NaN, Hp.
Qed.

Lemma X23_CircularProgress_ends_witness : Progress.offset 100 180 14 = 0%float.
Proof.
  apply (X23_CircularProgress_ends 180 14). reflexivity.
Defined.

(** X24. [BorderProgress] clamps the percentage: the clamped value is
    [NaN] exactly when the percentage is, is otherwise neither below 0 nor
    above 100, is 0 for a negative percentage, 100 for one above 100, and
    the percentage itself (as [===] sees it) in between. For a finite
    circumference the dash offset is then the whole circumference for a
    negative percentage and 0 for one above 100. *)
Theorem X24_BorderProgress_clamps (percentage : float) :
  let p := Progress.clamp percentage in
  isNaN p = isNaN percentage
  /\ PrimFloat.ltb p 0 = false /\ PrimFloat.ltb 100 p = false
  /\ (PrimFloat.ltb percentage 0 = true -> p = 0%float)
  /\ (PrimFloat.ltb 100 percentage = true -> p = 100%float)
  /\ (isNaN percentage = false -> PrimFloat.ltb percentage 0 = false ->
      PrimFloat.ltb 100 percentage = false -> PrimFloat.eqb p percentage = true)
  /\ (forall size thickness,
      isFinite (Progress.borderCircumference size thickness) = true ->
      (PrimFloat.ltb percentage 0 = true ->
       PrimFloat.eqb (Progress.strokeDashoffset percentage size thickness)
         (Progress.borderCircumference size thickness) = true)
      /\ (PrimFloat.ltb 100 percentage = true ->
          Progress.strokeDashoffset percentage size thickness = 0%float)).
Proof.
  intros p.
  assert (Hneg : PrimFloat.ltb percentage 0 = true -> p = 0%float).
  { intros H. unfold p. rewrite clamp_cases, H.
    destruct (ltb_not_NaN _ _ H) as [-> _]. reflexivity. }
  assert (Hbig : PrimFloat.ltb 100 percentage = true -> p = 100%float).
  { intros H. unfold p. rewrite clamp_cases, H, (ltb_100_not_ltb_0 _ H).
    destruct (ltb_not_NaN _ _ H) as [_ ->]. reflexivity. }
  assert (Hmid : isNaN percentage = false -> PrimFloat.ltb percentage 0 = false ->
                 PrimFloat.ltb 100 percentage = false ->
                 (p = percentage \/ p = 0%float /\ Prim2SF percentage = S754_zero true)).
  { intros Hn H0 H1. unfold p. rewrite clamp_cases, Hn, H0, H1.
    destruct (Prim2SF percentage) as [[] | s | | s m e]; auto. }
  assert (Hnan : isNaN percentage = true -> p = nan).
  { intros H. unfold p. rewrite clamp_cases, H. reflexivity. }
  split.
  { destruct (isNaN percentage) eqn:En; [rewrite Hnan by reflexivity; reflexivity|].
    destruct (PrimFloat.ltb percentage 0) eqn:H0; [rewrite Hneg by reflexivity; reflexivity|].
    destruct (PrimFloat.ltb 100 percentage) eqn:H1; [rewrite Hbig by reflexivity; reflexivity|].
    destruct (Hmid eq_refl eq_refl eq_refl) as [-> | [-> _]]; [exact En | reflexivity]. }
  split.
  { destruct (isNaN percentage) eqn:En; [rewrite Hnan by reflexivity; reflexivity|].
    destruct (PrimFloat.ltb percentage 0) eqn:H0; [rewrite Hneg by reflexivity; reflexivity|].
    destruct (PrimFloat.ltb 100 percentage) eqn:H1; [rewrite Hbig by reflexivity; reflexivity|].
    destruct (Hmid eq_refl eq_refl eq_refl) as [-> | [-> _]]; [exact H0 | reflexivity]. }
  split.
  { destruct (isNaN percentage) eqn:En; [rewrite Hnan by reflexivity; reflexivity|].
    destruct (PrimFloat.ltb percentage 0) eqn:H0; [rewrite Hneg by reflexivity; reflexivity|].
    destruct (PrimFloat.ltb 100 percentage) eqn:H1; [rewrite Hbig by reflexivity; reflexivity|].
    destruct (Hmid eq_refl eq_refl eq_refl) as [-> | [-> _]]; [exact H1 | reflexivity]. }
  split; [exact Hneg|]. split; [exact Hbig|]. split.
  { intros Hn H0 H1. destruct (Hmid Hn H0 H1) as [-> | [-> E]].
    - apply eqb_refl_not_NaN, Hn.
    - rewrite FloatAxioms.eqb_spec, E. reflexivity. }
  intros size thickness Hf. unfold Progress.strokeDashoffset. cbv zeta. fold p. split.
  - intros H. rewrite (Hneg H). change (0 / 100)%float with 0%float.
    apply sub_zero_mul; [reflexivity | exact Hf].
  - intros H. rewrite (Hbig H). change (100 / 100)%float with 1%float.
    rewrite (mul_one_l _ Hf). apply sub_diag_finite, Hf.
Qed.

End ProgressFacts.

(* ===================================================================== *)
(** ** Numbers read with [parseInt] *)
(* ===================================================================== *)
Section TruncationFacts.

Lemma codes_app (a b : string) : codes (a +:+ b) = codes a ++ codes b.
Proof.
  unfold codes. induction a as [| c a IH]; [reflexivity|].
  change (String c a +:+ b) with (String c (a +:+ b)).
  cbn [list_ascii_of_string map app]. f_equal. exact IH.
Qed.

Lemma digitVal_10 (c : Z) : isDigit c -> digitVal 10 c = Some (c - 48).
Proof.
  unfold isDigit, digitVal. intros H.
  destruct (Z.leb_spec 48 c), (Z.leb_spec c 57); try lia. cbn [andb].
  destruct (Z.ltb_spec (c - 48) 10); [reflexivity | lia].
Qed.

Lemma takeDigits_digits (ds tl : list Z) :
  Forall isDigit ds -> (forall c t, tl = c :: t -> digitVal 10 c = None) ->
  takeDigits 10 (ds ++ tl) = (map (fun c => c - 48) ds, tl).
Proof.
  intros H Htl. induction H as [| c ds Hc _ IH]; cbn [app map].
  - destruct tl as [| c t]; [reflexivity|]. cbn [takeDigits].
    rewrite (Htl c t eq_refl). reflexivity.
  - cbn [takeDigits]. rewrite (digitVal_10 c Hc), IH. reflexivity.
Qed.

(** A text that starts with a digit has no white space to trim. *)
Lemma trimStart_digit (c : Z) (t : list Z) : isDigit c -> trimStart (c :: t) = c :: t.
Proof.
  unfold isDigit. intros H. cbn [trimStart].
  assert (W1 : ws1 c = false).
  { unfold ws1. destruct (Z.leb_spec 9 c), (Z.leb_spec c 13), (Z.eqb_spec c 32);
      cbn; try reflexivity; lia. }
  assert (W2 : forall b, ws2 c b = false).
  { intros b. unfold ws2. destruct (Z.eqb_spec c 194); [lia | reflexivity]. }
  assert (W3 : forall b d, ws3 c b d = false).
  { intros b d. unfold ws3.
    destruct (Z.eqb_spec c 225), (Z.eqb_spec c 226), (Z.eqb_spec c 227), (Z.eqb_spec c 239);
      cbn; first [reflexivity | lia]. }
  rewrite W1. destruct t as [| b [| d t]]; rewrite ?W2, ?W3; reflexivity.
Qed.

(** [parseInt] reads the digits before a decimal point and nothing
    after it. *)
Lemma parseInt_truncates (digits rest : string) :
  Forall isDigit (codes digits) ->
  parseInt (digits +:+ "." +:+ rest) = parseInt digits.
Proof.
  intros H. unfold parseInt. rewrite !codes_app.
  change (codes ".") with [46]. cbn [app].
  assert (Hdot : forall c t, 46 :: codes rest = c :: t -> digitVal 10 c = None)
    by (intros c t [= <- _]; reflexivity).
  destruct (codes digits) as [| d ds] eqn:E.
  - cbn [app].
    assert (T : trimStart (46 :: codes rest) = 46 :: codes rest).
    { cbn [trimStart]. change (ws1 46) with false. cbv iota.
      destruct (codes rest) as [| b [| c t]]; reflexivity. }
    rewrite T. reflexivity.
  - apply Forall_cons in H as [Hd Hds].
    rewrite <- app_comm_cons, !(trimStart_digit d) by exact Hd.
    pose proof (takeDigits_digits (d :: ds) (46 :: codes rest)
                  (Forall_cons_2 _ _ _ Hd Hds) Hdot) as T1.
    pose proof (takeDigits_digits (d :: ds) [] (Forall_cons_2 _ _ _ Hd Hds)) as T2.
    rewrite app_nil_r in T2. specialize (T2 ltac:(discriminate)).
    cbn [app] in T1.
    assert (S : forall t, takeSign (d :: t) = (false, d :: t)).
    { intros t. unfold isDigit in Hd.
      assert (D : d = 48 \/ d = 49 \/ d = 50 \/ d = 51 \/ d = 52 \/ d = 53 \/ d = 54
                  \/ d = 55 \/ d = 56 \/ d = 57) by lia.
      repeat (destruct D as [-> | D]; [reflexivity|]). subst d. reflexivity. }
    rewrite !S.
    assert (B : forall t, (forall c t', t = c :: t' -> c <> 120 /\ c <> 88) ->
              match d :: t with
              | 48 :: 120 :: t' | 48 :: 88 :: t' => (16, t')
              | _ => (10, d :: t)
              end = (10, d :: t)).
    { intros t Ht. unfold isDigit in Hd.
      assert (D : d = 48 \/ d = 49 \/ d = 50 \/ d = 51 \/ d = 52 \/ d = 53 \/ d = 54
                  \/ d = 55 \/ d = 56 \/ d = 57) by lia.
      destruct D as [-> | D].
      - destruct t as [| c t']; [reflexivity|].
        destruct (Ht c t' eq_refl) as [H1 H2].
        destruct c as [| p | p]; try reflexivity.
        do 7 (try (destruct p as [p | p |]; try reflexivity)); congruence.
      - repeat (destruct D as [-> | D]; [reflexivity|]). subst d. reflexivity. }
    rewrite (B (ds ++ 46 :: codes rest)), (B ds).
    + rewrite T1, T2. reflexivity.
    + intros c t' Hc. destruct ds as [| c0 ds']; cbn [app] in Hc; [discriminate|].
      injection Hc as <- _. apply Forall_cons in Hds as [Hc _]. unfold isDigit in Hc. lia.
    + intros c t' Hc. destruct ds as [| c0 ds']; cbn [app] in Hc; injection Hc as <- _; [lia|].
      apply Forall_cons in Hds as [Hc _]. unfold isDigit in Hc. lia.
Qed.

(** X25. Where the program reads a number with [parseInt] (the calories
    of a food, the height, the age, the manual target) a decimal point
    ends the number: a text of digits, a point and anything gives what the
    digits alone give, so that a food saved with "12.7" kcal is saved with
    12 and with ".5" with [NaN]. *)
Theorem X25_decimals_are_cut_off (digits rest : string) :
  Forall isDigit (codes digits) ->
  (forall today foodInput idNow isoNow prev,
     handleAddFood today foodInput (digits +:+ "." +:+ rest) idNow isoNow prev
     = handleAddFood today foodInput digits idNow isoNow prev)
  /\ (forall isoNow u,
      Handlers.onSettings isoNow (Handlers.HeightInput (digits +:+ "." +:+ rest)) u
      = Handlers.onSettings isoNow (Handlers.HeightInput digits) u
      /\ Handlers.onSettings isoNow (Handlers.AgeInput (digits +:+ "." +:+ rest)) u
         = Handlers.onSettings isoNow (Handlers.AgeInput digits) u)
  /\ parseInt (digits +:+ "." +:+ rest) = parseInt digits.
Proof.
  intros H. pose proof (parseInt_truncates digits rest H) as P.
  split; [|split; [|exact P]].
  - intros today foodInput idNow isoNow prev. unfold handleAddFood. rewrite P. reflexivity.
  - intros isoNow u. unfold Handlers.onSettings, Handlers.settingsUpdate. rewrite P.
    split; reflexivity.
Qed.

Lemma X25_decimals_are_cut_off_witness :
  handleAddFood "2025-01-01" "rice" "12.7" "1735689600000" "2025-01-01T00:00:00.000Z" ∅
  = handleAddFood "2025-01-01" "rice" "12" "1735689600000" "2025-01-01T00:00:00.000Z" ∅.
Proof.
  destruct (X25_decimals_are_cut_off "12" "7") as [H _].
  { change (Forall isDigit [49; 50]). repeat constructor; unfold isDigit; lia. }
  apply (H "2025-01-01" "rice" "1735689600000" "2025-01-01T00:00:00.000Z" ∅).
Defined.

End TruncationFacts.

(* ===================================================================== *)
(** ** The calendar *)
(* ===================================================================== *)
Section CalendarFacts.

Lemma days_lookup_blank (firstDay daysInMonth i : Z) :
  0 <= i < firstDay -> Calendar.days firstDay daysInMonth !! Z.to_nat i = Some None.
Proof.
  intros H. unfold Calendar.days.
  rewrite lookup_app_l by (rewrite length_fmap, length_seqZ; lia).
  rewrite list_lookup_fmap, lookup_seqZ_lt by lia. reflexivity.
Qed.

Lemma days_lookup_day (firstDay daysInMonth d : Z) :
  0 <= firstDay -> 1 <= d <= daysInMonth ->
  Calendar.days firstDay daysInMonth !! Z.to_nat (firstDay + d - 1) = Some (Some d).
Proof.
  intros Hf H. unfold Calendar.days.
  rewrite lookup_app_r by (rewrite length_fmap, length_seqZ; lia).
  rewrite length_fmap, length_seqZ.
  replace (Z.to_nat (firstDay + d - 1) - Z.to_nat firstDay)%nat with (Z.to_nat (d - 1)) by lia.
  rewrite list_lookup_fmap, lookup_seqZ_lt by lia. cbn. do 2 f_equal. lia.
Qed.

(** X26. The grid of the calendar: for a month that starts on week day
    [firstDay] and has [daysInMonth] days there are
    [firstDay + daysInMonth] cells; the first [firstDay] are blanks, and
    day [d] is the button at position [firstDay + d - 1], with the key of
    that day; so the first of the month sits in the column of its week
    day, and no day is missing or shown twice. *)
Theorem X26_calendar_grid (year month firstDay daysInMonth : Z)
    (logs : gmap string DailyLog) (selectedDate : string) :
  0 <= firstDay -> 0 <= daysInMonth ->
  let grid := Calendar.renderCalendar year month firstDay daysInMonth logs selectedDate in
  length grid = Z.to_nat (firstDay + daysInMonth)
  /\ (forall i, 0 <= i < firstDay -> grid !! Z.to_nat i = Some Calendar.Blank)
  /\ (forall d, 1 <= d <= daysInMonth ->
      exists isSelected dot,
        grid !! Z.to_nat (firstDay + d - 1)
        = Some (Calendar.DayButton d (Calendar.dateStr year month d) isSelected dot))
  /\ (forall i d key isSelected dot,
      grid !! i = Some (Calendar.DayButton d key isSelected dot) ->
      i = Z.to_nat (firstDay + d - 1) /\ 1 <= d <= daysInMonth).
Proof.
  intros Hf Hn grid. unfold grid, Calendar.renderCalendar. split; [|split; [|split]].
  - unfold Calendar.days. rewrite length_fmap, length_app, !length_fmap, !length_seqZ. lia.
  - intros i Hi. rewrite list_lookup_fmap, days_lookup_blank by exact Hi. reflexivity.
  - intros d Hd. rewrite list_lookup_fmap, days_lookup_day by assumption.
    cbn [fmap option_fmap option_map Calendar.cell].
    destruct (Z.eqb_spec d 0) as [-> |]; [lia|]. eauto.
  - intros i d key isSelected dot H. rewrite list_lookup_fmap in H.
    destruct (Calendar.days firstDay daysInMonth !! i) as [day |] eqn:E; [|discriminate].
    cbn in H. injection H as H. unfold Calendar.days in E.
    apply lookup_app_Some in E as [E | [Hlen E]].
    + rewrite list_lookup_fmap in E.
      destruct (seqZ 0 firstDay !! i); [|discriminate]. cbn in E. injection E as <-.
      discriminate.
    + rewrite length_fmap, length_seqZ in Hlen, E. rewrite list_lookup_fmap in E.
      destruct (seqZ 1 daysInMonth !! (i - Z.to_nat firstDay)%nat) as [d' |] eqn:E';
        [|discriminate].
      cbn in E. injection E as <-. cbn [Calendar.cell] in H.
      destruct (d' =? 0); [discriminate|]. injection H as -> _ _ _.
      apply lookup_seqZ in E' as [-> Hlt]. lia.
Qed.

Lemma X26_calendar_grid_witness :
  length (Calendar.renderCalendar 2025 0 3 31 sampleLogs "2025-01-02") = 34%nat.
Proof.
  apply (X26_calendar_grid 2025 0 3 31 sampleLogs "2025-01-02"); lia.
Defined.

Lemma length_append (a b : string) :
  String.length (a +:+ b) = (String.length a + String.length b)%nat.
Proof.
  induction a as [| c a IH]; [reflexivity|].
  change (String c a +:+ b) with (String c (a +:+ b)). cbn [String.length].
  rewrite IH. reflexivity.
Qed.

Lemma in_range_forallb (P : Z -> bool) (lo n k : Z) :
  forallb P (seqZ lo n) = true -> lo <= k < lo + n -> P k = true.
Proof.
  intros H Hk. rewrite forallb_forall in H. apply H.
  apply list_elem_of_In, elem_of_seqZ. exact Hk.
Qed.

(** X27. The key the calendar computes for a day has the form of the keys
    of the logs: for a year of four digits, a month 0 to 11 and a day 1 to
    31 it is the year, a hyphen, the month number (one more than [month])
    on two digits, a hyphen and the day on two digits, ten characters in
    all. *)
Theorem X27_calendar_key_format (year month day : Z) :
  1000 <= year <= 9999 -> 0 <= month <= 11 -> 1 <= day <= 31 ->
  Calendar.dateStr year month day
  = pretty year +:+ "-" +:+ twoDigits (month + 1) +:+ "-" +:+ twoDigits day
  /\ String.length (Calendar.dateStr year month day) = 10%nat.
Proof.
  intros Hy Hm Hd.
  assert (Y : String.eqb (NumberToString (ofZ year)) (pretty year)
              && (String.length (pretty year) =? 4)%nat = true).
  { apply (in_range_forallb
             (fun y => String.eqb (NumberToString (ofZ y)) (pretty y)
                       && (String.length (pretty y) =? 4)%nat) 1000 9000).
    - vm_compute. reflexivity.
    - lia. }
  assert (M : String.eqb (Calendar.padStart0 (NumberToString (ofZ month + 1)) 2)
                (twoDigits (month + 1))
              && (String.length (twoDigits (month + 1)) =? 2)%nat = true).
  { apply (in_range_forallb
             (fun m => String.eqb (Calendar.padStart0 (NumberToString (ofZ m + 1)) 2)
                         (twoDigits (m + 1))
                       && (String.length (twoDigits (m + 1)) =? 2)%nat) 0 12).
    - vm_compute. reflexivity.
    - lia. }
  assert (D : String.eqb (Calendar.padStart0 (NumberToString (ofZ day)) 2) (twoDigits day)
              && (String.length (twoDigits day) =? 2)%nat = true).
  { apply (in_range_forallb
             (fun d => String.eqb (Calendar.padStart0 (NumberToString (ofZ d)) 2) (twoDigits d)
                       && (String.length (twoDigits d) =? 2)%nat) 1 31).
    - vm_compute. reflexivity.
    - lia. }
  apply andb_prop in Y as [Y Yl], M as [M Ml], D as [D Dl].
  apply String.eqb_eq in Y, M, D. apply Nat.eqb_eq in Yl, Ml, Dl.
  unfold Calendar.dateStr. rewrite Y, M, D. split; [reflexivity|].
  rewrite !length_append, Yl, Ml, Dl. reflexivity.
Qed.

Lemma X27_calendar_key_format_witness : Calendar.dateStr 2025 0 5 = "2025-01-05".
Proof.
  destruct (X27_calendar_key_format 2025 0 5) as [H _]; [lia | lia | lia |].
  rewrite H. vm_compute. reflexivity.
Defined.

(** X28. The calendar marks a day once the day has a log, with entries or
    without: through any session the button of a day that had a log keeps
    its dot (when it is not the selected day), and after the entries of
    the day are deleted it keeps the dot still, while the history pane
    reports that the day has no record. *)
Theorem X28_emptied_day_keeps_its_dot (year month d : Z) (logs : gmap string DailyLog)
    (selectedDate : string) :
  let key := Calendar.dateStr year month d in
  d <> 0 -> is_Some (logs !! key) -> selectedDate <> key ->
  (forall acts,
     Calendar.cell year month (run acts logs) selectedDate (Some d)
     = Calendar.DayButton d key false true)
  /\ (forall foodId l,
      logs !! key = Some l -> Forall (fun f => id f = foodId) (foods l) ->
      Calendar.cell year month (handleDeleteFood key foodId logs) selectedDate (Some d)
      = Calendar.DayButton d key false true
      /\ Calendar.noRecord (handleDeleteFood key foodId logs) key = true).
Proof.
  intros key Hd Hl Hsel.
  assert (C : forall m : gmap string DailyLog, is_Some (m !! key) ->
            Calendar.cell year month m selectedDate (Some d)
            = Calendar.DayButton d key false true).
  { intros m Hm. cbn [Calendar.cell]. destruct (Z.eqb_spec d 0); [contradiction|].
    fold key. rewrite (bool_decide_eq_true_2 _ Hm).
    rewrite (proj2 (String.eqb_neq selectedDate key) Hsel). reflexivity. }
  split.
  - intros acts. apply C, run_keeps_days, Hl.
  - intros foodId l El Hall.
    destruct (delete_all_lookup key foodId logs l El Hall) as (l' & E' & Hf & _).
    split; [apply C; eauto|].
    unfold Calendar.noRecord. rewrite E', Hf. reflexivity.
Qed.

Lemma X28_emptied_day_keeps_its_dot_witness :
  Calendar.cell 2025 0 (run sampleSession ∅) "2025-01-02" (Some 1)
  = Calendar.DayButton 1 "2025-01-01" false true.
Proof.
  destruct (X28_emptied_day_keeps_its_dot 2025 0 1 (run (take 1 sampleSession) ∅) "2025-01-02")
    as [H _].
  - discriminate.
  - eexists. vm_compute. reflexivity.
  - vm_compute. discriminate.
  - apply (H (drop 1 sampleSession)).
Defined.

End CalendarFacts.
